(** * Podscrybe: LLM content generation with one repair attempt and fallback

    A shallow embedding of the four generation steps of the content pipeline
    (summary.ts, social-posts.ts, the titles step and youtube-timestamps.ts),
    and the properties of the "generate, validate, repair once, fall back"
    flow they share.

    Conventions of the embedding:
    - a JavaScript string is the list of its UTF-16 code units, so that
      [length] is [.length] and [firstn] is [substring(0, n)];
    - [await step.ai.wrap(id, createCompletion, body)] is one call to the
      completion endpoint; the endpoint is a parameter [step] that sees the
      calls made so far and either answers or throws;
    - exceptions are values of [Outcome]; [try ... catch] is [try_catch];
    - what the steps import from modules outside these four files (the
      Zod schemas of [@/schemas/ai-outputs], [formatTimestamp] of
      [@/lib/format]) and the JavaScript built-in [JSON.parse] are the
      fields of the class [Host];
    - what is written to the console is left out, but not what evaluating
      the arguments of a console line can throw: a parsed value placed in a
      template literal is converted to a string ([interpolate]), and
      [aiTitles.slice] must be callable. *)

From Stdlib Require Import String Ascii Bool ZArith NArith QArith List Lia.
From Stdlib Require Import DecimalString.
Import ListNotations.
Close Scope Q_scope.
Local Open Scope list_scope.

Set Implicit Arguments.

(* ===================================================================== *)
(** ** JavaScript strings *)
(* ===================================================================== *)

Definition codeunit := N.
Definition jsstring := list codeunit.

(** UTF-8 decoding of the bytes of a literal of this file into code points:
    [pending] continuation bytes are still expected for the code point whose
    high bits are in [acc]. *)
Fixpoint utf8_decode (pending : nat) (acc : N) (bytes : list N) : list N :=
  match bytes with
  | [] => []
  | b :: rest =>
      match pending with
      | O =>
          if (b <? 128)%N then b :: utf8_decode 0 0%N rest
          else if (b <? 224)%N then utf8_decode 1 (b mod 32)%N rest
          else if (b <? 240)%N then utf8_decode 2 (b mod 16)%N rest
          else utf8_decode 3 (b mod 8)%N rest
      | S O => (acc * 64 + b mod 64)%N :: utf8_decode 0 0%N rest
      | S p => utf8_decode p (acc * 64 + b mod 64)%N rest
      end
  end.

(** The UTF-16 code units of one code point (a surrogate pair above the
    basic plane). *)
Definition utf16_units (cp : N) : list codeunit :=
  if (cp <? 65536)%N then [cp]
  else [(55296 + (cp - 65536) / 1024)%N; (56320 + (cp - 65536) mod 1024)%N].

(** A string literal of the source, as a JavaScript string. *)
Definition js (s : string) : jsstring :=
  flat_map utf16_units
    (utf8_decode 0 0%N (map N_of_ascii (list_ascii_of_string s))).

(** The double quote, which a literal of this file cannot contain. *)
Definition dq : jsstring := [34%N].

Fixpoint jsstring_eqb (a b : jsstring) : bool :=
  match a, b with
  | [], [] => true
  | x :: a', y :: b' => (x =? y)%N && jsstring_eqb a' b'
  | _, _ => false
  end.

(** [s.substring(0, n)] and [a.slice(0, n)] for a literal [n >= 0]. *)
Definition substring0 (n : nat) (s : jsstring) : jsstring := firstn n s.
Definition slice0 {A : Type} (n : nat) (a : list A) : list A := firstn n a.

(** [a.join(sep)] on an array of strings. *)
Fixpoint join (sep : jsstring) (a : list jsstring) : jsstring :=
  match a with
  | [] => []
  | [x] => x
  | x :: rest => x ++ sep ++ join sep rest
  end.

(** [a.map((x, idx) => f(x, idx))]. *)
Fixpoint mapi_from {A B : Type} (i : nat) (f : A -> nat -> B) (a : list A)
  : list B :=
  match a with
  | [] => []
  | x :: rest => f x i :: mapi_from (S i) f rest
  end.
Definition mapi {A B : Type} (f : A -> nat -> B) (a : list A) : list B :=
  mapi_from 0 f a.

(** Template interpolation of an integer: its decimal digits. *)
Definition js_of_Z (z : Z) : jsstring :=
  js (NilZero.string_of_int (Z.to_int z)).
Definition js_of_nat (n : nat) : jsstring := js_of_Z (Z.of_nat n).

(** [a ?? b] and [a || b] on a possibly undefined string. *)
Definition nullish (a : option jsstring) (b : jsstring) : jsstring :=
  match a with Some s => s | None => b end.
Definition or_str (a : option jsstring) (b : jsstring) : jsstring :=
  match a with Some (c :: s) => c :: s | _ => b end.

(* ===================================================================== *)
(** ** Values produced by [JSON.parse] *)
(* ===================================================================== *)

(** A number is the exact value of the double; an object is the list of
    its own properties.  [undefined] is [None] of [option json]. *)
#[warnings="-register-all"]
Inductive json : Type :=
| JNull
| JBool (b : bool)
| JNum (q : Q)
| JStr (s : jsstring)
| JArr (elems : list json)
| JObj (props : list (jsstring * json)).

Fixpoint own_property (k : jsstring) (props : list (jsstring * json))
  : option json :=
  match props with
  | [] => None
  | (k', v) :: rest => if jsstring_eqb k k' then Some v else own_property k rest
  end.

(** ToBoolean. *)
Definition truthy (v : option json) : bool :=
  match v with
  | None => false
  | Some JNull => false
  | Some (JBool b) => b
  | Some (JNum q) => negb (Qeq_bool q 0)
  | Some (JStr s) => match s with [] => false | _ => true end
  | Some (JArr _) => true
  | Some (JObj _) => true
  end.

(** [v === n] for a number [n] of the program (a chapter index). *)
Definition strict_eq_index (v : option json) (n : nat) : bool :=
  match v with
  | Some (JNum q) => Qeq_bool q (inject_Z (Z.of_nat n))
  | _ => false
  end.

(* ===================================================================== *)
(** ** Exceptions *)
(* ===================================================================== *)

Inductive JsError : Type :=
| TransportError               (* the completion call rejected *)
| SyntaxError                  (* JSON.parse *)
| ZodError                     (* schema.parse *)
| TypeError                    (* property of null/undefined, call of a non-function *)
| Error (message : jsstring).  (* new Error(message) *)

Inductive Outcome (A : Type) : Type :=
| Return (a : A)
| Throw (e : JsError).
Arguments Return {A} a.
Arguments Throw {A} e.

Definition obind {A B : Type} (o : Outcome A) (k : A -> Outcome B)
  : Outcome B :=
  match o with
  | Return a => k a
  | Throw e => Throw e
  end.

Notation "x <~ c1 ;; c2" := (obind c1 (fun x => c2))
  (at level 61, c1 at next level, right associativity).

(** [o.k] where [o] may be undefined: a TypeError when it is. *)
Definition defined {A : Type} (o : option A) : Outcome A :=
  match o with
  | Some a => Return a
  | None => Throw TypeError
  end.

(** [v.k] on a parsed value, for the property names this program reads
    ([titles], [index], [title], [length]): [null.k] throws, an object
    answers with its own property, arrays and strings have a [length], and
    nothing else has any of these properties. *)
Definition get_prop (v : json) (k : jsstring) : Outcome (option json) :=
  match v with
  | JNull => Throw TypeError
  | JObj props => Return (own_property k props)
  | JArr elems =>
      Return (if jsstring_eqb k (js "length")
              then Some (JNum (inject_Z (Z.of_nat (length elems)))) else None)
  | JStr s =>
      Return (if jsstring_eqb k (js "length")
              then Some (JNum (inject_Z (Z.of_nat (length s)))) else None)
  | JBool _ | JNum _ => Return None
  end.

(** [a.find(pred)]: a TypeError unless [a] is an array (no other parsed
    value has a callable [find]); the elements after the first match are
    not visited. *)
Fixpoint find_first (pred : json -> Outcome bool) (elems : list json)
  : Outcome (option json) :=
  match elems with
  | [] => Return None
  | t :: rest =>
      b <~ pred t ;;
      if b then Return (Some t) else find_first pred rest
  end.
Definition Array_find (a : json) (pred : json -> Outcome bool)
  : Outcome (option json) :=
  match a with
  | JArr elems => find_first pred elems
  | _ => Throw TypeError
  end.

(** [a.slice(0, 3)], evaluated for its effect only: a TypeError unless [a]
    is an array or a string. *)
Definition slice_callable (a : json) : Outcome unit :=
  match a with
  | JArr _ | JStr _ => Return tt
  | _ => Throw TypeError
  end.

(** ToString of a parsed value cannot always be done: an object whose own
    property [toString] hides the inherited method has no method left to
    convert it (no parsed value is callable, and the inherited [valueOf]
    answers the object itself), and an array is joined from the conversions
    of its elements other than null. *)
Fixpoint ToString_throws (v : json) : bool :=
  match v with
  | JObj props =>
      match own_property (js "toString") props with
      | Some _ => true
      | None => false
      end
  | JArr elems => existsb ToString_throws elems
  | JNull | JBool _ | JNum _ | JStr _ => false
  end.

(** [`${v}`] inside a text for the console, evaluated for its effect only:
    a TypeError when ToString has no result. *)
Definition interpolate (v : option json) : Outcome unit :=
  match v with
  | Some x => if ToString_throws x then Throw TypeError else Return tt
  | None => Return tt
  end.

(** [a.map(f)] with a callback that may throw. *)
Fixpoint map_throwing {A B : Type} (f : A -> Outcome B) (a : list A)
  : Outcome (list B) :=
  match a with
  | [] => Return []
  | x :: rest =>
      y <~ f x ;;
      ys <~ map_throwing f rest ;;
      Return (y :: ys)
  end.

(* ===================================================================== *)
(** ** The completion endpoint and the effect monad *)
(* ===================================================================== *)

Record Message : Type := { role : jsstring; content : jsstring }.

(** The arguments of one [step.ai.wrap(id, createCompletion, body)]. *)
Record CompletionRequest : Type := {
  id : jsstring;
  model : jsstring;
  messages : list Message;
  temperature : Q;
  max_tokens : Z
}.

(** What the steps read of a [ChatCompletion]:
    [response.choices?.[0]?.message?.content]. *)
Record ChatCompletion : Type := { message_content : option jsstring }.

Definition CallLog := list CompletionRequest.

(** The [step] argument: given the calls already made and a request, the
    endpoint answers or throws. *)
Definition InngestStep := CallLog -> CompletionRequest -> Outcome ChatCompletion.

(** A computation that may call the endpoint: it extends the log of the
    calls made and returns or throws. *)
Definition M (A : Type) : Type := CallLog -> Outcome A * CallLog.

Definition ret {A : Type} (a : A) : M A := fun log => (Return a, log).
Definition throw {A : Type} (e : JsError) : M A := fun log => (Throw e, log).
Definition bind {A B : Type} (m : M A) (k : A -> M B) : M B :=
  fun log =>
    match m log with
    | (Return a, log') => k a log'
    | (Throw e, log') => (Throw e, log')
    end.
Definition lift {A : Type} (o : Outcome A) : M A := fun log => (o, log).
Definition try_catch {A : Type} (body : M A) (handler : JsError -> M A) : M A :=
  fun log =>
    match body log with
    | (Return a, log') => (Return a, log')
    | (Throw e, log') => handler e log'
    end.
Definition ai_wrap (step : InngestStep) (request : CompletionRequest)
  : M ChatCompletion :=
  fun log => (step log request, log ++ [request]).

Notation "x <- c1 ;; c2" := (bind c1 (fun x => c2))
  (at level 61, c1 at next level, right associativity).

(* ===================================================================== *)
(** ** Data model *)
(* ===================================================================== *)

(** A chapter of the speech service; [start] is in milliseconds. *)
Record Chapter : Type := {
  start : Z;
  headline : jsstring;
  summary : jsstring;
  gist : jsstring
}.

(** The transcript; [text] and [chapters] may be absent, as the optional
    chaining of the steps allows. *)
Record TranscriptWithExtras : Type := {
  text : option jsstring;
  chapters : option (list Chapter)
}.

Record Summary : Type := {
  full : jsstring;
  bullets : list jsstring;
  insights : list jsstring;
  tldr : jsstring
}.

Record SocialPosts : Type := {
  twitter : jsstring;
  linkedin : jsstring;
  instagram : jsstring;
  tiktok : jsstring;
  youtube : jsstring;
  facebook : jsstring
}.

Record Titles : Type := {
  youtubeShort : list jsstring;
  youtubeLong : list jsstring;
  podcastTitles : list jsstring;
  seoKeywords : list jsstring
}.

Record YouTubeTimestamp : Type := {
  timestamp : jsstring;
  description : json
}.

(** What the steps use without defining it. *)
Class Host : Type := {
  (** [JSON.parse]; [None] when it throws a SyntaxError. *)
  JSON_parse : jsstring -> option json;
  (** [summarySchema.parse], [socialPostsSchema.parse], [titlesSchema.parse]
      of [@/schemas/ai-outputs]; [None] when they throw a ZodError. *)
  summarySchema_parse : json -> option Summary;
  socialPostsSchema_parse : json -> option SocialPosts;
  titlesSchema_parse : json -> option Titles;
  (** [formatTimestamp(seconds, { padHours: false })] of [@/lib/format]. *)
  formatTimestamp : Z -> jsstring;
  (** The comparison [v > 0] on a parsed value that is not a number of the
      program: ToPrimitive may throw, ToNumber decides. *)
  gt_zero : json -> Outcome bool
}.

Definition JSON_parse_or_throw `{Host} (s : jsstring) : Outcome json :=
  match JSON_parse s with
  | Some v => Return v
  | None => Throw SyntaxError
  end.

Definition schema_parse {A : Type} (schema : json -> option A) (v : json)
  : Outcome A :=
  match schema v with
  | Some a => Return a
  | None => Throw ZodError
  end.

(* ===================================================================== *)
(** ** The fixed text of the prompts *)
(* ===================================================================== *)

(** The system prompt of the summary step. *)
Definition SUMMARY_SYSTEM_PROMPT : jsstring :=
  js "You are an expert podcast content analyst and marketing strategist. Your summaries are engaging, insightful, and highlight the most valuable takeaways for listeners. ALWAYS return STRICT JSON only that matches the shape: { full: string, bullets: string[], insights: string[], tldr: string } — no explanation, no extra text.".

(** The text of the summary prompt before the transcript excerpt. *)
Definition SUMMARY_PROMPT_HEAD : jsstring :=
  js "Analyze this podcast transcript in detail and create a comprehensive summary package.

TRANSCRIPT (first 3000 chars):
".

(** The text of the summary prompt after the chapters. *)
Definition SUMMARY_PROMPT_TAIL : jsstring :=
  js "

Create a summary with:

1. FULL OVERVIEW (200-300 words):
   - What is this podcast about?
   - Who is speaking and what's their perspective?
   - What are the main themes and arguments?
   - Why should someone listen to this?

2. KEY BULLET POINTS (5-7 items):
   - Main topics discussed in order
   - Important facts or statistics mentioned
   - Key arguments or positions taken
   - Notable quotes or moments

3. ACTIONABLE INSIGHTS (3-5 items):
   - What can listeners learn or apply?
   - Key takeaways that provide value
   - Perspectives that challenge conventional thinking
   - Practical advice or recommendations

4. TL;DR (one compelling sentence):
   - Capture the essence and hook interest
   - Make someone want to listen

Be specific, engaging, and valuable. Focus on what makes this podcast unique and worth listening to.".

(** The system prompt of the titles step. *)
Definition TITLES_SYSTEM_PROMPT : jsstring :=
  js "You are an expert in SEO, content marketing, and viral content creation. You understand what makes titles clickable while maintaining credibility and search rankings. ALWAYS return STRICT JSON only that matches the shape: { youtubeShort: string[], youtubeLong: string[], podcastTitles: string[], seoKeywords: string[] } — no explanation, no extra text.".

(** The text of the titles prompt before the transcript excerpt. *)
Definition TITLES_PROMPT_HEAD : jsstring :=
  js "Return STRICT JSON ONLY (no explanation, no backticks).
The JSON must match this shape:
{
  " ++ dq ++ js "youtubeShort" ++ dq ++ js ": [" ++ dq ++ js "string" ++ dq ++ js "," ++ dq ++ js "string" ++ dq ++ js "," ++ dq ++ js "string" ++ dq ++ js "], // exactly 3, 40-60 chars each
  " ++ dq ++ js "youtubeLong" ++ dq ++ js ": [" ++ dq ++ js "string" ++ dq ++ js "," ++ dq ++ js "string" ++ dq ++ js "," ++ dq ++ js "string" ++ dq ++ js "],  // exactly 3, 70-100 chars each
  " ++ dq ++ js "podcastTitles" ++ dq ++ js ": [" ++ dq ++ js "string" ++ dq ++ js "," ++ dq ++ js "string" ++ dq ++ js "," ++ dq ++ js "string" ++ dq ++ js "], // exactly 3
  " ++ dq ++ js "seoKeywords" ++ dq ++ js ": [" ++ dq ++ js "string" ++ dq ++ js ", " ++ dq ++ js "..." ++ dq ++ js "] // 5-10 items
}

Create optimized titles for this podcast episode.

TRANSCRIPT PREVIEW:
".

(** The text of the titles prompt after the chapters. *)
Definition TITLES_PROMPT_TAIL : jsstring :=
  js "

Generate 4 types of titles:

1. YOUTUBE SHORT TITLES (exactly 3):
   - 40-60 characters each
   - Hook-focused, curiosity-driven
   - Clickable but not clickbait
   - Use power words and numbers when relevant

2. YOUTUBE LONG TITLES (exactly 3):
   - 70-100 characters each
   - Include SEO keywords naturally
   - Descriptive and informative
   - Format: " ++ dq ++ js "Main Topic: Subtitle | Context or Value Prop" ++ dq ++ js "

3. PODCAST EPISODE TITLES (exactly 3):
   - Creative, memorable titles
   - Balance intrigue with clarity
   - Good for RSS feeds and directories
   - Can use " ++ dq ++ js "Episode #" ++ dq ++ js " format or standalone

4. SEO KEYWORDS (5-10):
   - High-traffic search terms
   - Relevant to podcast content
   - Mix of broad and niche terms
   - Focus on what people actually search for

Make titles compelling, accurate, and optimized for discovery.".

(** The system prompt of the social posts step. *)
Definition SOCIAL_SYSTEM_PROMPT : jsstring :=
  js "You are a viral social media marketing expert who understands each platform's unique audience, tone, and best practices. You create platform-optimized content that drives engagement and grows audiences. ALWAYS return valid JSON only, with the exact keys: twitter, linkedin, instagram, tiktok, youtube, facebook.".

(** The text of the social prompt before the episode summary. *)
Definition SOCIAL_PROMPT_HEAD : jsstring :=
  js "Return STRICT JSON ONLY (no explanation, no backticks).
The JSON must match this shape:

{
  " ++ dq ++ js "twitter" ++ dq ++ js ": " ++ dq ++ js "string (<=280 chars)" ++ dq ++ js ",
  " ++ dq ++ js "linkedin" ++ dq ++ js ": " ++ dq ++ js "string" ++ dq ++ js ",
  " ++ dq ++ js "instagram" ++ dq ++ js ": " ++ dq ++ js "string" ++ dq ++ js ",
  " ++ dq ++ js "tiktok" ++ dq ++ js ": " ++ dq ++ js "string" ++ dq ++ js ",
  " ++ dq ++ js "youtube" ++ dq ++ js ": " ++ dq ++ js "string" ++ dq ++ js ",
  " ++ dq ++ js "facebook" ++ dq ++ js ": " ++ dq ++ js "string" ++ dq ++ js "
}

PODCAST SUMMARY:
".

(** The text of the social prompt between the episode summary and the topics. *)
Definition SOCIAL_PROMPT_TOPICS : jsstring :=
  js "

KEY TOPICS DISCUSSED:
".

(** The text of the social prompt after the topics. *)
Definition SOCIAL_PROMPT_TAIL : jsstring :=
  js "

Now generate 6 unique posts optimized for each platform with the following constraints:

1. TWITTER/X (MAXIMUM 280 characters - STRICT LIMIT):
   - Start with a hook that stops scrolling
   - Include the main value proposition or insight
   - Make it thread-worthy
   - Conversational, punchy tone
   - Can include emojis but use sparingly
   - CRITICAL: Must be 280 characters or less, including spaces and emojis

2. LINKEDIN (1-2 paragraphs):
   - Professional, thought-leadership tone
   - Lead with an insight, question, or stat
   - Provide business/career value
   - End with an engagement question or CTA
   - Avoid excessive emojis

3. INSTAGRAM (caption):
   - Engaging storytelling approach
   - Use emojis strategically (2-4 max)
   - Build community connection
   - Include call-to-action
   - Personal and relatable

4. TIKTOK (short caption):
   - Gen Z friendly, energetic tone
   - Use trending language/slang
   - Very concise and punchy
   - Create FOMO or curiosity
   - Emojis welcome

5. YOUTUBE (detailed description):
   - SEO-friendly, keyword-rich
   - Explain what viewers will learn
   - Professional but engaging
   - Include episode highlights
   - Can be longer (2-3 paragraphs)

6. FACEBOOK (2-3 paragraphs):
   - Conversational, relatable tone
   - Shareable content approach
   - Community-focused
   - End with question or discussion prompt
   - Mix of personal and informative

Return only JSON, matching the schema exactly.".

(** The text of the chapter titles prompt before the number of chapters. *)
Definition TIMESTAMPS_PROMPT_HEAD : jsstring :=
  js "You are a YouTube content optimization expert. Create SHORT CHAPTER TITLES for a video.

CRITICAL INSTRUCTIONS:
- DO NOT copy the transcript text
- DO NOT write full sentences
- Create 3-6 word TITLES only
- Think of these as chapter headings, not subtitles

I have ".

(** The text of the chapter titles prompt between the number of chapters and the chapters. *)
Definition TIMESTAMPS_PROMPT_COUNT : jsstring :=
  js " chapters with timestamps. For each one, create a SHORT, CATCHY TITLE.

CHAPTERS:
".

(** The text of the chapter titles prompt after the chapters. *)
Definition TIMESTAMPS_PROMPT_TAIL : jsstring :=
  js "

YOUR TASK:
Transform each chapter into a 3-6 word YouTube chapter title.

EXAMPLES OF GOOD TITLES:
✓ " ++ dq ++ js "Introduction to N8N Automation" ++ dq ++ js " (5 words, descriptive title)
✓ " ++ dq ++ js "Setting Up Your Account" ++ dq ++ js " (4 words, action-oriented)
✓ " ++ dq ++ js "Telegram Bot Creation" ++ dq ++ js " (3 words, clear and concise)
✓ " ++ dq ++ js "Building Multi-Agent Workflows" ++ dq ++ js " (3 words, technical but clear)
✓ " ++ dq ++ js "Testing the News Agent" ++ dq ++ js " (4 words, specific feature)

EXAMPLES OF BAD RESPONSES (DO NOT DO THIS):
✗ " ++ dq ++ js "Today we are diving into n8n one of the most underrated" ++ dq ++ js " (transcript excerpt)
✗ " ++ dq ++ js "One click setup with n8n com allows you to get" ++ dq ++ js " (full sentence from transcript)
✗ " ++ dq ++ js "So we want to give Sarah some instructions so she knows" ++ dq ++ js " (conversational transcript)

Return ONLY valid JSON in this exact format:
{
  " ++ dq ++ js "titles" ++ dq ++ js ": [
    {" ++ dq ++ js "index" ++ dq ++ js ": 0, " ++ dq ++ js "title" ++ dq ++ js ": " ++ dq ++ js "Introduction to N8N Automation" ++ dq ++ js "},
    {" ++ dq ++ js "index" ++ dq ++ js ": 1, " ++ dq ++ js "title" ++ dq ++ js ": " ++ dq ++ js "Setting Up Your Account" ++ dq ++ js "},
    {" ++ dq ++ js "index" ++ dq ++ js ": 2, " ++ dq ++ js "title" ++ dq ++ js ": " ++ dq ++ js "Building Your First Bot" ++ dq ++ js "}
  ]
}

Remember: Create TITLES, not transcript excerpts!".

(* ===================================================================== *)
(** ** Summary (summary.ts) *)
(* ===================================================================== *)

Definition GROQ_MODEL : jsstring := js "llama-3.1-70b-versatile".

(** [buildSummaryPrompt]: reading [transcript.text.substring] or
    [transcript.chapters.length] of an absent field throws. *)
Definition buildSummaryPrompt (transcript : TranscriptWithExtras)
  : Outcome jsstring :=
  txt <~ defined (text transcript) ;;
  chs <~ defined (chapters transcript) ;;
  Return
    (SUMMARY_PROMPT_HEAD ++ substring0 3000 txt ++ js "...

" ++ (if 0 <? length chs
      then js "
AUTO-DETECTED CHAPTERS:
" ++ join (js "
") (mapi (fun ch idx =>
             js_of_nat (idx + 1) ++ js ". " ++ headline ch ++ js " - "
               ++ summary ch) chs)
      else [])
     ++ SUMMARY_PROMPT_TAIL).

Definition summary_repair_message : jsstring :=
  js "Previous response wasn't valid JSON. Reply with STRICT JSON only that matches this shape: { full: string, bullets: string[], insights: string[], tldr: string }. No explanation.".

(** The value of the inner [catch (repairError)]. *)
Definition summary_repair_fallback (transcript : TranscriptWithExtras)
  : Outcome Summary :=
  txt <~ defined (text transcript) ;;
  Return {| full := substring0 500 txt;
            bullets := [js "Full transcript available"];
            insights := [js "See transcript"];
            tldr := substring0 200 txt |}.

(** The value of the outer [catch (error)]. *)
Definition summary_error_fallback : Summary :=
  {| full := js "⚠️ Error generating summary with GROQ. Please check logs or try again.";
     bullets := [js "Summary generation failed - see full transcript"];
     insights := [js "Error occurred during AI generation"];
     tldr := js "Summary generation failed" |}.

Definition summary_request (prompt : jsstring) : CompletionRequest :=
  {| id := js "generate-summary-with-groq";
     model := GROQ_MODEL;
     messages := [ {| role := js "system"; content := SUMMARY_SYSTEM_PROMPT |};
                   {| role := js "user"; content := prompt |} ];
     temperature := 0.2;
     max_tokens := 800 |}.

Definition summary_repair_request : CompletionRequest :=
  {| id := js "repair-summary-json";
     model := GROQ_MODEL;
     messages := [ {| role := js "system"; content := SUMMARY_SYSTEM_PROMPT |};
                   {| role := js "user"; content := summary_repair_message |} ];
     temperature := 0.0;
     max_tokens := 600 |}.

Definition generateSummary `{Host} (step : InngestStep)
    (transcript : TranscriptWithExtras) : M Summary :=
  try_catch
    (prompt <- lift (buildSummaryPrompt transcript) ;;
     response <- ai_wrap step (summary_request prompt) ;;
     let content := nullish (message_content response) [] in
     try_catch
       (parsed <- lift (JSON_parse_or_throw content) ;;
        lift (schema_parse summarySchema_parse parsed))
       (fun parseOrValidationError =>
          try_catch
            (repairResponse <- ai_wrap step summary_repair_request ;;
             let repairedContent := nullish (message_content repairResponse) [] in
             repairedParsed <- lift (JSON_parse_or_throw repairedContent) ;;
             lift (schema_parse summarySchema_parse repairedParsed))
            (fun repairError => lift (summary_repair_fallback transcript))))
    (fun error => ret summary_error_fallback).

(* ===================================================================== *)
(** ** Titles *)
(* ===================================================================== *)

Definition buildTitlesPrompt (transcript : TranscriptWithExtras)
  : Outcome jsstring :=
  txt <~ defined (text transcript) ;;
  chs <~ defined (chapters transcript) ;;
  Return
    (TITLES_PROMPT_HEAD ++ substring0 2000 txt ++ js "...

" ++ (if 0 <? length chs
      then js "MAIN TOPICS COVERED:
" ++ join (js "
") (mapi (fun ch idx => js_of_nat (idx + 1) ++ js ". " ++ headline ch) chs)
      else [])
     ++ TITLES_PROMPT_TAIL).

Definition titles_repair_message : jsstring :=
  js "Previous response wasn't valid JSON. Reply with STRICT JSON only matching keys: youtubeShort (3 items), youtubeLong (3 items), podcastTitles (3 items), seoKeywords (5-10 items). No explanation.".

(** The value of the inner [catch (repairError)]. *)
Definition titles_repair_fallback : Titles :=
  {| youtubeShort := [js "Podcast Episode"; js "New Podcast Episode"; js "Episode Highlights"];
     youtubeLong := [js "Podcast Episode - Full Discussion";
                     js "Deep Dive: Episode Topic | Insights";
                     js "Episode Title: Expert Conversation"];
     podcastTitles := [js "New Episode"; js "Episode Title"; js "Latest Episode"];
     seoKeywords := [js "podcast"; js "episode"; js "discussion"; js "interview";
                     js "insights"] |}.

(** The value of the outer [catch (error)]. *)
Definition titles_error_fallback : Titles :=
  {| youtubeShort := [js "⚠️ Title generation failed"];
     youtubeLong := [js "⚠️ Title generation failed - check logs"];
     podcastTitles := [js "⚠️ Title generation failed"];
     seoKeywords := [js "error"] |}.

Definition titles_request (prompt : jsstring) : CompletionRequest :=
  {| id := js "generate-titles-with-groq";
     model := GROQ_MODEL;
     messages := [ {| role := js "system"; content := TITLES_SYSTEM_PROMPT |};
                   {| role := js "user"; content := prompt |} ];
     temperature := 0.2;
     max_tokens := 400 |}.

Definition titles_repair_request : CompletionRequest :=
  {| id := js "repair-titles-json";
     model := GROQ_MODEL;
     messages := [ {| role := js "system"; content := TITLES_SYSTEM_PROMPT |};
                   {| role := js "user"; content := titles_repair_message |} ];
     temperature := 0.0;
     max_tokens := 300 |}.

Definition generateTitles `{Host} (step : InngestStep)
    (transcript : TranscriptWithExtras) : M Titles :=
  try_catch
    (prompt <- lift (buildTitlesPrompt transcript) ;;
     response <- ai_wrap step (titles_request prompt) ;;
     let titlesContent := nullish (message_content response) [] in
     try_catch
       (parsed <- lift (JSON_parse_or_throw titlesContent) ;;
        lift (schema_parse titlesSchema_parse parsed))
       (fun parseOrValidationError =>
          try_catch
            (repairResponse <- ai_wrap step titles_repair_request ;;
             let repairedContent := nullish (message_content repairResponse) [] in
             repairedParsed <- lift (JSON_parse_or_throw repairedContent) ;;
             lift (schema_parse titlesSchema_parse repairedParsed))
            (fun repairError => ret titles_repair_fallback)))
    (fun error => ret titles_error_fallback).

(* ===================================================================== *)
(** ** Social posts (social-posts.ts) *)
(* ===================================================================== *)

(** [transcript.chapters?.[0]?.summary]. *)
Definition first_chapter_summary (transcript : TranscriptWithExtras)
  : option jsstring :=
  match chapters transcript with
  | Some (ch :: _) => Some (summary ch)
  | _ => None
  end.

(** [buildSocialPrompt]: every access is optional, nothing throws. *)
Definition buildSocialPrompt (transcript : TranscriptWithExtras) : jsstring :=
  SOCIAL_PROMPT_HEAD
  ++ or_str (Some (or_str (first_chapter_summary transcript)
                      (or_str (option_map (substring0 500) (text transcript)) [])))
       (js "No summary available.")
  ++ SOCIAL_PROMPT_TOPICS
  ++ or_str (option_map
               (fun chs =>
                  join (js "
") (mapi (fun ch idx => js_of_nat (idx + 1) ++ js ". " ++ headline ch)
                      (slice0 5 chs)))
               (chapters transcript))
       (js "See transcript")
  ++ SOCIAL_PROMPT_TAIL.

Definition social_repair_message : jsstring :=
  js "The previous response was not valid JSON. Reply with STRICT JSON only, matching keys: twitter, linkedin, instagram, tiktok, youtube, facebook. No explanation.".

(** The value of the inner [catch (repairError)]. *)
Definition social_repair_fallback : SocialPosts :=
  {| twitter := js "New podcast episode!";
     linkedin := js "Check out our latest podcast.";
     instagram := js "New episode out now! üéôÔ∏è";
     tiktok := js "New podcast!";
     youtube := js "Watch our latest episode.";
     facebook := js "New podcast available!" |}.

(** The value of the outer [catch (error)]. *)
Definition social_error_fallback : SocialPosts :=
  {| twitter := js "‚ö†Ô∏è Error generating social post. Check logs for details.";
     linkedin := js "‚ö†Ô∏è Error generating social post. Check logs for details.";
     instagram := js "‚ö†Ô∏è Error generating social post. Check logs for details.";
     tiktok := js "‚ö†Ô∏è Error generating social post. Check logs for details.";
     youtube := js "‚ö†Ô∏è Error generating social post. Check logs for details.";
     facebook := js "‚ö†Ô∏è Error generating social post. Check logs for details." |}.

(** [socialPosts.twitter = ...]: the assignment to one field. *)
Definition set_twitter (p : SocialPosts) (s : jsstring) : SocialPosts :=
  {| twitter := s;
     linkedin := linkedin p;
     instagram := instagram p;
     tiktok := tiktok p;
     youtube := youtube p;
     facebook := facebook p |}.

(** The safety check after validation. *)
Definition enforce_twitter_limit (socialPosts : SocialPosts) : SocialPosts :=
  if 280 <? length (twitter socialPosts)
  then set_twitter socialPosts (substring0 277 (twitter socialPosts) ++ js "...")
  else socialPosts.

Definition social_request (prompt : jsstring) : CompletionRequest :=
  {| id := js "generate-social-posts-with-groq";
     model := GROQ_MODEL;
     messages := [ {| role := js "system"; content := SOCIAL_SYSTEM_PROMPT |};
                   {| role := js "user"; content := prompt |} ];
     temperature := 0.2;
     max_tokens := 800 |}.

Definition social_repair_request : CompletionRequest :=
  {| id := js "repair-social-posts-json";
     model := GROQ_MODEL;
     messages := [ {| role := js "system"; content := SOCIAL_SYSTEM_PROMPT |};
                   {| role := js "user"; content := social_repair_message |} ];
     temperature := 0.0;
     max_tokens := 600 |}.

Definition generateSocialPosts `{Host} (step : InngestStep)
    (transcript : TranscriptWithExtras) : M SocialPosts :=
  try_catch
    (response <- ai_wrap step (social_request (buildSocialPrompt transcript)) ;;
     let content := nullish (message_content response) [] in
     socialPosts <-
       try_catch
         (parsed <- lift (JSON_parse_or_throw content) ;;
          lift (schema_parse socialPostsSchema_parse parsed))
         (fun parseOrValidationError =>
            try_catch
              (repairResponse <- ai_wrap step social_repair_request ;;
               let repairedContent := nullish (message_content repairResponse) [] in
               repairedParsed <- lift (JSON_parse_or_throw repairedContent) ;;
               lift (schema_parse socialPostsSchema_parse repairedParsed))
              (fun repairError => ret social_repair_fallback)) ;;
     ret (enforce_twitter_limit socialPosts))
    (fun error => ret social_error_fallback).

(* ===================================================================== *)
(** ** YouTube timestamps (youtube-timestamps.ts) *)
(* ===================================================================== *)

(** An element of [chapterData]. *)
Record ChapterData : Type := {
  index : nat;
  cd_timestamp : Z;
  cd_headline : jsstring;
  cd_summary : jsstring;
  cd_gist : jsstring
}.

(** An element of [aiTimestamps]: the seconds and the description, which is
    whatever value the reply carried as a title. *)
Record AiTimestamp : Type := {
  ai_timestamp : Z;
  ai_description : json
}.

Definition no_chapters_error : JsError :=
  Error (js "No chapters available from AssemblyAI. Cannot generate YouTube timestamps.").

(** [chaptersToUse.map((chapter, idx) => ...)]; [Math.floor(start / 1000)]
    is the floored quotient. *)
Definition chapterData_of (chaptersToUse : list Chapter) : list ChapterData :=
  mapi (fun chapter idx =>
          {| index := idx;
             cd_timestamp := (start chapter / 1000)%Z;
             cd_headline := headline chapter;
             cd_summary := summary chapter;
             cd_gist := gist chapter |})
       chaptersToUse.

Definition timestamps_prompt (chapterData : list ChapterData) : jsstring :=
  TIMESTAMPS_PROMPT_HEAD ++ js_of_nat (length chapterData)
  ++ TIMESTAMPS_PROMPT_COUNT
  ++ join (js "

") (mapi (fun ch idx =>
            js "Chapter " ++ js_of_nat idx ++ js ": [" ++ js_of_Z (cd_timestamp ch)
              ++ js "s]
Context: " ++ cd_headline ch ++ js "
Summary: " ++ cd_summary ch) chapterData)
  ++ TIMESTAMPS_PROMPT_TAIL.

Definition timestamps_system_prompt : jsstring :=
  js "You are a YouTube content expert who creates SHORT, DESCRIPTIVE TITLES for video chapters. CRITICAL: You create TITLES (like 'Introduction to AI'), NOT transcript text or full sentences. Always respond with valid JSON only.".

Definition timestamps_repair_system_prompt : jsstring :=
  js "You are a YouTube content expert. Previous response was not valid JSON. Reply with STRICT JSON only matching { titles: [{ index: number, title: string }] }. No explanation.".

Definition timestamps_repair_message : jsstring :=
  js "Previous output was malformed. Reply with valid JSON only. Use the same chapter order and provide a 'titles' array with objects { index, title }.".

(** The content assumed when the reply has none: an empty list of titles. *)
Definition empty_titles_content : jsstring :=
  js "{" ++ dq ++ js "titles" ++ dq ++ js ":[]}".

(** [v || d] on a parsed value. *)
Definition or_json (v : option json) (d : json) : json :=
  match v with
  | Some x => if truthy v then x else d
  | None => d
  end.

(** [parsed.titles || []]. *)
Definition titles_or_empty (parsed : json) : Outcome json :=
  titles <~ get_prop parsed (js "titles") ;;
  Return (or_json titles (JArr [])).

(** [aiTitles.length > 0]. *)
Definition length_gt_zero `{Host} (aiTitles : json) : Outcome bool :=
  len <~ get_prop aiTitles (js "length") ;;
  match len with
  | None => Return false
  | Some JNull => Return false
  | Some (JBool b) => Return b
  | Some (JNum q) => Return (negb (Qle_bool q 0))
  | Some v => gt_zero v
  end.

(** [`... ${aiTitles.length} ...`], the text of a console line. *)
Definition interpolate_length (aiTitles : json) : Outcome unit :=
  len <~ get_prop aiTitles (js "length") ;;
  interpolate len.

(** The body of the first [try]: parse, take the titles, log how many there
    are and, when there are any, the first three of them. *)
Definition parse_titles `{Host} (content : jsstring) : Outcome json :=
  parsed <~ JSON_parse_or_throw content ;;
  aiTitles <~ titles_or_empty parsed ;;
  _ <~ interpolate_length aiTitles ;;
  some <~ length_gt_zero aiTitles ;;
  _ <~ (if some then slice_callable aiTitles else Return tt) ;;
  Return aiTitles.

(** The body of the repair [try] after its call: parse, take the titles,
    log how many there are. *)
Definition parse_repaired_titles `{Host} (repairedContent : jsstring)
  : Outcome json :=
  repairedParsed <~ JSON_parse_or_throw repairedContent ;;
  aiTitles <~ titles_or_empty repairedParsed ;;
  _ <~ interpolate_length aiTitles ;;
  Return aiTitles.

(** The callback of [chapterData.map]: the first title whose index is the
    chapter's, or else the chapter's headline. *)
Definition title_chapter (aiTitles : json) (chapter : ChapterData)
  : Outcome AiTimestamp :=
  aiTitle <~ Array_find aiTitles
            (fun t => i <~ get_prop t (js "index") ;;
                      Return (strict_eq_index i (index chapter))) ;;
  title <~ match aiTitle with
           | Some t => get_prop t (js "title")
           | None => Return None
           end ;;
  Return {| ai_timestamp := cd_timestamp chapter;
            ai_description := or_json title (JStr (cd_headline chapter)) |}.

(** [`${t.timestamp}s: ${t.description}`], the text of a console line; the
    seconds are a number of the program. *)
Definition log_line (t : AiTimestamp) : Outcome unit :=
  interpolate (Some (ai_description t)).

Definition primary_titles_request (prompt : jsstring) : CompletionRequest :=
  {| id := js "generate-youtube-titles-with-groq";
     model := GROQ_MODEL;
     messages := [ {| role := js "system"; content := timestamps_system_prompt |};
                   {| role := js "user"; content := prompt |} ];
     temperature := 0.15;
     max_tokens := 1500 |}.

Definition repair_titles_request : CompletionRequest :=
  {| id := js "repair-youtube-titles-json";
     model := GROQ_MODEL;
     messages := [ {| role := js "system"; content := timestamps_repair_system_prompt |};
                   {| role := js "user"; content := timestamps_repair_message |} ];
     temperature := 0.0;
     max_tokens := 800 |}.

(** From the primary call to the value of [aiTitles] that the chapters are
    combined with. *)
Definition resolve_titles `{Host} (step : InngestStep) (prompt : jsstring)
  : M json :=
  response <- ai_wrap step (primary_titles_request prompt) ;;
  let content := or_str (message_content response) empty_titles_content in
  try_catch
    (lift (parse_titles content))
    (fun error =>
       try_catch
         (repairResponse <- ai_wrap step repair_titles_request ;;
          let repairedContent := nullish (message_content repairResponse) [] in
          lift (parse_repaired_titles repairedContent))
         (fun repairError => ret (JArr []))).

Definition generateYouTubeTimestamps `{Host} (step : InngestStep)
    (transcript : TranscriptWithExtras) : M (list YouTubeTimestamp) :=
  let chapters' := match chapters transcript with Some c => c | None => [] end in
  if length chapters' =? 0 then throw no_chapters_error
  else
    let chaptersToUse := slice0 100 chapters' in
    let chapterData := chapterData_of chaptersToUse in
    let prompt := timestamps_prompt chapterData in
    aiTitles <- resolve_titles step prompt ;;
    aiTimestamps <- lift (map_throwing (title_chapter aiTitles) chapterData) ;;
    _ <- lift (map_throwing log_line (slice0 3 aiTimestamps)) ;;
    ret (map (fun item =>
                {| timestamp := formatTimestamp (ai_timestamp item);
                   description := ai_description item |})
             aiTimestamps).

(* ===================================================================== *)
(** ** The imported schemas and helpers, from their description *)
(* ===================================================================== *)

Definition as_string (v : option json) : option jsstring :=
  match v with
  | Some (JStr s) => Some s
  | _ => None
  end.

Fixpoint as_strings (elems : list json) : option (list jsstring) :=
  match elems with
  | [] => Some []
  | JStr s :: rest => option_map (cons s) (as_strings rest)
  | _ :: _ => None
  end.

Definition as_string_array (v : option json) : option (list jsstring) :=
  match v with
  | Some (JArr elems) => as_strings elems
  | _ => None
  end.

Definition field (v : json) (k : string) : option json :=
  match v with
  | JObj props => own_property (js k) props
  | _ => None
  end.

Definition sized (lo hi : nat) (a : option (list jsstring))
  : option (list jsstring) :=
  match a with
  | Some l => if (lo <=? length l) && (length l <=? hi) then Some l else None
  | None => None
  end.

(** Modelled from the spec: [summarySchema] of [@/schemas/ai-outputs] is
    not among the sources; the declared shape is
    [{ full: string, bullets: string[], insights: string[], tldr: string }]. *)
Definition summarySchema_spec (v : json) : option Summary :=
  match as_string (field v "full"), as_string_array (field v "bullets"),
        as_string_array (field v "insights"), as_string (field v "tldr") with
  | Some f, Some b, Some i, Some t =>
      Some {| full := f; bullets := b; insights := i; tldr := t |}
  | _, _, _, _ => None
  end.

(** Modelled from the spec: [socialPostsSchema] of [@/schemas/ai-outputs]
    is not among the sources; the declared shape is six string fields, the
    280 character cap of [twitter] being enforced after validation. *)
Definition socialPostsSchema_spec (v : json) : option SocialPosts :=
  match as_string (field v "twitter"), as_string (field v "linkedin"),
        as_string (field v "instagram"), as_string (field v "tiktok"),
        as_string (field v "youtube"), as_string (field v "facebook") with
  | Some tw, Some li, Some ig, Some tk, Some yt, Some fb =>
      Some {| twitter := tw; linkedin := li; instagram := ig; tiktok := tk;
              youtube := yt; facebook := fb |}
  | _, _, _, _, _, _ => None
  end.

(** Modelled from the spec: [titlesSchema] of [@/schemas/ai-outputs] is not
    among the sources; the declared shape is
    [{ youtubeShort: string[3], youtubeLong: string[3],
       podcastTitles: string[3], seoKeywords: string[5..10] }]. *)
Definition titlesSchema_spec (v : json) : option Titles :=
  match sized 3 3 (as_string_array (field v "youtubeShort")),
        sized 3 3 (as_string_array (field v "youtubeLong")),
        sized 3 3 (as_string_array (field v "podcastTitles")),
        sized 5 10 (as_string_array (field v "seoKeywords")) with
  | Some s, Some l, Some p, Some k =>
      Some {| youtubeShort := s; youtubeLong := l; podcastTitles := p;
              seoKeywords := k |}
  | _, _, _, _ => None
  end.

Definition pad2 (z : Z) : jsstring :=
  if (z <? 10)%Z then js "0" ++ js_of_Z z else js_of_Z z.

(** Modelled from the spec: [formatTimestamp] of [@/lib/format] is not
    among the sources; a timestamp reads [MM:SS] or [HH:MM:SS], the hours
    being left out when there are none, and second 0 reads [0:00]. *)
Definition formatTimestamp_spec (seconds : Z) : jsstring :=
  let hours := (seconds / 3600)%Z in
  let minutes := ((seconds mod 3600) / 60)%Z in
  let secs := (seconds mod 60)%Z in
  if (0 <? hours)%Z
  then js_of_Z hours ++ js ":" ++ pad2 minutes ++ js ":" ++ pad2 secs
  else js_of_Z minutes ++ js ":" ++ pad2 secs.

(** [JSON.parse] on the texts of a table, which lists each text with the
    value it denotes; any other text is taken as malformed. *)
Fixpoint parse_by_table (table : list (jsstring * json)) (s : jsstring)
  : option json :=
  match table with
  | [] => None
  | (s', v) :: rest => if jsstring_eqb s s' then Some v else parse_by_table rest s
  end.

(** The host of the examples: the schemas and the formatter as described,
    [JSON.parse] by a table, and a comparison that no example reaches. *)
Definition example_host (table : list (jsstring * json)) : Host :=
  {| JSON_parse := parse_by_table table;
     summarySchema_parse := summarySchema_spec;
     socialPostsSchema_parse := socialPostsSchema_spec;
     titlesSchema_parse := titlesSchema_spec;
     formatTimestamp := formatTimestamp_spec;
     gt_zero := fun _ => Return false |}.

(* ===================================================================== *)
(** ** Vocabulary of the properties *)
(* ===================================================================== *)

(** A run that started with the calls [before] issued at most [n] more. *)
Definition issued_at_most {A : Type} (n : nat) (before : CallLog)
    (run : Outcome A * CallLog) : Prop :=
  exists calls, snd run = before ++ calls /\ length calls <= n.

(** The element [t] of the titles carries the index [i]. *)
Definition has_index (i : nat) (t : json) : bool :=
  match get_prop t (js "index") with
  | Return v => strict_eq_index v i
  | Throw _ => false
  end.

(** [aiTitle?.title]. *)
Definition title_of (aiTitle : option json) : option json :=
  match aiTitle with
  | Some t => match get_prop t (js "title") with
              | Return v => v
              | Throw _ => None
              end
  | None => None
  end.

(** The entry of the result for the chapter [ch] in slot [idx], given the
    elements of a titles array. *)
Definition entry `{Host} (titles : list json) (ch : Chapter) (idx : nat)
  : YouTubeTimestamp :=
  {| timestamp := formatTimestamp (start ch / 1000)%Z;
     description :=
       or_json (title_of (find (has_index idx) titles)) (JStr (headline ch)) |}.

(** The descriptions of the first three entries of [r], the ones the step
    writes to the console, can all be converted to strings. *)
Definition printable (r : list YouTubeTimestamp) : bool :=
  forallb (fun item => negb (ToString_throws (description item))) (firstn 3 r).

Definition with_text (t : TranscriptWithExtras) (txt : option jsstring)
  : TranscriptWithExtras :=
  {| text := txt; chapters := chapters t |}.

Definition with_chapters (t : TranscriptWithExtras) (cs : option (list Chapter))
  : TranscriptWithExtras :=
  {| text := text t; chapters := cs |}.

(** Parsing and validating the content of a response. *)
Definition validated `{Host} {A : Type} (schema : json -> option A)
    (response : ChatCompletion) : Outcome A :=
  parsed <~ JSON_parse_or_throw (nullish (message_content response) []) ;;
  schema_parse schema parsed.

(** The flow the three validated steps share between their first call and
    the value the repair fallback stands for: a thrown first call is thrown
    on; a first response that validates is the result; otherwise one repair
    call is made, and its validated response or else [fallback] is the
    result. *)
Definition repair_once `{Host} {A : Type} (step : InngestStep)
    (schema : json -> option A) (primary repair : CompletionRequest)
    (fallback : Outcome A) : M A :=
  fun log =>
    match step log primary with
    | Throw e => (Throw e, log ++ [primary])
    | Return response =>
        match validated schema response with
        | Return a => (Return a, log ++ [primary])
        | Throw _ =>
            match step (log ++ [primary]) repair with
            | Throw _ => (fallback, log ++ [primary; repair])
            | Return repairResponse =>
                match validated schema repairResponse with
                | Return a => (Return a, log ++ [primary; repair])
                | Throw _ => (fallback, log ++ [primary; repair])
                end
            end
        end
    end.

(** The outer [catch]: anything thrown becomes the error placeholder. *)
Definition or_placeholder {A : Type} (placeholder : A)
    (run : Outcome A * CallLog) : Outcome A * CallLog :=
  match run with
  | (Return a, log) => (Return a, log)
  | (Throw _, log) => (Return placeholder, log)
  end.


(** The first response and the repair response are both answered and both
    fail to parse or validate. *)
Definition both_malformed {A B : Type} (step : InngestStep) (log : CallLog)
    (primary repair : CompletionRequest)
    (check : ChatCompletion -> Outcome A)
    (check_repair : ChatCompletion -> Outcome B) : Prop :=
  exists response repairResponse e e',
    step log primary = Return response /\ check response = Throw e /\
    step (log ++ [primary]) repair = Return repairResponse /\
    check_repair repairResponse = Throw e'.

(** The declared shape of the titles. *)
Definition titles_shape (t : Titles) : Prop :=
  length (youtubeShort t) = 3 /\ length (youtubeLong t) = 3 /\
  length (podcastTitles t) = 3 /\
  5 <= length (seoKeywords t) /\ length (seoKeywords t) <= 10.

(** The string [part] occurs in [whole]. *)
Definition contains (part whole : jsstring) : Prop :=
  exists pre post, whole = pre ++ part ++ post.

(* ===================================================================== *)
(** ** Example transcripts, replies and endpoints *)
(* ===================================================================== *)

Definition quoted (s : jsstring) : jsstring := dq ++ s ++ dq.

Definition example_chapter (ms : Z) (title : jsstring) : Chapter :=
  {| start := ms;
     headline := title;
     summary := js "What is said in this part of the episode";
     gist := js "In short" |}.

(** One chapter, starting with the recording. *)
Definition intro_transcript : TranscriptWithExtras :=
  {| text := Some (js "Welcome to the show. Today we talk about automation.");
     chapters := Some [example_chapter 0 (js "Welcome and introductions")] |}.

(** The same episode with another text. *)
Definition other_transcript : TranscriptWithExtras :=
  {| text := Some (js "Thanks for tuning in. This week: pricing experiments.");
     chapters := Some [example_chapter 0 (js "Welcome and introductions")] |}.

(** One chapter, which starts five seconds into the recording. *)
Definition late_start_transcript : TranscriptWithExtras :=
  {| text := Some (js "Welcome to the show. Today we talk about automation.");
     chapters := Some [example_chapter 5000 (js "Welcome and introductions")] |}.

(** No chapters. *)
Definition unchaptered_transcript : TranscriptWithExtras :=
  {| text := Some (js "Welcome to the show."); chapters := Some [] |}.

(** [n] chapters of one minute each, "Chapter 1", "Chapter 2", ... *)
Definition minute_chapters (n : nat) : list Chapter :=
  map (fun i => example_chapter (Z.of_nat i * 60000)
                  (js "Chapter " ++ js_of_nat (i + 1)))
      (seq 0 n).

Definition six_chapter_transcript : TranscriptWithExtras :=
  {| text := Some (js "Welcome to the show."); chapters := Some (minute_chapters 6) |}.

Definition long_transcript : TranscriptWithExtras :=
  {| text := Some (js "Welcome to the show."); chapters := Some (minute_chapters 150) |}.

(** A reply that is not JSON. *)
Definition not_json : jsstring := js "Sure! Here are the results you asked for.".

(** [{"titles":{"0":"Welcome"}}]: the titles keyed by slot, not listed. *)
Definition titles_keyed_by_slot : jsstring :=
  js "{" ++ quoted (js "titles") ++ js ":{" ++ quoted (js "0") ++ js ":"
    ++ quoted (js "Welcome") ++ js "}}".

(** [{"titles":[{"index":0,"title":"Kickoff"}]}]. *)
Definition one_title : jsstring :=
  js "{" ++ quoted (js "titles") ++ js ":[{" ++ quoted (js "index") ++ js ":0,"
    ++ quoted (js "title") ++ js ":" ++ quoted (js "Kickoff") ++ js "}]}".

(** A tweet of 300 characters. *)
Definition long_tweet : jsstring := repeat 97%N 300.

(** Social posts as JSON text, with the given text for twitter. *)
Definition posts_json (tweet : jsstring) : jsstring :=
  js "{" ++ quoted (js "twitter") ++ js ":" ++ quoted tweet
    ++ js "," ++ quoted (js "linkedin") ++ js ":" ++ quoted (js "On LinkedIn")
    ++ js "," ++ quoted (js "instagram") ++ js ":" ++ quoted (js "On Instagram")
    ++ js "," ++ quoted (js "tiktok") ++ js ":" ++ quoted (js "On TikTok")
    ++ js "," ++ quoted (js "youtube") ++ js ":" ++ quoted (js "On YouTube")
    ++ js "," ++ quoted (js "facebook") ++ js ":" ++ quoted (js "On Facebook")
    ++ js "}".

Definition posts_value (tweet : jsstring) : json :=
  JObj [(js "twitter", JStr tweet);
        (js "linkedin", JStr (js "On LinkedIn"));
        (js "instagram", JStr (js "On Instagram"));
        (js "tiktok", JStr (js "On TikTok"));
        (js "youtube", JStr (js "On YouTube"));
        (js "facebook", JStr (js "On Facebook"))].

(** The host of the examples, with the JSON texts they use. *)
Definition demo_host : Host :=
  example_host
    [(empty_titles_content, JObj [(js "titles", JArr [])]);
     (titles_keyed_by_slot,
      JObj [(js "titles", JObj [(js "0", JStr (js "Welcome"))])]);
     (one_title,
      JObj [(js "titles",
             JArr [JObj [(js "index", JNum 0); (js "title", JStr (js "Kickoff"))]])]);
     (posts_json long_tweet, posts_value long_tweet)].

(** An endpoint whose every call is rejected. *)
Definition rejecting : InngestStep := fun _ _ => Throw TransportError.

(** An endpoint that answers every call with the same content. *)
Definition answering (content : jsstring) : InngestStep :=
  fun _ _ => Return {| message_content := Some content |}.

(* ===================================================================== *)
(** ** More vocabulary *)
(* ===================================================================== *)

(** The sampling of a sequence of calls: every call goes to the one model,
    and of two calls the second is made at temperature zero, below the
    first one's, with a smaller token budget. *)
Definition repair_sampled_lower (calls : list CompletionRequest) : Prop :=
  Forall (fun c => model c = GROQ_MODEL) calls /\
  forall p r,
    calls = [p; r] ->
    (temperature r == 0)%Q /\ (temperature r < temperature p)%Q /\
    (max_tokens r < max_tokens p)%Z.

(* ===================================================================== *)
(** ** More example replies and endpoints *)
(* ===================================================================== *)

(** A JSON array of strings, as text. *)
Definition strings_json (l : list jsstring) : jsstring :=
  js "[" ++ join (js ",") (map quoted l) ++ js "]".

Definition example_summary : Summary :=
  {| full := js "An episode about automation.";
     bullets := [js "Why automate"; js "Where to start"];
     insights := [js "Start small"];
     tldr := js "Automate the boring parts." |}.

(** [example_summary] as JSON text and as the value it denotes. *)
Definition summary_json : jsstring :=
  js "{" ++ quoted (js "full") ++ js ":" ++ quoted (full example_summary)
    ++ js "," ++ quoted (js "bullets") ++ js ":"
    ++ strings_json (bullets example_summary)
    ++ js "," ++ quoted (js "insights") ++ js ":"
    ++ strings_json (insights example_summary)
    ++ js "," ++ quoted (js "tldr") ++ js ":" ++ quoted (tldr example_summary)
    ++ js "}".

Definition summary_value : json :=
  JObj [(js "full", JStr (full example_summary));
        (js "bullets", JArr (map JStr (bullets example_summary)));
        (js "insights", JArr (map JStr (insights example_summary)));
        (js "tldr", JStr (tldr example_summary))].

Definition example_titles : Titles :=
  {| youtubeShort := [js "Automate It"; js "Less Busywork"; js "Bots at Work"];
     youtubeLong := [js "Automation for Small Teams";
                     js "How to Automate the Boring Parts";
                     js "Where Automation Pays Off"];
     podcastTitles := [js "The Automation Episode"; js "Start Small";
                       js "Robots, Politely"];
     seoKeywords := [js "automation"; js "workflow"; js "productivity";
                     js "bots"; js "podcast"] |}.

(** [example_titles] as JSON text and as the value it denotes. *)
Definition titles_json : jsstring :=
  js "{" ++ quoted (js "youtubeShort") ++ js ":"
    ++ strings_json (youtubeShort example_titles)
    ++ js "," ++ quoted (js "youtubeLong") ++ js ":"
    ++ strings_json (youtubeLong example_titles)
    ++ js "," ++ quoted (js "podcastTitles") ++ js ":"
    ++ strings_json (podcastTitles example_titles)
    ++ js "," ++ quoted (js "seoKeywords") ++ js ":"
    ++ strings_json (seoKeywords example_titles)
    ++ js "}".

Definition titles_value : json :=
  JObj [(js "youtubeShort", JArr (map JStr (youtubeShort example_titles)));
        (js "youtubeLong", JArr (map JStr (youtubeLong example_titles)));
        (js "podcastTitles", JArr (map JStr (podcastTitles example_titles)));
        (js "seoKeywords", JArr (map JStr (seoKeywords example_titles)))].

(** A tweet within the limit. *)
Definition short_tweet : jsstring := js "New episode: automation for everyone.".

(** [{"titles":[{"index":0,"title":"Kickoff"},{"index":0,"title":"Second
    take"},{"index":1,"title":""}]}]: two titles for slot 0 and an empty one
    for slot 1. *)
Definition contested_titles : jsstring :=
  js "{" ++ quoted (js "titles") ++ js ":[{" ++ quoted (js "index") ++ js ":0,"
    ++ quoted (js "title") ++ js ":" ++ quoted (js "Kickoff") ++ js "},{"
    ++ quoted (js "index") ++ js ":0," ++ quoted (js "title") ++ js ":"
    ++ quoted (js "Second take") ++ js "},{"
    ++ quoted (js "index") ++ js ":1," ++ quoted (js "title") ++ js ":"
    ++ quoted [] ++ js "}]}".

Definition contested_titles_elements : list json :=
  [JObj [(js "index", JNum 0); (js "title", JStr (js "Kickoff"))];
   JObj [(js "index", JNum 0); (js "title", JStr (js "Second take"))];
   JObj [(js "index", JNum 1); (js "title", JStr [])]].

(** [{"titles":[{"index":"0","title":"Kickoff"}]}]: the index as a string. *)
Definition string_index_title : jsstring :=
  js "{" ++ quoted (js "titles") ++ js ":[{" ++ quoted (js "index") ++ js ":"
    ++ quoted (js "0") ++ js "," ++ quoted (js "title") ++ js ":"
    ++ quoted (js "Kickoff") ++ js "}]}".

(** [{"titles":[null]}]. *)
Definition null_title : jsstring :=
  js "{" ++ quoted (js "titles") ++ js ":[null]}".

(** The host of the further examples. *)
Definition wider_host : Host :=
  example_host
    [(empty_titles_content, JObj [(js "titles", JArr [])]);
     (js "{}", JObj []);
     (js "null", JNull);
     (one_title,
      JObj [(js "titles",
             JArr [JObj [(js "index", JNum 0); (js "title", JStr (js "Kickoff"))]])]);
     (contested_titles, JObj [(js "titles", JArr contested_titles_elements)]);
     (null_title, JObj [(js "titles", JArr [JNull])]);
     (string_index_title,
      JObj [(js "titles",
             JArr [JObj [(js "index", JStr (js "0"));
                         (js "title", JStr (js "Kickoff"))]])]);
     (summary_json, summary_value);
     (titles_json, titles_value);
     (posts_json short_tweet, posts_value short_tweet)].

(** [{"titles":[{"index":SLOT,"title":{"toString":1}}]}]: the title of one
    slot is an object with a property named toString. *)
Definition object_title (slot : nat) : jsstring :=
  js "{" ++ quoted (js "titles") ++ js ":[{" ++ quoted (js "index") ++ js ":"
    ++ js_of_nat slot ++ js "," ++ quoted (js "title") ++ js ":{"
    ++ quoted (js "toString") ++ js ":1}}]}".

Definition object_title_elements (slot : nat) : list json :=
  [JObj [(js "index", JNum (inject_Z (Z.of_nat slot)));
         (js "title", JObj [(js "toString", JNum 1)])]].

(** The host of the examples with such titles. *)
Definition object_title_host : Host :=
  example_host
    [(object_title 0, JObj [(js "titles", JArr (object_title_elements 0))]);
     (object_title 3, JObj [(js "titles", JArr (object_title_elements 3))])].

(** An endpoint that answers the first call of a run with one content and
    every later call with another. *)
Definition answering_then (first later : jsstring) : InngestStep :=
  fun log _ =>
    match log with
    | [] => Return {| message_content := Some first |}
    | _ :: _ => Return {| message_content := Some later |}
    end.

(** An endpoint that answers the first call of a run and rejects every
    later call. *)
Definition answering_once (first : jsstring) : InngestStep :=
  fun log _ =>
    match log with
    | [] => Return {| message_content := Some first |}
    | _ :: _ => Throw TransportError
    end.

(** An endpoint whose answers carry no content. *)
Definition silent : InngestStep :=
  fun _ _ => Return {| message_content := None |}.

(** The chapter titles prompt of the example with two chapters or more. *)
Definition six_chapter_prompt : jsstring :=
  timestamps_prompt (chapterData_of (firstn 100 (minute_chapters 6))).

(** The prompt a builder returned, or the empty string when it threw. *)
Definition prompt_or_empty (o : Outcome jsstring) : jsstring :=
  match o with
  | Return prompt => prompt
  | Throw _ => []
  end.


(* ===================================================================== *)
(** * Properties *)
(* ===================================================================== *)

(** Case analysis on the next thing a run inspects. *)
Ltac step_run :=
  match goal with
  | |- context [match ?x with Return _ => _ | Throw _ => _ end] =>
      destruct x eqn:?
  | |- context [match ?x with Some _ => _ | None => _ end] =>
      destruct x eqn:?
  | |- context [let (_, _) := ?x in _] => destruct x eqn:?
  end; cbv beta iota.

Ltac close_log :=
  cbn [snd fst];
  first
    [ exists []; split; [now rewrite app_nil_r | cbn; lia]
    | eexists [_]; split; [reflexivity | cbn; lia]
    | eexists [_; _]; split; [now rewrite <- app_assoc | cbn; lia] ].

Section CallBudget.
Context {H : Host}.
Variable step : InngestStep.
Variable transcript : TranscriptWithExtras.
Variable log : CallLog.

Lemma generateSummary_calls :
  issued_at_most 2 log (generateSummary step transcript log).
Proof.
  unfold generateSummary, try_catch, bind, lift, ai_wrap, ret,
    JSON_parse_or_throw, schema_parse, summary_repair_fallback, obind, defined.
  repeat step_run; close_log.
Qed.

Lemma generateTitles_calls :
  issued_at_most 2 log (generateTitles step transcript log).
Proof.
  unfold generateTitles, try_catch, bind, lift, ai_wrap, ret,
    JSON_parse_or_throw, schema_parse, obind.
  repeat step_run; close_log.
Qed.

Lemma generateSocialPosts_calls :
  issued_at_most 2 log (generateSocialPosts step transcript log).
Proof.
  unfold generateSocialPosts, try_catch, bind, lift, ai_wrap, ret,
    JSON_parse_or_throw, schema_parse, obind.
  repeat step_run; close_log.
Qed.

Lemma resolve_titles_calls (prompt : jsstring) :
  issued_at_most 2 log (resolve_titles step prompt log).
Proof.
  unfold resolve_titles, try_catch, bind, lift, ai_wrap, ret.
  repeat step_run; close_log.
Qed.

Lemma generateYouTubeTimestamps_calls :
  issued_at_most 2 log (generateYouTubeTimestamps step transcript log).
Proof.
  unfold generateYouTubeTimestamps.
  destruct (length _ =? 0).
  - unfold throw. close_log.
  - unfold bind at 1.
    destruct (resolve_titles_calls
                (timestamps_prompt
                   (chapterData_of
                      (slice0 100
                         match chapters transcript with
                         | Some c => c
                         | None => []
                         end)))) as (calls & Hlog & Hlen).
    destruct (resolve_titles _ _ _) as [[aiTitles | e] log'];
      cbn [snd] in Hlog; subst log'.
    + unfold bind, lift, ret.
      destruct (map_throwing _ _); [destruct (map_throwing _ _) |];
        exists calls; split; auto.
    + exists calls; split; auto.
Qed.
End CallBudget.



(** C3: each of the four generation requests issues at most two completion
    calls (the first one and at most one repair), whatever the endpoint
    answers or throws and whatever the transcript is. *)
Theorem at_most_two_completion_calls :
  forall (H : Host) (step : InngestStep) (transcript : TranscriptWithExtras)
         (log : CallLog),
    issued_at_most 2 log (generateSummary step transcript log) /\
    issued_at_most 2 log (generateSocialPosts step transcript log) /\
    issued_at_most 2 log (generateTitles step transcript log) /\
    issued_at_most 2 log (generateYouTubeTimestamps step transcript log).
Proof.
  intros H step transcript log.
  repeat split.
  - apply generateSummary_calls.
  - apply generateSocialPosts_calls.
  - apply generateTitles_calls.
  - apply generateYouTubeTimestamps_calls.
Qed.

(** The three validated steps return a value on every run: their outer
    [catch] turns whatever was thrown into the error placeholder. *)
Section NoEscape.
Context {H : Host}.
Variable step : InngestStep.
Variable transcript : TranscriptWithExtras.
Variable log : CallLog.

Lemma generateSummary_returns :
  exists r, fst (generateSummary step transcript log) = Return r.
Proof.
  unfold generateSummary, try_catch, bind, lift, ai_wrap, ret,
    JSON_parse_or_throw, schema_parse, summary_repair_fallback, obind, defined.
  repeat step_run; cbn [fst]; eexists; reflexivity.
Qed.

Lemma generateTitles_returns :
  exists r, fst (generateTitles step transcript log) = Return r.
Proof.
  unfold generateTitles, try_catch, bind, lift, ai_wrap, ret,
    JSON_parse_or_throw, schema_parse, obind.
  repeat step_run; cbn [fst]; eexists; reflexivity.
Qed.

Lemma generateSocialPosts_returns :
  exists r, fst (generateSocialPosts step transcript log) = Return r.
Proof.
  unfold generateSocialPosts, try_catch, bind, lift, ai_wrap, ret,
    JSON_parse_or_throw, schema_parse, obind.
  repeat step_run; cbn [fst]; eexists; reflexivity.
Qed.
End NoEscape.

(** [transcript.chapters || []] is not empty. *)
Lemma chapters_present (transcript : TranscriptWithExtras) (cs : list Chapter) :
  chapters transcript = Some cs -> cs <> [] ->
  (length match chapters transcript with Some c => c | None => [] end =? 0)
  = false.
Proof.
  intros -> Hne. destruct cs; [congruence | reflexivity].
Qed.

(** The run of the timestamps step once the chapters are known to be there. *)
Lemma generateYouTubeTimestamps_body
    (H : Host) (step : InngestStep) (transcript : TranscriptWithExtras)
    (cs : list Chapter) (log : CallLog) :
  chapters transcript = Some cs -> cs <> [] ->
  generateYouTubeTimestamps step transcript log =
  (aiTitles <- resolve_titles step
                 (timestamps_prompt (chapterData_of (slice0 100 cs))) ;;
   aiTimestamps <- lift (map_throwing (title_chapter aiTitles)
                           (chapterData_of (slice0 100 cs))) ;;
   _ <- lift (map_throwing log_line (slice0 3 aiTimestamps)) ;;
   ret (map (fun item =>
               {| timestamp := formatTimestamp (ai_timestamp item);
                  description := ai_description item |})
            aiTimestamps)) log.
Proof.
  intros Hcs Hne. unfold generateYouTubeTimestamps.
  rewrite (@chapters_present _ _ Hcs Hne), Hcs. reflexivity.
Qed.

(** C1: in the timestamps step the first completion call is awaited outside
    any [try]: whatever that call throws (a transport failure included) is
    thrown by the generation call itself, after that single call. *)
Theorem timestamps_primary_call_failure_escapes :
  forall (H : Host) (step : InngestStep) (transcript : TranscriptWithExtras)
         (cs : list Chapter) (log : CallLog) (e : JsError),
    chapters transcript = Some cs -> cs <> [] ->
    step log (primary_titles_request
                (timestamps_prompt (chapterData_of (slice0 100 cs)))) = Throw e ->
    generateYouTubeTimestamps step transcript log =
    (Throw e,
     log ++ [primary_titles_request
               (timestamps_prompt (chapterData_of (slice0 100 cs)))]).
Proof.
  intros H step transcript cs log e Hcs Hne Hstep.
  rewrite (@generateYouTubeTimestamps_body H step _ _ log Hcs Hne).
  unfold bind at 1. unfold resolve_titles, bind, ai_wrap.
  rewrite Hstep. reflexivity.
Qed.

(** C7: with no chapters (the field absent or the sequence empty) the
    timestamps step throws at once and the call log is left as it was: no
    completion call is issued. *)
Theorem timestamps_without_chapters_throws_before_any_call :
  forall (H : Host) (step : InngestStep) (transcript : TranscriptWithExtras)
         (log : CallLog),
    chapters transcript = None \/ chapters transcript = Some [] ->
    generateYouTubeTimestamps step transcript log = (Throw no_chapters_error, log).
Proof.
  intros H step transcript log [Hc | Hc];
    unfold generateYouTubeTimestamps; rewrite Hc; reflexivity.
Qed.



(* ===================================================================== *)
(** ** Combining the titles with the chapters *)
(* ===================================================================== *)

Lemma get_prop_throws_null (t : json) (k : jsstring) (e : JsError) :
  get_prop t k = Throw e -> t = JNull.
Proof. destruct t; cbn; congruence. Qed.

Lemma find_first_typed (titles : list json) (idx : nat) :
  Forall (fun t => t <> JNull) titles ->
  find_first (fun t => i <~ get_prop t (js "index") ;;
                       Return (strict_eq_index i idx)) titles
  = Return (find (has_index idx) titles).
Proof.
  induction 1 as [| t titles Ht _ IH]; [reflexivity |].
  cbn [find_first find]. unfold has_index at 1.
  destruct (get_prop t (js "index")) as [v | e] eqn:Hget; cbn [obind].
  - destruct (strict_eq_index v idx); [reflexivity | exact IH].
  - apply get_prop_throws_null in Hget. contradiction.
Qed.

Lemma find_nowhere {A : Type} (p : A -> bool) (l : list A) :
  (forall x, In x l -> p x = false) -> find p l = None.
Proof.
  induction l as [| x l IH]; intros Hall; [reflexivity |].
  cbn. rewrite (Hall x (or_introl eq_refl)).
  apply IH. intros y Hy. apply Hall. now right.
Qed.

Lemma find_not_null (p : json -> bool) (titles : list json) (t : json) :
  Forall (fun t => t <> JNull) titles -> find p titles = Some t -> t <> JNull.
Proof.
  intros Hall Hfind. apply find_some in Hfind as [Hin _].
  rewrite Forall_forall in Hall. auto.
Qed.

Lemma title_chapter_typed (titles : list json) (chapter : ChapterData) :
  Forall (fun t => t <> JNull) titles ->
  title_chapter (JArr titles) chapter =
  Return {| ai_timestamp := cd_timestamp chapter;
            ai_description :=
              or_json (title_of (find (has_index (index chapter)) titles))
                      (JStr (cd_headline chapter)) |}.
Proof.
  intros Hall. unfold title_chapter, Array_find.
  rewrite (find_first_typed (index chapter) Hall). cbn [obind].
  destruct (find (has_index (index chapter)) titles) as [t |] eqn:Hfind;
    [| reflexivity].
  cbn [title_of].
  destruct (get_prop t (js "title")) as [v | e] eqn:Hget; [reflexivity |].
  apply get_prop_throws_null in Hget.
  exfalso. exact (find_not_null _ Hall Hfind Hget).
Qed.

Lemma map_throwing_typed `{Host} (titles : list json) (cs : list Chapter) :
  Forall (fun t => t <> JNull) titles ->
  forall i,
  exists aiTimestamps,
    map_throwing (title_chapter (JArr titles))
      (mapi_from i (fun chapter idx =>
                      {| index := idx;
                         cd_timestamp := (start chapter / 1000)%Z;
                         cd_headline := headline chapter;
                         cd_summary := summary chapter;
                         cd_gist := gist chapter |}) cs)
    = Return aiTimestamps /\
    map (fun item =>
           {| timestamp := formatTimestamp (ai_timestamp item);
              description := ai_description item |})
        aiTimestamps
    = mapi_from i (entry titles) cs.
Proof.
  intros Hall. induction cs as [| ch cs IH]; intros i.
  - exists []. split; reflexivity.
  - destruct (IH (S i)) as (rest & Hrest & Hmap).
    cbn [mapi_from map_throwing].
    rewrite (title_chapter_typed _ Hall). cbn [obind].
    rewrite Hrest. cbn [obind]. eexists. split; [reflexivity |].
    cbn [map]. rewrite Hmap. reflexivity.
Qed.

Lemma mapi_from_length {A B : Type} (f : A -> nat -> B) (l : list A) :
  forall i, length (mapi_from i f l) = length l.
Proof. induction l; intros i; cbn; auto. Qed.

Lemma nth_error_mapi_from {A B : Type} (f : A -> nat -> B) (l : list A) :
  forall k i, nth_error (mapi_from k f l) i
              = option_map (fun x => f x (k + i)) (nth_error l i).
Proof.
  induction l as [| x l IH]; intros k i.
  - destruct i; reflexivity.
  - destruct i; cbn.
    + now rewrite Nat.add_0_r.
    + rewrite IH. now rewrite Nat.add_succ_r.
Qed.

Lemma nth_error_firstn_lt {A : Type} (l : list A) :
  forall n i, i < n -> nth_error (firstn n l) i = nth_error l i.
Proof.
  induction l as [| x l IH]; intros n i Hlt.
  - now rewrite firstn_nil.
  - destruct n; [lia |]. destruct i; cbn; [reflexivity |].
    apply IH. lia.
Qed.

Lemma forallb_mapped {A B : Type} (f : A -> B) (p : B -> bool) (l : list A) :
  forallb p (map f l) = forallb (fun x => p (f x)) l.
Proof.
  induction l as [| x l IH]; [reflexivity |].
  cbn [map forallb]. now rewrite IH.
Qed.

(** The console lines of the first entries are written when each of their
    descriptions converts to a string, and end in a TypeError otherwise. *)
Lemma log_lines (items : list AiTimestamp) :
  map_throwing log_line items
  = if forallb (fun t => negb (ToString_throws (ai_description t))) items
    then Return (map (fun _ => tt) items)
    else Throw TypeError.
Proof.
  induction items as [| t items IH]; [reflexivity |].
  cbn [map_throwing forallb map]. unfold log_line at 1. cbn [interpolate].
  destruct (ToString_throws (ai_description t)); cbn [obind negb andb];
    [reflexivity |].
  rewrite IH.
  destruct (forallb _ items); reflexivity.
Qed.

Lemma printable_formatted `{Host} (aiTimestamps : list AiTimestamp) :
  printable (map (fun item =>
                    {| timestamp := formatTimestamp (ai_timestamp item);
                       description := ai_description item |})
                 aiTimestamps)
  = forallb (fun t => negb (ToString_throws (ai_description t)))
      (firstn 3 aiTimestamps).
Proof.
  unfold printable. rewrite firstn_map, forallb_mapped. reflexivity.
Qed.

(** The run of the timestamps step with a titles array that holds no
    [null]: one entry per chapter in use, in order, unless a console line of
    the first three entries cannot be written. *)
Lemma generateYouTubeTimestamps_array
    (H : Host) (step : InngestStep) (transcript : TranscriptWithExtras)
    (cs : list Chapter) (log log' : CallLog) (titles : list json) :
  chapters transcript = Some cs -> cs <> [] ->
  resolve_titles step (timestamps_prompt (chapterData_of (firstn 100 cs))) log
  = (Return (JArr titles), log') ->
  Forall (fun t => t <> JNull) titles ->
  generateYouTubeTimestamps step transcript log
  = (if printable (mapi (entry titles) (firstn 100 cs))
     then Return (mapi (entry titles) (firstn 100 cs))
     else Throw TypeError,
     log').
Proof.
  intros Hcs Hne Hres Hall.
  rewrite (@generateYouTubeTimestamps_body H step _ _ log Hcs Hne).
  unfold bind at 1. unfold slice0. rewrite Hres.
  unfold bind, lift, ret, chapterData_of, mapi.
  destruct (map_throwing_typed (firstn 100 cs) Hall 0)
    as (aiTimestamps & -> & Hmap).
  rewrite log_lines, <- Hmap, printable_formatted.
  destruct (forallb _ _); reflexivity.
Qed.

(** With a titles array that holds no [null] and descriptions that can be
    written to the console, the timestamps step returns one entry per
    chapter in use, in order. *)
Lemma generateYouTubeTimestamps_typed
    (H : Host) (step : InngestStep) (transcript : TranscriptWithExtras)
    (cs : list Chapter) (log log' : CallLog) (titles : list json) :
  chapters transcript = Some cs -> cs <> [] ->
  resolve_titles step (timestamps_prompt (chapterData_of (firstn 100 cs))) log
  = (Return (JArr titles), log') ->
  Forall (fun t => t <> JNull) titles ->
  printable (mapi (entry titles) (firstn 100 cs)) = true ->
  generateYouTubeTimestamps step transcript log
  = (Return (mapi (entry titles) (firstn 100 cs)), log').
Proof.
  intros Hcs Hne Hres Hall Hprint.
  rewrite (generateYouTubeTimestamps_array H step transcript log
             Hcs Hne Hres Hall), Hprint.
  reflexivity.
Qed.

(** Headlines can always be written to the console. *)
Lemma headlines_printable `{Host} (cs : list Chapter) :
  printable (map (fun ch =>
                    {| timestamp := formatTimestamp (start ch / 1000)%Z;
                       description := JStr (headline ch) |})
                 cs) = true.
Proof.
  unfold printable. rewrite firstn_map, forallb_mapped.
  apply forallb_forall. reflexivity.
Qed.

Lemma mapi_from_map {A B : Type} (f : A -> nat -> B) (g : A -> B) (l : list A) :
  (forall x i, f x i = g x) -> forall k, mapi_from k f l = map g l.
Proof.
  intros Hfg. induction l as [| x l IH]; intros k; cbn; [reflexivity |].
  now rewrite Hfg, IH.
Qed.

(** The result when no titles are in effect: every chapter in use under
    its own headline. *)
Lemma generateYouTubeTimestamps_untitled
    (H : Host) (step : InngestStep) (transcript : TranscriptWithExtras)
    (cs : list Chapter) (log log' : CallLog) :
  chapters transcript = Some cs -> cs <> [] ->
  resolve_titles step (timestamps_prompt (chapterData_of (firstn 100 cs))) log
  = (Return (JArr []), log') ->
  generateYouTubeTimestamps step transcript log
  = (Return (map (fun ch =>
                    {| timestamp := formatTimestamp (start ch / 1000)%Z;
                       description := JStr (headline ch) |})
                 (firstn 100 cs)),
     log').
Proof.
  intros Hcs Hne Hres.
  assert (Hentries :
            mapi (entry []) (firstn 100 cs)
            = map (fun ch =>
                     {| timestamp := formatTimestamp (start ch / 1000)%Z;
                        description := JStr (headline ch) |})
                  (firstn 100 cs)).
  { unfold mapi. now apply mapi_from_map. }
  rewrite (@generateYouTubeTimestamps_typed H step _ cs log _ []
             Hcs Hne Hres (Forall_nil _)).
  - now rewrite Hentries.
  - rewrite Hentries. apply headlines_printable.
Qed.

(** A titles value that is no array, or an array that starts with null,
    makes the search for the first chapter's title throw. *)
Lemma generateYouTubeTimestamps_untyped
    (H : Host) (step : InngestStep) (transcript : TranscriptWithExtras)
    (cs : list Chapter) (log log' : CallLog) (aiTitles : json) :
  chapters transcript = Some cs -> cs <> [] ->
  resolve_titles step (timestamps_prompt (chapterData_of (firstn 100 cs))) log
  = (Return aiTitles, log') ->
  (forall titles, aiTitles <> JArr titles) \/
  (exists rest, aiTitles = JArr (JNull :: rest)) ->
  generateYouTubeTimestamps step transcript log = (Throw TypeError, log').
Proof.
  intros Hcs Hne Hres Hshape.
  rewrite (@generateYouTubeTimestamps_body H step _ _ log Hcs Hne).
  unfold bind at 1. unfold slice0. rewrite Hres.
  destruct cs as [| c cs]; [congruence |].
  destruct Hshape as [Hno | (rest & ->)]; [| reflexivity].
  destruct aiTitles; try reflexivity.
  exfalso. exact (Hno _ eq_refl).
Qed.

(** The run depends on the first 100 chapters only. *)
Lemma generateYouTubeTimestamps_capped
    (H : Host) (step : InngestStep) (transcript : TranscriptWithExtras)
    (cs : list Chapter) (log : CallLog) :
  chapters transcript = Some cs ->
  generateYouTubeTimestamps step transcript log
  = generateYouTubeTimestamps step
      (with_chapters transcript (Some (firstn 100 cs))) log.
Proof.
  intros Hcs. unfold generateYouTubeTimestamps, with_chapters, slice0.
  cbn [chapters]. rewrite Hcs.
  rewrite firstn_firstn, Nat.min_id.
  destruct cs as [| c cs]; reflexivity.
Qed.

(** C6: the timestamps step works from the first 100 chapters only: the run
    of a transcript and of the same transcript cut to its first 100 chapters
    are the same, calls and prompt included.  Once the titles value
    [aiTitles] is in effect, the descriptions are settled slot by slot only
    when that value is an array without null whose first three descriptions
    can be written to the console: the result then has one entry per
    chapter in use, a slot for which the array holds no element of its index
    is described by the chapter's own headline, and a slot whose first
    element of its index carries a truthy title is described by that title.
    When the titles value is no array, or an array that starts with null,
    there is no result at all, not even for the slots the reply says
    nothing about: the step throws a TypeError. *)
Theorem timestamps_cap_and_per_slot_fallback :
  forall (H : Host) (step : InngestStep) (transcript : TranscriptWithExtras)
         (cs : list Chapter) (log log' : CallLog) (aiTitles : json),
    chapters transcript = Some cs -> cs <> [] ->
    resolve_titles step (timestamps_prompt (chapterData_of (firstn 100 cs))) log
    = (Return aiTitles, log') ->
    generateYouTubeTimestamps step transcript log
    = generateYouTubeTimestamps step
        (with_chapters transcript (Some (firstn 100 cs))) log
    /\ (forall titles,
          aiTitles = JArr titles ->
          Forall (fun t => t <> JNull) titles ->
          printable (mapi (entry titles) (firstn 100 cs)) = true ->
          exists r,
            generateYouTubeTimestamps step transcript log = (Return r, log') /\
            length r = Nat.min 100 (length cs) /\
            forall i ch,
              i < 100 -> nth_error cs i = Some ch ->
              exists item,
                nth_error r i = Some item /\
                timestamp item = formatTimestamp (start ch / 1000)%Z /\
                ((forall t, In t titles -> has_index i t = false) ->
                 description item = JStr (headline ch)) /\
                (forall t title,
                    find (has_index i) titles = Some t ->
                    get_prop t (js "title") = Return (Some title) ->
                    truthy (Some title) = true ->
                    description item = title))
    /\ ((forall titles, aiTitles <> JArr titles) \/
        (exists rest, aiTitles = JArr (JNull :: rest)) ->
        generateYouTubeTimestamps step transcript log = (Throw TypeError, log')).
Proof.
  intros H step transcript cs log log' aiTitles Hcs Hne Hres.
  split; [exact (generateYouTubeTimestamps_capped H step transcript log Hcs) |].
  split;
    [| exact (generateYouTubeTimestamps_untyped H step transcript log
                Hcs Hne Hres)].
  intros titles -> Hall Hprint.
  exists (mapi (entry titles) (firstn 100 cs)).
  split; [exact (generateYouTubeTimestamps_typed H step transcript log
                   Hcs Hne Hres Hall Hprint) |].
  split.
  - unfold mapi. rewrite mapi_from_length. apply length_firstn.
  - intros i ch Hi Hnth. exists (entry titles ch i).
    split.
    { unfold mapi.
      rewrite nth_error_mapi_from, (nth_error_firstn_lt cs Hi), Hnth.
      reflexivity. }
    split; [reflexivity |].
    unfold entry. cbn [description]. split.
    + intros Hnone. rewrite (find_nowhere _ _ Hnone). reflexivity.
    + intros t title Hfind Htitle Htruthy.
      rewrite Hfind. cbn [title_of]. rewrite Htitle.
      unfold or_json. now rewrite Htruthy.
Qed.



(* ===================================================================== *)
(** ** The shared flow: validate, repair once, fall back *)
(* ===================================================================== *)

Ltac flow_cases :=
  unfold repair_once, or_placeholder, validated, try_catch, bind, lift,
    ai_wrap, ret, JSON_parse_or_throw, schema_parse, obind;
  repeat step_run;
  rewrite <- ?app_assoc; cbn [app];
  try reflexivity; try congruence.

Section Flows.
Context {H : Host}.
Variable step : InngestStep.
Variable transcript : TranscriptWithExtras.
Variable log : CallLog.

Lemma generateSummary_flow :
  generateSummary step transcript log =
  match buildSummaryPrompt transcript with
  | Throw _ => (Return summary_error_fallback, log)
  | Return prompt =>
      or_placeholder summary_error_fallback
        (repair_once step summarySchema_parse (summary_request prompt)
           summary_repair_request (summary_repair_fallback transcript) log)
  end.
Proof.
  unfold generateSummary.
  destruct (buildSummaryPrompt transcript) as [prompt | e];
    [| reflexivity].
  destruct (summary_repair_fallback transcript) as [s | e] eqn:Hfb.
  all: flow_cases.
Qed.

Lemma generateTitles_flow :
  generateTitles step transcript log =
  match buildTitlesPrompt transcript with
  | Throw _ => (Return titles_error_fallback, log)
  | Return prompt =>
      or_placeholder titles_error_fallback
        (repair_once step titlesSchema_parse (titles_request prompt)
           titles_repair_request (Return titles_repair_fallback) log)
  end.
Proof.
  unfold generateTitles.
  destruct (buildTitlesPrompt transcript) as [prompt | e];
    [| reflexivity].
  flow_cases.
Qed.

Lemma generateSocialPosts_flow :
  generateSocialPosts step transcript log =
  or_placeholder social_error_fallback
    (bind (repair_once step socialPostsSchema_parse
             (social_request (buildSocialPrompt transcript))
             social_repair_request (Return social_repair_fallback))
          (fun socialPosts => ret (enforce_twitter_limit socialPosts)) log).
Proof.
  unfold generateSocialPosts.
  flow_cases.
Qed.
End Flows.


Lemma repair_once_both_malformed `{Host} {A : Type} (step : InngestStep)
    (schema : json -> option A) (primary repair : CompletionRequest)
    (fallback : Outcome A) (log : CallLog) :
  both_malformed step log primary repair (validated schema) (validated schema) ->
  repair_once step schema primary repair fallback log
  = (fallback, log ++ [primary; repair]).
Proof.
  intros (r1 & r2 & e1 & e2 & H1 & V1 & H2 & V2).
  unfold repair_once. rewrite H1, V1, H2, V2. reflexivity.
Qed.

Lemma validated_by_schema `{Host} {A : Type} (schema : json -> option A)
    (response : ChatCompletion) (a : A) :
  validated schema response = Return a -> exists v, schema v = Some a.
Proof.
  unfold validated, JSON_parse_or_throw, schema_parse, obind.
  destruct (JSON_parse _) as [v |]; [| discriminate].
  destruct (schema v) as [a' |] eqn:Hs; [| discriminate].
  intros [= <-]. now exists v.
Qed.

Lemma repair_once_result `{Host} {A : Type} (step : InngestStep)
    (schema : json -> option A) (primary repair : CompletionRequest)
    (fallback : A) (log : CallLog) (a : A) :
  fst (repair_once step schema primary repair (Return fallback) log) = Return a ->
  a = fallback \/ exists v, schema v = Some a.
Proof.
  unfold repair_once.
  destruct (step log primary) as [r1 | e]; [| discriminate].
  destruct (validated schema r1) as [a1 | e1] eqn:V1.
  - intros [= <-]. right. exact (validated_by_schema _ _ V1).
  - destruct (step _ repair) as [r2 | e2].
    + destruct (validated schema r2) as [a2 | e2] eqn:V2; intros [= <-].
      * right. exact (validated_by_schema _ _ V2).
      * now left.
    + intros [= <-]. now left.
Qed.

Lemma repair_once_throws `{Host} {A : Type} (step : InngestStep)
    (schema : json -> option A) (primary repair : CompletionRequest)
    (fallback : A) (log : CallLog) (e : JsError) :
  fst (repair_once step schema primary repair (Return fallback) log) = Throw e ->
  step log primary = Throw e.
Proof.
  unfold repair_once.
  destruct (step log primary) as [r1 | e1]; [| now intros [= <-]].
  destruct (validated schema r1); [discriminate |].
  destruct (step _ repair) as [r2 | e2]; [| discriminate].
  destruct (validated schema r2); discriminate.
Qed.

Lemma enforce_twitter_limit_bound (p : SocialPosts) :
  length (twitter (enforce_twitter_limit p)) <= 280.
Proof.
  unfold enforce_twitter_limit.
  destruct (280 <? length (twitter p)) eqn:Hlen.
  - cbn [set_twitter twitter]. unfold substring0.
    rewrite length_app, length_firstn.
    change (length (js "...")) with 3. lia.
  - apply Nat.ltb_ge in Hlen. exact Hlen.
Qed.

Lemma enforce_twitter_limit_over (p : SocialPosts) :
  280 < length (twitter p) ->
  enforce_twitter_limit p = set_twitter p (firstn 277 (twitter p) ++ js "...").
Proof.
  intros Hlen. unfold enforce_twitter_limit.
  apply Nat.ltb_lt in Hlen. now rewrite Hlen.
Qed.

Lemma titles_repair_fallback_shape : titles_shape titles_repair_fallback.
Proof. unfold titles_shape. cbn. lia. Qed.

(** C2 (amended): every run of the titles step returns a value, and that
    value has the declared shape (3, 3, 3 and 5 to 10 elements) unless it is
    the placeholder of the outer [catch], which is returned only when the
    prompt could not be built or the first completion call threw; every run
    of the social posts step returns a value whose twitter field has at
    most 280 characters.  The schema is taken to accept values of the
    declared shape only. *)
Theorem returned_values_shape :
  forall (H : Host) (step : InngestStep) (transcript : TranscriptWithExtras)
         (log : CallLog),
    (forall v t, titlesSchema_parse v = Some t -> titles_shape t) ->
    (exists r,
        fst (generateTitles step transcript log) = Return r /\
        (titles_shape r \/ r = titles_error_fallback) /\
        (forall prompt response,
            buildTitlesPrompt transcript = Return prompt ->
            step log (titles_request prompt) = Return response ->
            titles_shape r)) /\
    (exists p,
        fst (generateSocialPosts step transcript log) = Return p /\
        length (twitter p) <= 280).
Proof.
  intros H step transcript log Hschema. split.
  - rewrite generateTitles_flow.
    destruct (buildTitlesPrompt transcript) as [prompt | e].
    + pose proof (@repair_once_result H Titles step titlesSchema_parse
                    (titles_request prompt) titles_repair_request
                    titles_repair_fallback log) as Hres.
      destruct (repair_once _ _ _ _ _ _) as [[r | e] log'] eqn:Hrun;
        cbn [or_placeholder fst] in *.
      * assert (Hshape : titles_shape r).
        { destruct (Hres r eq_refl) as [-> | (v & Hv)].
          - apply titles_repair_fallback_shape.
          - exact (Hschema v r Hv). }
        exists r. split; [reflexivity |]. split; [now left |].
        intros; exact Hshape.
      * exists titles_error_fallback. split; [reflexivity |].
        split; [now right |].
        intros prompt' response [= <-] Hresp. exfalso.
        apply (f_equal fst) in Hrun. cbn [fst] in Hrun.
        apply repair_once_throws in Hrun. congruence.
    + exists titles_error_fallback. split; [reflexivity |].
      split; [now right |]. intros prompt response Hp. discriminate.
  - rewrite generateSocialPosts_flow. unfold bind, ret.
    destruct (repair_once _ _ _ _ _ _) as [[p | e] log'];
      cbn [or_placeholder fst].
    + exists (enforce_twitter_limit p). split; [reflexivity |].
      apply enforce_twitter_limit_bound.
    + exists social_error_fallback. split; [reflexivity |].
      vm_compute. repeat constructor.
Qed.



Lemma resolve_titles_both_malformed `{Host} (step : InngestStep)
    (prompt : jsstring) (log : CallLog) :
  both_malformed step log (primary_titles_request prompt) repair_titles_request
    (fun r => parse_titles (or_str (message_content r) empty_titles_content))
    (fun r => parse_repaired_titles (nullish (message_content r) [])) ->
  resolve_titles step prompt log
  = (Return (JArr []),
     log ++ [primary_titles_request prompt; repair_titles_request]).
Proof.
  intros (r1 & r2 & e1 & e2 & H1 & V1 & H2 & V2).
  unfold resolve_titles, bind, try_catch, lift, ai_wrap, ret.
  rewrite H1, V1, H2, V2, <- app_assoc. reflexivity.
Qed.

Lemma social_repair_fallback_within_limit :
  enforce_twitter_limit social_repair_fallback = social_repair_fallback.
Proof. reflexivity. Qed.

(** C4 (amended): when the first response and the repair response both
    fail to parse or validate, no exception escapes the summary, social
    posts and titles steps and, after exactly two calls, the social posts
    step and the titles step return their fixed fallback values and the
    summary step returns a fallback made of the first 500 and the first 200
    characters of the transcript text with fixed bullets and insights.  The
    timestamps step parses its responses without validating them: when the
    reading of each of the two responses throws inside its [try] (as for a
    response that is no JSON), it returns, after exactly two calls, every
    chapter in use described by its own headline. *)
Theorem both_responses_malformed_fallbacks :
  forall (H : Host) (step : InngestStep) (transcript : TranscriptWithExtras)
         (log : CallLog),
    (forall prompt txt,
        buildSummaryPrompt transcript = Return prompt ->
        text transcript = Some txt ->
        both_malformed step log (summary_request prompt) summary_repair_request
          (validated summarySchema_parse) (validated summarySchema_parse) ->
        generateSummary step transcript log =
        (Return {| full := firstn 500 txt;
                   bullets := [js "Full transcript available"];
                   insights := [js "See transcript"];
                   tldr := firstn 200 txt |},
         log ++ [summary_request prompt; summary_repair_request])) /\
    (both_malformed step log (social_request (buildSocialPrompt transcript))
       social_repair_request
       (validated socialPostsSchema_parse) (validated socialPostsSchema_parse) ->
     generateSocialPosts step transcript log =
     (Return social_repair_fallback,
      log ++ [social_request (buildSocialPrompt transcript);
              social_repair_request])) /\
    (forall prompt,
        buildTitlesPrompt transcript = Return prompt ->
        both_malformed step log (titles_request prompt) titles_repair_request
          (validated titlesSchema_parse) (validated titlesSchema_parse) ->
        generateTitles step transcript log =
        (Return titles_repair_fallback,
         log ++ [titles_request prompt; titles_repair_request])) /\
    (forall cs,
        chapters transcript = Some cs -> cs <> [] ->
        both_malformed step log
          (primary_titles_request
             (timestamps_prompt (chapterData_of (firstn 100 cs))))
          repair_titles_request
          (fun r => parse_titles (or_str (message_content r) empty_titles_content))
          (fun r => parse_repaired_titles (nullish (message_content r) [])) ->
        generateYouTubeTimestamps step transcript log =
        (Return (map (fun ch =>
                        {| timestamp := formatTimestamp (start ch / 1000)%Z;
                           description := JStr (headline ch) |})
                     (firstn 100 cs)),
         log ++ [primary_titles_request
                   (timestamps_prompt (chapterData_of (firstn 100 cs)));
                 repair_titles_request])).
Proof.
  intros H step transcript log. repeat split.
  - intros prompt txt Hprompt Htxt Hbad.
    rewrite generateSummary_flow, Hprompt,
      (repair_once_both_malformed _ Hbad).
    unfold summary_repair_fallback. rewrite Htxt. reflexivity.
  - intros Hbad.
    rewrite generateSocialPosts_flow. unfold bind, ret.
    rewrite (repair_once_both_malformed _ Hbad).
    cbn [or_placeholder]. now rewrite social_repair_fallback_within_limit.
  - intros prompt Hprompt Hbad.
    rewrite generateTitles_flow, Hprompt,
      (repair_once_both_malformed _ Hbad).
    reflexivity.
  - intros cs Hcs Hne Hbad.
    exact (generateYouTubeTimestamps_untitled H step transcript log Hcs Hne
             (resolve_titles_both_malformed Hbad)).
Qed.

(** C5: when the validated social posts (of the first response, or of the
    repair response after a malformed first one) carry a twitter field of
    more than 280 characters, the step returns these posts with the twitter
    field cut to its first 277 characters followed by three dots, 280
    characters in all, and the other fields as validated; the long field
    does not cause a repair call or a fallback. *)
Theorem twitter_over_limit_is_truncated :
  forall (H : Host) (step : InngestStep) (transcript : TranscriptWithExtras)
         (log : CallLog) (p : SocialPosts),
    280 < length (twitter p) ->
    let primary := social_request (buildSocialPrompt transcript) in
    let truncated := set_twitter p (firstn 277 (twitter p) ++ js "...") in
    (forall response,
        step log primary = Return response ->
        validated socialPostsSchema_parse response = Return p ->
        generateSocialPosts step transcript log
        = (Return truncated, log ++ [primary])) /\
    (forall response e repairResponse,
        step log primary = Return response ->
        validated socialPostsSchema_parse response = Throw e ->
        step (log ++ [primary]) social_repair_request = Return repairResponse ->
        validated socialPostsSchema_parse repairResponse = Return p ->
        generateSocialPosts step transcript log
        = (Return truncated, log ++ [primary; social_repair_request])) /\
    length (twitter truncated) = 280 /\
    skipn 277 (twitter truncated) = js "..." /\
    firstn 277 (twitter truncated) = firstn 277 (twitter p) /\
    (linkedin truncated, instagram truncated, tiktok truncated,
     youtube truncated, facebook truncated)
    = (linkedin p, instagram p, tiktok p, youtube p, facebook p).
Proof.
  intros H step transcript log p Hlen primary truncated.
  assert (Hpre : length (firstn 277 (twitter p)) = 277)
    by (rewrite length_firstn; lia).
  repeat split.
  - intros response Hstep Hvalid.
    rewrite generateSocialPosts_flow. unfold bind, ret, repair_once.
    fold primary. rewrite Hstep, Hvalid. cbn [or_placeholder].
    now rewrite (enforce_twitter_limit_over p Hlen).
  - intros response e repairResponse Hstep Hbad Hrepair Hvalid.
    rewrite generateSocialPosts_flow. unfold bind, ret, repair_once.
    fold primary. rewrite Hstep, Hbad, Hrepair, Hvalid. cbn [or_placeholder].
    now rewrite (enforce_twitter_limit_over p Hlen).
  - subst truncated. cbn [set_twitter twitter].
    rewrite length_app, Hpre. reflexivity.
  - subst truncated. cbn [set_twitter twitter].
    rewrite skipn_app, Hpre, Nat.sub_diag, skipn_all2 by lia. reflexivity.
  - subst truncated. cbn [set_twitter twitter].
    rewrite firstn_app, Hpre, Nat.sub_diag, firstn_firstn, Nat.min_id.
    cbn [firstn]. now rewrite app_nil_r.
Qed.



(* ===================================================================== *)
(** ** What the prompts are built from *)
(* ===================================================================== *)

Lemma contains_here (part post : jsstring) : contains part (part ++ post).
Proof. now exists [], post. Qed.

Lemma contains_after (part pre whole : jsstring) :
  contains part whole -> contains part (pre ++ whole).
Proof.
  intros (a & b & ->). exists (pre ++ a), b. now rewrite <- app_assoc.
Qed.

Lemma contains_before (part whole post : jsstring) :
  contains part whole -> contains part (whole ++ post).
Proof.
  intros (a & b & ->). exists a, (b ++ post). now rewrite <- !app_assoc.
Qed.

Lemma join_cons (sep x : jsstring) (rest : list jsstring) :
  join sep (x :: rest)
  = match rest with [] => x | _ :: _ => x ++ sep ++ join sep rest end.
Proof. reflexivity. Qed.

(** Every element of a list has its line in the joined lines. *)
Lemma join_mapi_from_contains {A : Type} (sep : jsstring)
    (f : A -> nat -> jsstring) (key : A -> jsstring) :
  (forall x k, contains (key x) (f x k)) ->
  forall l k x, In x l -> contains (key x) (join sep (mapi_from k f l)).
Proof.
  intros Hf. induction l as [| y l IH]; intros k x Hin; [contradiction |].
  cbn [mapi_from]. rewrite join_cons.
  destruct Hin as [-> | Hin].
  - destruct (mapi_from (S k) f l); [apply Hf |].
    apply contains_before, Hf.
  - specialize (IH (S k) x Hin).
    destruct (mapi_from (S k) f l) as [| z rest] eqn:Hrest.
    + destruct l; [contradiction | discriminate].
    + now apply contains_after, contains_after.
Qed.

Lemma Return_inj {A : Type} (a b : A) : Return a = Return b -> a = b.
Proof. congruence. Qed.

Lemma summary_prompt_lists_chapter (t : TranscriptWithExtras)
    (prompt : jsstring) (chs : list Chapter) (ch : Chapter) :
  buildSummaryPrompt t = Return prompt -> chapters t = Some chs -> In ch chs ->
  contains (headline ch) prompt.
Proof.
  unfold buildSummaryPrompt, defined, obind.
  destruct (text t) as [txt |]; [| discriminate].
  intros Hprompt Hchs Hin. rewrite Hchs in Hprompt.
  apply Return_inj in Hprompt. subst prompt.
  destruct chs as [| c chs]; [contradiction |].
  change (0 <? length (c :: chs)) with true. cbv iota.
  do 3 apply contains_after. apply contains_before, contains_after.
  apply join_mapi_from_contains; [| exact Hin].
  intros x k. apply contains_after, contains_after, contains_here.
Qed.

Lemma titles_prompt_lists_chapter (t : TranscriptWithExtras)
    (prompt : jsstring) (chs : list Chapter) (ch : Chapter) :
  buildTitlesPrompt t = Return prompt -> chapters t = Some chs -> In ch chs ->
  contains (headline ch) prompt.
Proof.
  unfold buildTitlesPrompt, defined, obind.
  destruct (text t) as [txt |]; [| discriminate].
  intros Hprompt Hchs Hin. rewrite Hchs in Hprompt.
  apply Return_inj in Hprompt. subst prompt.
  destruct chs as [| c chs]; [contradiction |].
  change (0 <? length (c :: chs)) with true. cbv iota.
  do 3 apply contains_after. apply contains_before, contains_after.
  apply join_mapi_from_contains; [| exact Hin].
  intros x k. apply contains_after, contains_after.
  exists [], []. now rewrite app_nil_r.
Qed.

Lemma timestamps_prompt_lists_chapter (chs : list Chapter) (ch : Chapter) :
  In ch chs -> contains (headline ch) (timestamps_prompt (chapterData_of chs)).
Proof.
  intros Hin. unfold timestamps_prompt.
  do 3 apply contains_after. apply contains_before.
  unfold chapterData_of, mapi.
  assert (Hdata : forall l k,
             In ch l ->
             exists d, In d (mapi_from k
                               (fun chapter idx =>
                                  {| index := idx;
                                     cd_timestamp := (start chapter / 1000)%Z;
                                     cd_headline := headline chapter;
                                     cd_summary := summary chapter;
                                     cd_gist := gist chapter |}) l)
                       /\ cd_headline d = headline ch).
  { induction l as [| y l IH]; intros k Hl; [contradiction |].
    destruct Hl as [-> | Hl].
    - eexists. split; [now left | reflexivity].
    - destruct (IH (S k) Hl) as (d & Hd & Heq).
      exists d. split; [now right | exact Heq]. }
  destruct (Hdata chs 0 Hin) as (d & Hd & <-).
  apply (@join_mapi_from_contains _ _ _ cd_headline); [| exact Hd].
  intros x k. do 5 apply contains_after. apply contains_here.
Qed.

(** C9 (amended): the summary, titles and social prompts read at most the
    first 3000, 2000 and 500 characters of the transcript text (cutting
    the text to that prefix beforehand changes nothing); the social prompt
    reads at most the first 5 chapters; the summary and titles prompts
    include the headline of every chapter, and the chapter titles prompt
    that of every chapter it is given (the first 100). *)
Theorem prompt_inputs :
  forall (t : TranscriptWithExtras),
    buildSummaryPrompt t
    = buildSummaryPrompt (with_text t (option_map (firstn 3000) (text t))) /\
    buildTitlesPrompt t
    = buildTitlesPrompt (with_text t (option_map (firstn 2000) (text t))) /\
    buildSocialPrompt t
    = buildSocialPrompt (with_text t (option_map (firstn 500) (text t))) /\
    buildSocialPrompt t
    = buildSocialPrompt (with_chapters t (option_map (firstn 5) (chapters t))) /\
    (forall prompt chs ch,
        buildSummaryPrompt t = Return prompt -> chapters t = Some chs ->
        In ch chs -> contains (headline ch) prompt) /\
    (forall prompt chs ch,
        buildTitlesPrompt t = Return prompt -> chapters t = Some chs ->
        In ch chs -> contains (headline ch) prompt) /\
    (forall chs ch,
        chapters t = Some chs -> In ch (firstn 100 chs) ->
        contains (headline ch)
                 (timestamps_prompt (chapterData_of (firstn 100 chs)))).
Proof.
  intros t. repeat split.
  - unfold buildSummaryPrompt, with_text, substring0. cbn [text chapters].
    destruct (text t) as [txt |]; [| reflexivity].
    cbn [option_map defined obind]. now rewrite firstn_firstn, Nat.min_id.
  - unfold buildTitlesPrompt, with_text, substring0. cbn [text chapters].
    destruct (text t) as [txt |]; [| reflexivity].
    cbn [option_map defined obind]. now rewrite firstn_firstn, Nat.min_id.
  - unfold buildSocialPrompt, first_chapter_summary, with_text, substring0.
    cbn [text chapters].
    destruct (text t) as [txt |]; [| reflexivity].
    cbn [option_map]. now rewrite firstn_firstn, Nat.min_id.
  - unfold buildSocialPrompt, first_chapter_summary, with_chapters, slice0.
    cbn [text chapters].
    destruct (chapters t) as [[| c chs] |]; try reflexivity.
    cbn [option_map]. now rewrite firstn_firstn, Nat.min_id.
  - apply summary_prompt_lists_chapter.
  - apply titles_prompt_lists_chapter.
  - intros chs ch _. apply timestamps_prompt_lists_chapter.
Qed.



(* ===================================================================== *)
(** ** Any result of the timestamps step *)
(* ===================================================================== *)

Lemma title_chapter_timestamp (aiTitles : json) (chapter : ChapterData)
    (item : AiTimestamp) :
  title_chapter aiTitles chapter = Return item ->
  ai_timestamp item = cd_timestamp chapter.
Proof.
  unfold title_chapter.
  destruct (Array_find aiTitles _) as [aiTitle | e]; [| discriminate].
  cbn [obind].
  destruct (match aiTitle with
            | Some t => get_prop t (js "title")
            | None => Return None
            end) as [title | e]; [| discriminate].
  cbn [obind]. intros Hitem. apply Return_inj in Hitem. now subst item.
Qed.

Lemma map_throwing_timestamps (aiTitles : json) (data : list ChapterData) :
  forall items,
    map_throwing (title_chapter aiTitles) data = Return items ->
    map ai_timestamp items = map cd_timestamp data.
Proof.
  induction data as [| chapter data IH]; intros items; cbn [map_throwing].
  - intros Hitems. apply Return_inj in Hitems. now subst items.
  - destruct (title_chapter aiTitles chapter) as [item | e] eqn:Hitem;
      [| discriminate].
    cbn [obind].
    destruct (map_throwing (title_chapter aiTitles) data) as [rest | e];
      [| discriminate].
    cbn [obind]. intros Hitems. apply Return_inj in Hitems. subst items.
    cbn [map]. now rewrite (title_chapter_timestamp _ _ Hitem), (IH rest eq_refl).
Qed.

Lemma chapterData_timestamps (cs : list Chapter) :
  forall i,
    map cd_timestamp
        (mapi_from i (fun chapter idx =>
                        {| index := idx;
                           cd_timestamp := (start chapter / 1000)%Z;
                           cd_headline := headline chapter;
                           cd_summary := summary chapter;
                           cd_gist := gist chapter |}) cs)
    = map (fun ch => (start ch / 1000)%Z) cs.
Proof.
  induction cs as [| c cs IH]; intros i; cbn; [reflexivity |].
  now rewrite IH.
Qed.

(** Whenever the timestamps step returns a result, the result has one entry
    per chapter in use (the first 100), in order, each with the formatted
    floor of its chapter's start in seconds, whatever the replies were. *)
Lemma timestamps_of_any_result
    (H : Host) (step : InngestStep) (transcript : TranscriptWithExtras)
    (cs : list Chapter) (log log' : CallLog) (r : list YouTubeTimestamp) :
  chapters transcript = Some cs -> cs <> [] ->
  generateYouTubeTimestamps step transcript log = (Return r, log') ->
  map timestamp r
  = map (fun ch => formatTimestamp (start ch / 1000)%Z) (firstn 100 cs)
  /\ length r = Nat.min 100 (length cs).
Proof.
  intros Hcs Hne.
  rewrite (@generateYouTubeTimestamps_body H step _ _ log Hcs Hne).
  unfold bind at 1.
  destruct (resolve_titles _ _ _) as [[aiTitles | e] log1]; [| discriminate].
  unfold bind, lift, ret.
  destruct (map_throwing _ _) as [items | e] eqn:Hitems; [| discriminate].
  destruct (map_throwing log_line _); [| discriminate].
  intros Hrun.
  assert (Hr : r = map (fun item =>
                          {| timestamp := formatTimestamp (ai_timestamp item);
                             description := ai_description item |}) items)
    by congruence.
  apply map_throwing_timestamps in Hitems.
  unfold chapterData_of, mapi in Hitems.
  rewrite chapterData_timestamps in Hitems.
  assert (Hmap : map timestamp r
                 = map (fun ch => formatTimestamp (start ch / 1000)%Z)
                       (firstn 100 cs)).
  { subst r. rewrite map_map. cbn [timestamp].
    rewrite <- (map_map ai_timestamp formatTimestamp), Hitems, map_map.
    reflexivity. }
  split; [exact Hmap |].
  apply (f_equal (@length _)) in Hmap.
  rewrite !length_map, length_firstn in Hmap. exact Hmap.
Qed.

(** C8: whenever the timestamps step returns a result, its first entry
    carries the formatted start of the first chapter in whole seconds; it
    reads as second zero does only when that chapter starts within the
    first second of the recording. *)
Theorem first_timestamp_follows_first_chapter :
  forall (H : Host) (step : InngestStep) (transcript : TranscriptWithExtras)
         (c : Chapter) (cs : list Chapter) (log log' : CallLog)
         (r : list YouTubeTimestamp),
    chapters transcript = Some (c :: cs) ->
    generateYouTubeTimestamps step transcript log = (Return r, log') ->
    exists first rest,
      r = first :: rest /\
      timestamp first = formatTimestamp (start c / 1000)%Z /\
      length r <= 100.
Proof.
  intros H step transcript c cs log log' r Hcs Hrun.
  assert (Hne : c :: cs <> []) by discriminate.
  destruct (timestamps_of_any_result H step transcript log Hcs Hne Hrun)
    as [Hmap Hlen].
  destruct r as [| first rest]; [discriminate |].
  exists first, rest. split; [reflexivity |]. split.
  - cbn [firstn map] in Hmap. congruence.
  - rewrite Hlen. apply Nat.le_min_l.
Qed.

(** C10: when the first reply parses to a value whose [titles] is an object
    without a [length] (the titles keyed by slot instead of listed, say),
    no repair is attempted and the timestamps step throws a TypeError
    after its one call: [aiTitles.find] is not a function, and the call
    stands outside every [try]. *)
Theorem timestamps_throws_on_titles_that_are_no_array :
  forall (H : Host) (step : InngestStep) (transcript : TranscriptWithExtras)
         (cs : list Chapter) (log : CallLog) (response : ChatCompletion)
         (parsed : json) (props : list (jsstring * json)),
    chapters transcript = Some cs -> cs <> [] ->
    step log (primary_titles_request
                (timestamps_prompt (chapterData_of (firstn 100 cs))))
    = Return response ->
    JSON_parse (or_str (message_content response) empty_titles_content)
    = Some parsed ->
    get_prop parsed (js "titles") = Return (Some (JObj props)) ->
    own_property (js "length") props = None ->
    generateYouTubeTimestamps step transcript log
    = (Throw TypeError,
       log ++ [primary_titles_request
                 (timestamps_prompt (chapterData_of (firstn 100 cs)))]).
Proof.
  intros H step transcript cs log response parsed props
         Hcs Hne Hstep Hparse Htitles Hlength.
  rewrite (@generateYouTubeTimestamps_body H step _ _ log Hcs Hne).
  unfold bind at 1. unfold slice0, resolve_titles, bind, try_catch, lift, ai_wrap.
  rewrite Hstep.
  unfold parse_titles, JSON_parse_or_throw, titles_or_empty, interpolate_length,
    length_gt_zero.
  rewrite Hparse. cbn [obind]. rewrite Htitles.
  cbn [obind or_json truthy get_prop]. rewrite Hlength.
  cbn [obind interpolate].
  destruct cs as [| c cs]; [congruence |].
  reflexivity.
Qed.



(* ===================================================================== *)
(** ** Runs on the examples *)
(* ===================================================================== *)

Lemma timestamps_primary_call_failure_escapes_witness :
  chapters intro_transcript = Some [example_chapter 0 (js "Welcome and introductions")] /\
  generateYouTubeTimestamps (H := demo_host) rejecting intro_transcript []
  = (Throw TransportError,
     [primary_titles_request
        (timestamps_prompt
           (chapterData_of [example_chapter 0 (js "Welcome and introductions")]))]).
Proof.
  split; [reflexivity |].
  apply (@timestamps_primary_call_failure_escapes demo_host rejecting
           intro_transcript [example_chapter 0 (js "Welcome and introductions")]
           [] TransportError);
    [reflexivity | discriminate | reflexivity].
Defined.

(** C2, as stated, fails: when the first completion call of the titles
    step is rejected, the value returned has one element in each of its
    four lists. *)
Lemma titles_placeholder_violates_shape :
  exists r,
    fst (generateTitles (H := demo_host) rejecting intro_transcript [])
    = Return r /\
    length (youtubeShort r) = 1 /\ length (youtubeLong r) = 1 /\
    length (podcastTitles r) = 1 /\ length (seoKeywords r) = 1 /\
    ~ titles_shape r.
Proof.
  exists titles_error_fallback.
  split; [reflexivity |]. repeat (split; [reflexivity |]).
  intros (Hshort & _). cbn in Hshort. discriminate.
Qed.



Lemma sized_bounds (lo hi : nat) (a : option (list jsstring)) (l : list jsstring) :
  sized lo hi a = Some l -> lo <= length l /\ length l <= hi.
Proof.
  unfold sized. destruct a as [l' |]; [| discriminate].
  destruct (lo <=? length l') eqn:Hlo; [| discriminate].
  destruct (length l' <=? hi) eqn:Hhi; [| discriminate].
  intros [= <-]. apply Nat.leb_le in Hlo, Hhi. now split.
Qed.

(** The titles schema, as described, accepts values of the declared shape
    only. *)
Lemma titlesSchema_spec_shape (v : json) (t : Titles) :
  titlesSchema_spec v = Some t -> titles_shape t.
Proof.
  unfold titlesSchema_spec.
  destruct (sized 3 3 (as_string_array (field v "youtubeShort")))
    as [s |] eqn:Hs; [| discriminate].
  destruct (sized 3 3 (as_string_array (field v "youtubeLong")))
    as [l |] eqn:Hl; [| discriminate].
  destruct (sized 3 3 (as_string_array (field v "podcastTitles")))
    as [p |] eqn:Hp; [| discriminate].
  destruct (sized 5 10 (as_string_array (field v "seoKeywords")))
    as [k |] eqn:Hk; [| discriminate].
  intros [= <-]. unfold titles_shape. cbn.
  apply sized_bounds in Hs, Hl, Hp, Hk. lia.
Qed.

Lemma returned_values_shape_witness :
  (exists r,
      fst (generateTitles (H := demo_host) (answering not_json)
             intro_transcript []) = Return r /\
      titles_shape r) /\
  (exists p,
      fst (generateSocialPosts (H := demo_host)
             (answering (posts_json long_tweet)) intro_transcript [])
      = Return p /\
      length (twitter p) <= 280).
Proof.
  split.
  - destruct (@returned_values_shape demo_host (answering not_json)
                intro_transcript [] titlesSchema_spec_shape)
      as [(r & Hrun & _ & Hshape) _].
    exists r. split; [exact Hrun |].
    eapply Hshape; reflexivity.
  - exact (proj2 (@returned_values_shape demo_host
                    (answering (posts_json long_tweet)) intro_transcript []
                    titlesSchema_spec_shape)).
Defined.

Lemma timestamps_without_chapters_throws_before_any_call_witness :
  chapters unchaptered_transcript = Some [] /\
  generateYouTubeTimestamps (H := demo_host) (answering one_title)
    unchaptered_transcript []
  = (Throw no_chapters_error, []) /\
  generateYouTubeTimestamps (H := demo_host) (answering one_title)
    (with_chapters unchaptered_transcript None) []
  = (Throw no_chapters_error, []).
Proof.
  split; [reflexivity |]. split.
  - apply (@timestamps_without_chapters_throws_before_any_call demo_host
             (answering one_title) unchaptered_transcript []).
    right. reflexivity.
  - apply (@timestamps_without_chapters_throws_before_any_call demo_host
             (answering one_title) (with_chapters unchaptered_transcript None) []).
    left. reflexivity.
Defined.

(** C4, as stated, fails: with both responses malformed, the summary step
    returns the beginning of the transcript text, so two transcripts get
    two different values. *)
Lemma summary_fallback_depends_on_transcript :
  exists a b,
    generateSummary (H := demo_host) (answering not_json) intro_transcript []
    = (Return a,
       [summary_request
          (match buildSummaryPrompt intro_transcript with
           | Return p => p | Throw _ => [] end);
        summary_repair_request]) /\
    generateSummary (H := demo_host) (answering not_json) other_transcript []
    = (Return b,
       [summary_request
          (match buildSummaryPrompt other_transcript with
           | Return p => p | Throw _ => [] end);
        summary_repair_request]) /\
    full a = js "Welcome to the show. Today we talk about automation." /\
    full b = js "Thanks for tuning in. This week: pricing experiments." /\
    a <> b.
Proof.
  eexists. eexists.
  split; [vm_compute; reflexivity |].
  split; [vm_compute; reflexivity |].
  split; [reflexivity |]. split; [reflexivity |].
  intros Heq. apply (f_equal full) in Heq. vm_compute in Heq. discriminate.
Qed.

Lemma both_responses_malformed_fallbacks_witness :
  generateSocialPosts (H := demo_host) (answering not_json) intro_transcript []
  = (Return social_repair_fallback,
     [social_request (buildSocialPrompt intro_transcript);
      social_repair_request]) /\
  generateYouTubeTimestamps (H := demo_host) (answering not_json)
    intro_transcript []
  = (Return [{| timestamp := js "0:00";
                description := JStr (js "Welcome and introductions") |}],
     [primary_titles_request
        (timestamps_prompt
           (chapterData_of [example_chapter 0 (js "Welcome and introductions")]));
      repair_titles_request]).
Proof.
  destruct (@both_responses_malformed_fallbacks demo_host (answering not_json)
              intro_transcript [])
    as (_ & Hsocial & _ & Htimestamps).
  split.
  - apply Hsocial.
    exists {| message_content := Some not_json |},
           {| message_content := Some not_json |}, SyntaxError, SyntaxError.
    repeat split; reflexivity.
  - assert (Hbad : both_malformed (answering not_json) []
                      (primary_titles_request
                         (timestamps_prompt
                            (chapterData_of
                               (firstn 100
                                  [example_chapter 0
                                     (js "Welcome and introductions")]))))
                      repair_titles_request
                      (fun r => parse_titles (H := demo_host)
                                  (or_str (message_content r) empty_titles_content))
                      (fun r => parse_repaired_titles (H := demo_host)
                                  (nullish (message_content r) []))).
    { exists {| message_content := Some not_json |},
             {| message_content := Some not_json |}, SyntaxError, SyntaxError.
      repeat split; vm_compute; reflexivity. }
    assert (Hne : [example_chapter 0 (js "Welcome and introductions")] <> [])
      by discriminate.
    pose proof (Htimestamps
                  [example_chapter 0 (js "Welcome and introductions")]
                  eq_refl Hne Hbad) as Hrun.
    vm_compute in Hrun. vm_compute. exact Hrun.
Defined.

Lemma twitter_over_limit_is_truncated_witness :
  length long_tweet = 300 /\
  generateSocialPosts (H := demo_host) (answering (posts_json long_tweet))
    intro_transcript []
  = (Return {| twitter := repeat 97%N 277 ++ js "...";
               linkedin := js "On LinkedIn";
               instagram := js "On Instagram";
               tiktok := js "On TikTok";
               youtube := js "On YouTube";
               facebook := js "On Facebook" |},
     [social_request (buildSocialPrompt intro_transcript)]) /\
  length (repeat 97%N 277 ++ js "...") = 280.
Proof.
  split; [reflexivity |].
  assert (Hlong : 280 < length (twitter
                     {| twitter := long_tweet;
                        linkedin := js "On LinkedIn";
                        instagram := js "On Instagram";
                        tiktok := js "On TikTok";
                        youtube := js "On YouTube";
                        facebook := js "On Facebook" |}))
    by (vm_compute; lia).
  destruct (@twitter_over_limit_is_truncated demo_host
              (answering (posts_json long_tweet)) intro_transcript [] _ Hlong)
    as (Hfirst & _ & Hlen & _).
  split.
  - apply (Hfirst {| message_content := Some (posts_json long_tweet) |});
      [reflexivity | vm_compute; reflexivity].
  - exact Hlen.
Defined.



Lemma timestamps_cap_and_per_slot_fallback_witness :
  length (minute_chapters 150) = 150 /\
  (exists r,
      generateYouTubeTimestamps (H := wider_host) (answering one_title)
        long_transcript []
      = (Return r,
         [primary_titles_request
            (timestamps_prompt
               (chapterData_of (firstn 100 (minute_chapters 150))))])
      /\ length r = 100
      /\ nth_error r 0 = Some {| timestamp := js "0:00";
                                 description := JStr (js "Kickoff") |}
      /\ nth_error r 1 = Some {| timestamp := js "1:00";
                                 description := JStr (js "Chapter 2") |}
      /\ nth_error r 99 = Some {| timestamp := js "1:39:00";
                                  description := JStr (js "Chapter 100") |}) /\
  generateYouTubeTimestamps (H := wider_host) (answering null_title)
    long_transcript []
  = (Throw TypeError,
     [primary_titles_request
        (timestamps_prompt (chapterData_of (firstn 100 (minute_chapters 150))))]).
Proof.
  split; [reflexivity |].
  assert (Hne : minute_chapters 150 <> []) by discriminate.
  split.
  - assert (Hres : resolve_titles (H := wider_host) (answering one_title)
                     (timestamps_prompt
                        (chapterData_of (firstn 100 (minute_chapters 150)))) []
                   = (Return (JArr [JObj [(js "index", JNum 0);
                                           (js "title", JStr (js "Kickoff"))]]),
                      [primary_titles_request
                         (timestamps_prompt
                            (chapterData_of
                               (firstn 100 (minute_chapters 150))))]))
      by (vm_compute; reflexivity).
    destruct (@timestamps_cap_and_per_slot_fallback wider_host
                (answering one_title) long_transcript (minute_chapters 150)
                [] _ _ eq_refl Hne Hres)
      as (_ & Hslots & _).
    destruct (Hslots [JObj [(js "index", JNum 0);
                            (js "title", JStr (js "Kickoff"))]] eq_refl)
      as (r & Hrun & Hlen & Hslot).
    { repeat constructor; discriminate. }
    { vm_compute; reflexivity. }
    exists r. split; [exact Hrun |]. split; [exact Hlen |].
    assert (Hrecord : forall (item : YouTubeTimestamp) ts d,
               timestamp item = ts -> description item = d ->
               item = {| timestamp := ts; description := d |})
      by (intros [ts' d'] ts d; cbn; intros -> ->; reflexivity).
    split; [| split].
    + destruct (Hslot 0 (example_chapter 0 (js "Chapter " ++ js_of_nat 1)))
        as (item & -> & Hts & _ & Htitled);
        [repeat constructor | reflexivity |].
      f_equal. apply Hrecord.
      * rewrite Hts. vm_compute. reflexivity.
      * apply (Htitled (JObj [(js "index", JNum 0);
                              (js "title", JStr (js "Kickoff"))]));
          vm_compute; reflexivity.
    + destruct (Hslot 1 (example_chapter 60000 (js "Chapter " ++ js_of_nat 2)))
        as (item & -> & Hts & Hnone & _);
        [repeat constructor | reflexivity |].
      f_equal. apply Hrecord.
      * rewrite Hts. vm_compute. reflexivity.
      * rewrite Hnone; [vm_compute; reflexivity |].
        intros t [<- | []]. vm_compute. reflexivity.
    + destruct (Hslot 99
                  (example_chapter 5940000 (js "Chapter " ++ js_of_nat 100)))
        as (item & -> & Hts & Hnone & _);
        [repeat constructor | reflexivity |].
      f_equal. apply Hrecord.
      * rewrite Hts. vm_compute. reflexivity.
      * rewrite Hnone; [vm_compute; reflexivity |].
        intros t [<- | []]. vm_compute. reflexivity.
  - assert (Hres : resolve_titles (H := wider_host) (answering null_title)
                     (timestamps_prompt
                        (chapterData_of (firstn 100 (minute_chapters 150)))) []
                   = (Return (JArr [JNull]),
                      [primary_titles_request
                         (timestamps_prompt
                            (chapterData_of
                               (firstn 100 (minute_chapters 150))))]))
      by (vm_compute; reflexivity).
    destruct (@timestamps_cap_and_per_slot_fallback wider_host
                (answering null_title) long_transcript (minute_chapters 150)
                [] _ _ eq_refl Hne Hres)
      as (_ & _ & Hthrows).
    apply Hthrows. right. exists []. reflexivity.
Defined.

Lemma first_timestamp_follows_first_chapter_witness :
  chapters late_start_transcript
  = Some [example_chapter 5000 (js "Welcome and introductions")] /\
  generateYouTubeTimestamps (H := demo_host) (answering empty_titles_content)
    late_start_transcript []
  = (Return [{| timestamp := js "0:05";
                description := JStr (js "Welcome and introductions") |}],
     [primary_titles_request
        (timestamps_prompt
           (chapterData_of
              [example_chapter 5000 (js "Welcome and introductions")]))]) /\
  (exists first rest,
      [{| timestamp := js "0:05";
          description := JStr (js "Welcome and introductions") |}]
      = first :: rest /\
      timestamp first = js "0:05") /\
  js "0:05" <> js "0:00".
Proof.
  split; [reflexivity |].
  assert (Hrun : generateYouTubeTimestamps (H := demo_host)
                   (answering empty_titles_content) late_start_transcript []
                 = (Return [{| timestamp := js "0:05";
                               description :=
                                 JStr (js "Welcome and introductions") |}],
                    [primary_titles_request
                       (timestamps_prompt
                          (chapterData_of
                             [example_chapter 5000
                                (js "Welcome and introductions")]))]))
    by (vm_compute; reflexivity).
  split; [exact Hrun |]. split.
  - destruct (@first_timestamp_follows_first_chapter demo_host
                (answering empty_titles_content) late_start_transcript
                (example_chapter 5000 (js "Welcome and introductions")) []
                [] _ _ eq_refl Hrun)
      as (first & rest & Hr & Hts & _).
    exists first, rest. split; [exact Hr |].
    rewrite Hts. vm_compute. reflexivity.
  - vm_compute. discriminate.
Defined.

Lemma timestamps_throws_on_titles_that_are_no_array_witness :
  generateYouTubeTimestamps (H := demo_host) (answering titles_keyed_by_slot)
    intro_transcript []
  = (Throw TypeError,
     [primary_titles_request
        (timestamps_prompt
           (chapterData_of
              (firstn 100
                 [example_chapter 0 (js "Welcome and introductions")])))]).
Proof.
  assert (Hne : [example_chapter 0 (js "Welcome and introductions")] <> [])
    by discriminate.
  apply (@timestamps_throws_on_titles_that_are_no_array demo_host
           (answering titles_keyed_by_slot) intro_transcript
           [example_chapter 0 (js "Welcome and introductions")] []
           {| message_content := Some titles_keyed_by_slot |}
           (JObj [(js "titles", JObj [(js "0", JStr (js "Welcome"))])])
           [(js "0", JStr (js "Welcome"))]
           eq_refl Hne eq_refl);
    vm_compute; reflexivity.
Defined.

(** C9, as stated, fails: the summary prompt of a transcript with six
    chapters includes the headline of the sixth, and differs from the
    prompt of the same transcript cut to its first five chapters; and the
    social prompt of a text of 600 characters carries its first 500 only. *)
Lemma summary_prompt_lists_sixth_chapter :
  nth_error (minute_chapters 6) 5
  = Some (example_chapter 300000 (js "Chapter 6")) /\
  exists prompt,
    buildSummaryPrompt six_chapter_transcript = Return prompt /\
    contains (js "6. Chapter 6") prompt /\
    buildSummaryPrompt
      (with_chapters six_chapter_transcript (Some (firstn 5 (minute_chapters 6))))
    <> Return prompt /\
    buildSocialPrompt {| text := Some (repeat 97%N 600); chapters := None |}
    = buildSocialPrompt {| text := Some (repeat 97%N 500); chapters := None |}.
Proof.
  split; [reflexivity |].
  eexists. split; [reflexivity |]. split; [| split; [| vm_compute; reflexivity]].
  - do 3 apply contains_after. apply contains_before, contains_after.
    unfold mapi, minute_chapters. cbn [seq map mapi_from].
    rewrite !join_cons.
    do 10 apply contains_after. exists [], (js " - " ++ summary (example_chapter 300000 (js "Chapter 6"))).
    vm_compute. reflexivity.
  - intros Heq.
    apply (f_equal (fun o => match o with
                             | Return s => length s
                             | Throw _ => 0
                             end)) in Heq.
    vm_compute in Heq. discriminate.
Qed.

Lemma prompt_inputs_witness :
  exists prompt,
    buildTitlesPrompt six_chapter_transcript = Return prompt /\
    contains (js "Chapter 6") prompt.
Proof.
  eexists. split; [reflexivity |].
  destruct (prompt_inputs six_chapter_transcript)
    as (_ & _ & _ & _ & _ & Htitles & _).
  apply (Htitles _ (minute_chapters 6)
           (example_chapter 300000 (js "Chapter 6")));
    [reflexivity | reflexivity | ].
  do 5 right. left. reflexivity.
Defined.



(* ===================================================================== *)
(** ** The cases of the shared flow *)
(* ===================================================================== *)

Section RepairOnceCases.
Context {H : Host} {A : Type}.
Variable step : InngestStep.
Variable schema : json -> option A.
Variables primary repair : CompletionRequest.
Variable fallback : Outcome A.
Variable log : CallLog.

Lemma repair_once_first_valid (response : ChatCompletion) (a : A) :
  step log primary = Return response ->
  validated schema response = Return a ->
  repair_once step schema primary repair fallback log
  = (Return a, log ++ [primary]).
Proof. intros Hstep Hvalid. unfold repair_once. now rewrite Hstep, Hvalid. Qed.

Lemma repair_once_first_throws (e : JsError) :
  step log primary = Throw e ->
  repair_once step schema primary repair fallback log
  = (Throw e, log ++ [primary]).
Proof. intros Hstep. unfold repair_once. now rewrite Hstep. Qed.

Lemma repair_once_repair_valid (response repairResponse : ChatCompletion)
    (e : JsError) (a : A) :
  step log primary = Return response ->
  validated schema response = Throw e ->
  step (log ++ [primary]) repair = Return repairResponse ->
  validated schema repairResponse = Return a ->
  repair_once step schema primary repair fallback log
  = (Return a, log ++ [primary; repair]).
Proof.
  intros Hstep Hbad Hrepair Hvalid. unfold repair_once.
  now rewrite Hstep, Hbad, Hrepair, Hvalid.
Qed.

Lemma repair_once_repair_throws (response : ChatCompletion) (e e' : JsError) :
  step log primary = Return response ->
  validated schema response = Throw e ->
  step (log ++ [primary]) repair = Throw e' ->
  repair_once step schema primary repair fallback log
  = (fallback, log ++ [primary; repair]).
Proof.
  intros Hstep Hbad Hrepair. unfold repair_once.
  now rewrite Hstep, Hbad, Hrepair.
Qed.

(** The calls of the flow: the first request, then at most the repair
    request, which is made only after an answered first call whose
    response did not validate. *)
Lemma repair_once_calls :
  snd (repair_once step schema primary repair fallback log) = log ++ [primary]
  \/ (snd (repair_once step schema primary repair fallback log)
      = log ++ [primary; repair]
      /\ exists response e,
          step log primary = Return response /\
          validated schema response = Throw e).
Proof.
  unfold repair_once.
  destruct (step log primary) as [response | e]; [| now left].
  destruct (validated schema response) as [a | e] eqn:Hvalid; [now left |].
  right.
  destruct (step (log ++ [primary]) repair) as [repairResponse | e'].
  - destruct (validated schema repairResponse); split; eauto.
  - split; eauto.
Qed.
End RepairOnceCases.

Lemma enforce_twitter_limit_within (p : SocialPosts) :
  length (twitter p) <= 280 -> enforce_twitter_limit p = p.
Proof.
  intros Hlen. unfold enforce_twitter_limit.
  apply Nat.ltb_ge in Hlen. now rewrite Hlen.
Qed.

(** X1: when the first response parses and validates, the summary and the
    titles steps return exactly the validated value after that one call,
    and so does the social posts step when the twitter field has at most
    280 characters: no repair call is made. *)
Theorem valid_first_response_is_returned :
  forall (H : Host) (step : InngestStep) (transcript : TranscriptWithExtras)
         (log : CallLog),
    (forall prompt response a,
        buildSummaryPrompt transcript = Return prompt ->
        step log (summary_request prompt) = Return response ->
        validated summarySchema_parse response = Return a ->
        generateSummary step transcript log
        = (Return a, log ++ [summary_request prompt])) /\
    (forall prompt response a,
        buildTitlesPrompt transcript = Return prompt ->
        step log (titles_request prompt) = Return response ->
        validated titlesSchema_parse response = Return a ->
        generateTitles step transcript log
        = (Return a, log ++ [titles_request prompt])) /\
    (forall response a,
        step log (social_request (buildSocialPrompt transcript))
        = Return response ->
        validated socialPostsSchema_parse response = Return a ->
        length (twitter a) <= 280 ->
        generateSocialPosts step transcript log
        = (Return a, log ++ [social_request (buildSocialPrompt transcript)])).
Proof.
  intros H step transcript log. repeat split.
  - intros prompt response a Hprompt Hstep Hvalid.
    rewrite generateSummary_flow, Hprompt.
    now erewrite repair_once_first_valid by eassumption.
  - intros prompt response a Hprompt Hstep Hvalid.
    rewrite generateTitles_flow, Hprompt.
    now erewrite repair_once_first_valid by eassumption.
  - intros response a Hstep Hvalid Hlen.
    rewrite generateSocialPosts_flow. unfold bind, ret.
    erewrite repair_once_first_valid by eassumption.
    cbn [or_placeholder]. now rewrite (enforce_twitter_limit_within _ Hlen).
Qed.

(** X2: when the first response fails to parse or validate and the repair
    response parses and validates, the summary and the titles steps return
    the value of the repair response after exactly two calls (the first
    request, then the repair request), and so does the social posts step
    when the twitter field has at most 280 characters. *)
Theorem valid_repair_response_is_returned :
  forall (H : Host) (step : InngestStep) (transcript : TranscriptWithExtras)
         (log : CallLog),
    (forall prompt response e repairResponse a,
        buildSummaryPrompt transcript = Return prompt ->
        step log (summary_request prompt) = Return response ->
        validated summarySchema_parse response = Throw e ->
        step (log ++ [summary_request prompt]) summary_repair_request
        = Return repairResponse ->
        validated summarySchema_parse repairResponse = Return a ->
        generateSummary step transcript log
        = (Return a, log ++ [summary_request prompt; summary_repair_request])) /\
    (forall prompt response e repairResponse a,
        buildTitlesPrompt transcript = Return prompt ->
        step log (titles_request prompt) = Return response ->
        validated titlesSchema_parse response = Throw e ->
        step (log ++ [titles_request prompt]) titles_repair_request
        = Return repairResponse ->
        validated titlesSchema_parse repairResponse = Return a ->
        generateTitles step transcript log
        = (Return a, log ++ [titles_request prompt; titles_repair_request])) /\
    (forall response e repairResponse a,
        step log (social_request (buildSocialPrompt transcript))
        = Return response ->
        validated socialPostsSchema_parse response = Throw e ->
        step (log ++ [social_request (buildSocialPrompt transcript)])
             social_repair_request
        = Return repairResponse ->
        validated socialPostsSchema_parse repairResponse = Return a ->
        length (twitter a) <= 280 ->
        generateSocialPosts step transcript log
        = (Return a,
           log ++ [social_request (buildSocialPrompt transcript);
                   social_repair_request])).
Proof.
  intros H step transcript log. repeat split.
  - intros prompt response e repairResponse a Hprompt Hstep Hbad Hrepair Hvalid.
    rewrite generateSummary_flow, Hprompt.
    now erewrite repair_once_repair_valid by eassumption.
  - intros prompt response e repairResponse a Hprompt Hstep Hbad Hrepair Hvalid.
    rewrite generateTitles_flow, Hprompt.
    now erewrite repair_once_repair_valid by eassumption.
  - intros response e repairResponse a Hstep Hbad Hrepair Hvalid Hlen.
    rewrite generateSocialPosts_flow. unfold bind, ret.
    erewrite repair_once_repair_valid by eassumption.
    cbn [or_placeholder]. now rewrite (enforce_twitter_limit_within _ Hlen).
Qed.

(** X3: when the first completion call throws (whatever the error), the
    summary, social posts and titles steps return their error placeholder
    after that one call; no repair call is made. *)
Theorem first_call_failure_gives_error_placeholder :
  forall (H : Host) (step : InngestStep) (transcript : TranscriptWithExtras)
         (log : CallLog),
    (forall prompt e,
        buildSummaryPrompt transcript = Return prompt ->
        step log (summary_request prompt) = Throw e ->
        generateSummary step transcript log
        = (Return summary_error_fallback, log ++ [summary_request prompt])) /\
    (forall prompt e,
        buildTitlesPrompt transcript = Return prompt ->
        step log (titles_request prompt) = Throw e ->
        generateTitles step transcript log
        = (Return titles_error_fallback, log ++ [titles_request prompt])) /\
    (forall e,
        step log (social_request (buildSocialPrompt transcript)) = Throw e ->
        generateSocialPosts step transcript log
        = (Return social_error_fallback,
           log ++ [social_request (buildSocialPrompt transcript)])).
Proof.
  intros H step transcript log. repeat split.
  - intros prompt e Hprompt Hstep.
    rewrite generateSummary_flow, Hprompt.
    now erewrite repair_once_first_throws by eassumption.
  - intros prompt e Hprompt Hstep.
    rewrite generateTitles_flow, Hprompt.
    now erewrite repair_once_first_throws by eassumption.
  - intros e Hstep.
    rewrite generateSocialPosts_flow. unfold bind, ret.
    now erewrite repair_once_first_throws by eassumption.
Qed.

(** X4: when the first response fails to parse or validate and the repair
    call itself throws, the thrown error is taken like a malformed repair
    response: after two calls the social posts and titles steps return
    their repair fallback (not the error placeholder) and the summary step
    returns the fallback made of the transcript text. *)
Theorem repair_call_failure_gives_repair_fallback :
  forall (H : Host) (step : InngestStep) (transcript : TranscriptWithExtras)
         (log : CallLog),
    (forall prompt txt response e e',
        buildSummaryPrompt transcript = Return prompt ->
        text transcript = Some txt ->
        step log (summary_request prompt) = Return response ->
        validated summarySchema_parse response = Throw e ->
        step (log ++ [summary_request prompt]) summary_repair_request
        = Throw e' ->
        generateSummary step transcript log
        = (Return {| full := firstn 500 txt;
                     bullets := [js "Full transcript available"];
                     insights := [js "See transcript"];
                     tldr := firstn 200 txt |},
           log ++ [summary_request prompt; summary_repair_request])) /\
    (forall prompt response e e',
        buildTitlesPrompt transcript = Return prompt ->
        step log (titles_request prompt) = Return response ->
        validated titlesSchema_parse response = Throw e ->
        step (log ++ [titles_request prompt]) titles_repair_request = Throw e' ->
        generateTitles step transcript log
        = (Return titles_repair_fallback,
           log ++ [titles_request prompt; titles_repair_request])) /\
    (forall response e e',
        step log (social_request (buildSocialPrompt transcript))
        = Return response ->
        validated socialPostsSchema_parse response = Throw e ->
        step (log ++ [social_request (buildSocialPrompt transcript)])
             social_repair_request
        = Throw e' ->
        generateSocialPosts step transcript log
        = (Return social_repair_fallback,
           log ++ [social_request (buildSocialPrompt transcript);
                   social_repair_request])).
Proof.
  intros H step transcript log. repeat split.
  - intros prompt txt response e e' Hprompt Htxt Hstep Hbad Hrepair.
    rewrite generateSummary_flow, Hprompt.
    erewrite repair_once_repair_throws by eassumption.
    unfold summary_repair_fallback. rewrite Htxt. reflexivity.
  - intros prompt response e e' Hprompt Hstep Hbad Hrepair.
    rewrite generateTitles_flow, Hprompt.
    now erewrite repair_once_repair_throws by eassumption.
  - intros response e e' Hstep Hbad Hrepair.
    rewrite generateSocialPosts_flow. unfold bind, ret.
    erewrite repair_once_repair_throws by eassumption.
    cbn [or_placeholder]. now rewrite social_repair_fallback_within_limit.
Qed.

(** X5: a transcript without text or without chapters makes the summary and
    the titles steps return their error placeholder without issuing any
    completion call: the prompt cannot be built. *)
Theorem missing_transcript_field_issues_no_call :
  forall (H : Host) (step : InngestStep) (transcript : TranscriptWithExtras)
         (log : CallLog),
    text transcript = None \/ chapters transcript = None ->
    generateSummary step transcript log = (Return summary_error_fallback, log) /\
    generateTitles step transcript log = (Return titles_error_fallback, log).
Proof.
  intros H step transcript log Hmissing.
  rewrite generateSummary_flow, generateTitles_flow.
  unfold buildSummaryPrompt, buildTitlesPrompt.
  destruct Hmissing as [Hm | Hm]; rewrite Hm.
  - split; reflexivity.
  - destruct (text transcript); split; reflexivity.
Qed.



(* ===================================================================== *)
(** ** Which calls a run makes *)
(* ===================================================================== *)

Lemma or_placeholder_log {A : Type} (placeholder : A)
    (run : Outcome A * CallLog) :
  snd (or_placeholder placeholder run) = snd run.
Proof. destruct run as [[a | e] log]; reflexivity. Qed.

Lemma bind_ret_log {A B : Type} (m : M A) (f : A -> B) (log : CallLog) :
  snd ((x <- m ;; ret (f x)) log) = snd (m log).
Proof. unfold bind, ret. destruct (m log) as [[a | e] log']; reflexivity. Qed.

Section CallCases.
Context {H : Host}.
Variable step : InngestStep.
Variable transcript : TranscriptWithExtras.
Variable log : CallLog.

Lemma generateSummary_call_cases :
  ((exists e, buildSummaryPrompt transcript = Throw e) /\
   snd (generateSummary step transcript log) = log)
  \/ exists prompt,
      buildSummaryPrompt transcript = Return prompt /\
      (snd (generateSummary step transcript log)
       = log ++ [summary_request prompt]
       \/ (snd (generateSummary step transcript log)
           = log ++ [summary_request prompt; summary_repair_request]
           /\ exists response e,
               step log (summary_request prompt) = Return response /\
               validated summarySchema_parse response = Throw e)).
Proof.
  rewrite generateSummary_flow.
  destruct (buildSummaryPrompt transcript) as [prompt | e].
  - right. exists prompt. split; [reflexivity |].
    rewrite or_placeholder_log. apply repair_once_calls.
  - left. split; [now exists e | reflexivity].
Qed.

Lemma generateTitles_call_cases :
  ((exists e, buildTitlesPrompt transcript = Throw e) /\
   snd (generateTitles step transcript log) = log)
  \/ exists prompt,
      buildTitlesPrompt transcript = Return prompt /\
      (snd (generateTitles step transcript log)
       = log ++ [titles_request prompt]
       \/ (snd (generateTitles step transcript log)
           = log ++ [titles_request prompt; titles_repair_request]
           /\ exists response e,
               step log (titles_request prompt) = Return response /\
               validated titlesSchema_parse response = Throw e)).
Proof.
  rewrite generateTitles_flow.
  destruct (buildTitlesPrompt transcript) as [prompt | e].
  - right. exists prompt. split; [reflexivity |].
    rewrite or_placeholder_log. apply repair_once_calls.
  - left. split; [now exists e | reflexivity].
Qed.

Lemma generateSocialPosts_call_cases :
  snd (generateSocialPosts step transcript log)
  = log ++ [social_request (buildSocialPrompt transcript)]
  \/ (snd (generateSocialPosts step transcript log)
      = log ++ [social_request (buildSocialPrompt transcript);
                social_repair_request]
      /\ exists response e,
          step log (social_request (buildSocialPrompt transcript))
          = Return response /\
          validated socialPostsSchema_parse response = Throw e).
Proof.
  rewrite generateSocialPosts_flow, or_placeholder_log, bind_ret_log.
  apply repair_once_calls.
Qed.

Lemma resolve_titles_call_cases (prompt : jsstring) :
  snd (resolve_titles step prompt log) = log ++ [primary_titles_request prompt]
  \/ (snd (resolve_titles step prompt log)
      = log ++ [primary_titles_request prompt; repair_titles_request]
      /\ exists response e,
          step log (primary_titles_request prompt) = Return response /\
          parse_titles (or_str (message_content response) empty_titles_content)
          = Throw e).
Proof.
  unfold resolve_titles, bind, try_catch, lift, ai_wrap, ret.
  destruct (step log (primary_titles_request prompt)) as [response | e];
    [| now left].
  destruct (parse_titles _) as [aiTitles | e] eqn:Hparse; [now left |].
  right. rewrite <- app_assoc. cbn [app].
  destruct (step _ repair_titles_request) as [repairResponse | e'].
  - destruct (parse_repaired_titles _); split; eauto.
  - split; eauto.
Qed.

Lemma generateYouTubeTimestamps_call_cases :
  ((chapters transcript = None \/ chapters transcript = Some []) /\
   snd (generateYouTubeTimestamps step transcript log) = log)
  \/ exists cs,
      chapters transcript = Some cs /\ cs <> [] /\
      let prompt := timestamps_prompt (chapterData_of (firstn 100 cs)) in
      (snd (generateYouTubeTimestamps step transcript log)
       = log ++ [primary_titles_request prompt]
       \/ (snd (generateYouTubeTimestamps step transcript log)
           = log ++ [primary_titles_request prompt; repair_titles_request]
           /\ exists response e,
               step log (primary_titles_request prompt) = Return response /\
               parse_titles
                 (or_str (message_content response) empty_titles_content)
               = Throw e)).
Proof.
  destruct (chapters transcript) as [[| c cs] |] eqn:Hcs.
  - left. split; [now right |].
    unfold generateYouTubeTimestamps. now rewrite Hcs.
  - right. exists (c :: cs).
    assert (Hne : c :: cs <> []) by discriminate.
    split; [reflexivity |]. split; [exact Hne |]. cbv zeta.
    rewrite (@generateYouTubeTimestamps_body H step _ _ log Hcs Hne).
    unfold slice0.
    assert (Hlog : forall (m : M json) (k : json -> Outcome (list AiTimestamp))
                     (l : list AiTimestamp -> Outcome (list unit))
                     (f : list AiTimestamp -> list YouTubeTimestamp),
               snd ((aiTitles <- m ;;
                     aiTimestamps <- lift (k aiTitles) ;;
                     _ <- lift (l aiTimestamps) ;;
                     ret (f aiTimestamps)) log) = snd (m log)).
    { intros m k l f. unfold bind, lift, ret.
      destruct (m log) as [[a | e] log']; [| reflexivity].
      destruct (k a) as [items | e]; [| reflexivity].
      destruct (l items); reflexivity. }
    rewrite Hlog. apply resolve_titles_call_cases.
  - left. split; [now left |].
    unfold generateYouTubeTimestamps. now rewrite Hcs.
Qed.
End CallCases.

(** X6: the calls a run adds to the log are, in this order, the step's
    first request and then at most its repair request, which is the same
    whatever the transcript and the first response were; the repair
    request is made only after an answered first call whose response did
    not parse or validate; the summary and titles steps make no call when
    their prompt cannot be built, and the timestamps step none when there
    are no chapters. *)
Theorem calls_are_first_request_then_repair :
  forall (H : Host) (step : InngestStep) (transcript : TranscriptWithExtras)
         (log : CallLog),
    (((exists e, buildSummaryPrompt transcript = Throw e) /\
      snd (generateSummary step transcript log) = log)
     \/ exists prompt,
         buildSummaryPrompt transcript = Return prompt /\
         (snd (generateSummary step transcript log)
          = log ++ [summary_request prompt]
          \/ (snd (generateSummary step transcript log)
              = log ++ [summary_request prompt; summary_repair_request]
              /\ exists response e,
                  step log (summary_request prompt) = Return response /\
                  validated summarySchema_parse response = Throw e))) /\
    (((exists e, buildTitlesPrompt transcript = Throw e) /\
      snd (generateTitles step transcript log) = log)
     \/ exists prompt,
         buildTitlesPrompt transcript = Return prompt /\
         (snd (generateTitles step transcript log)
          = log ++ [titles_request prompt]
          \/ (snd (generateTitles step transcript log)
              = log ++ [titles_request prompt; titles_repair_request]
              /\ exists response e,
                  step log (titles_request prompt) = Return response /\
                  validated titlesSchema_parse response = Throw e))) /\
    (snd (generateSocialPosts step transcript log)
     = log ++ [social_request (buildSocialPrompt transcript)]
     \/ (snd (generateSocialPosts step transcript log)
         = log ++ [social_request (buildSocialPrompt transcript);
                   social_repair_request]
         /\ exists response e,
             step log (social_request (buildSocialPrompt transcript))
             = Return response /\
             validated socialPostsSchema_parse response = Throw e)) /\
    (((chapters transcript = None \/ chapters transcript = Some []) /\
      snd (generateYouTubeTimestamps step transcript log) = log)
     \/ exists cs,
         chapters transcript = Some cs /\ cs <> [] /\
         let prompt := timestamps_prompt (chapterData_of (firstn 100 cs)) in
         (snd (generateYouTubeTimestamps step transcript log)
          = log ++ [primary_titles_request prompt]
          \/ (snd (generateYouTubeTimestamps step transcript log)
              = log ++ [primary_titles_request prompt; repair_titles_request]
              /\ exists response e,
                  step log (primary_titles_request prompt) = Return response /\
                  parse_titles
                    (or_str (message_content response) empty_titles_content)
                  = Throw e))).
Proof.
  intros H step transcript log.
  split; [apply generateSummary_call_cases |].
  split; [apply generateTitles_call_cases |].
  split; [apply generateSocialPosts_call_cases |].
  apply generateYouTubeTimestamps_call_cases.
Qed.

Lemma sampled_none : repair_sampled_lower [].
Proof. split; [constructor | discriminate]. Qed.

Lemma sampled_one (p : CompletionRequest) :
  model p = GROQ_MODEL -> repair_sampled_lower [p].
Proof. intros Hp. split; [now repeat constructor | discriminate]. Qed.

Lemma sampled_two (p r : CompletionRequest) :
  model p = GROQ_MODEL -> model r = GROQ_MODEL ->
  (temperature r == 0)%Q -> (temperature r < temperature p)%Q ->
  (max_tokens r < max_tokens p)%Z ->
  repair_sampled_lower [p; r].
Proof.
  intros Hp Hr H0 Hlt Htok. split; [now repeat constructor |].
  intros p' r' [= <- <-]. auto.
Qed.

Ltac sampled :=
  first
    [ apply sampled_none
    | apply sampled_one; reflexivity
    | apply sampled_two;
      [ reflexivity | reflexivity | reflexivity | reflexivity | reflexivity ] ].

(** X7: in every run of every step, each completion call goes to the same
    model, and a repair call is made at temperature zero, below the
    temperature of the first call, with a smaller token budget than the
    first call's. *)
Theorem repair_call_is_sampled_lower :
  forall (H : Host) (step : InngestStep) (transcript : TranscriptWithExtras)
         (log calls : CallLog),
    (snd (generateSummary step transcript log) = log ++ calls ->
     repair_sampled_lower calls) /\
    (snd (generateSocialPosts step transcript log) = log ++ calls ->
     repair_sampled_lower calls) /\
    (snd (generateTitles step transcript log) = log ++ calls ->
     repair_sampled_lower calls) /\
    (snd (generateYouTubeTimestamps step transcript log) = log ++ calls ->
     repair_sampled_lower calls).
Proof.
  intros H step transcript log calls.
  split; [| split; [| split]].
  - destruct (generateSummary_call_cases step transcript log)
      as [[_ Hlog] | (prompt & _ & [Hlog | [Hlog _]])];
      rewrite Hlog; intros Hcalls.
    + rewrite <- (app_nil_r log) in Hcalls at 1.
      apply app_inv_head in Hcalls. subst calls. sampled.
    + apply app_inv_head in Hcalls. subst calls. sampled.
    + apply app_inv_head in Hcalls. subst calls. sampled.
  - destruct (generateSocialPosts_call_cases step transcript log)
      as [Hlog | [Hlog _]];
      rewrite Hlog; intros Hcalls;
      apply app_inv_head in Hcalls; subst calls; sampled.
  - destruct (generateTitles_call_cases step transcript log)
      as [[_ Hlog] | (prompt & _ & [Hlog | [Hlog _]])];
      rewrite Hlog; intros Hcalls.
    + rewrite <- (app_nil_r log) in Hcalls at 1.
      apply app_inv_head in Hcalls. subst calls. sampled.
    + apply app_inv_head in Hcalls. subst calls. sampled.
    + apply app_inv_head in Hcalls. subst calls. sampled.
  - destruct (generateYouTubeTimestamps_call_cases step transcript log)
      as [[_ Hlog] | (cs & _ & _ & [Hlog | [Hlog _]])];
      rewrite Hlog; intros Hcalls.
    + rewrite <- (app_nil_r log) in Hcalls at 1.
      apply app_inv_head in Hcalls. subst calls. sampled.
    + apply app_inv_head in Hcalls. subst calls. sampled.
    + apply app_inv_head in Hcalls. subst calls. sampled.
Qed.



(* ===================================================================== *)
(** ** The titles the timestamps step works with *)
(* ===================================================================== *)

Lemma jsstring_eqb_refl (s : jsstring) : jsstring_eqb s s = true.
Proof.
  induction s as [| c s IH]; [reflexivity |].
  cbn [jsstring_eqb]. now rewrite N.eqb_refl, IH.
Qed.

Lemma array_length_gt_zero `{Host} (elems : list json) :
  length_gt_zero (JArr elems)
  = Return (match elems with [] => false | _ :: _ => true end).
Proof.
  unfold length_gt_zero. cbn [get_prop]. rewrite jsstring_eqb_refl.
  cbn [obind]. destruct elems; reflexivity.
Qed.

(** A parsed reply whose [titles] is an array passes the first [try] with
    that array. *)
Lemma parse_titles_array `{Host} (content : jsstring) (parsed : json)
    (elems : list json) :
  JSON_parse content = Some parsed ->
  get_prop parsed (js "titles") = Return (Some (JArr elems)) ->
  parse_titles content = Return (JArr elems).
Proof.
  intros Hparse Htitles.
  unfold parse_titles, JSON_parse_or_throw, titles_or_empty.
  rewrite Hparse. cbn [obind]. rewrite Htitles.
  cbn [obind or_json truthy]. rewrite array_length_gt_zero. cbn [obind].
  destruct elems; reflexivity.
Qed.

(** A parsed reply whose [titles] is missing or falsy passes the first
    [try] with no titles. *)
Lemma parse_titles_falsy `{Host} (content : jsstring) (parsed : json)
    (v : option json) :
  JSON_parse content = Some parsed ->
  get_prop parsed (js "titles") = Return v ->
  truthy v = false ->
  parse_titles content = Return (JArr []).
Proof.
  intros Hparse Htitles Hfalsy.
  unfold parse_titles, JSON_parse_or_throw, titles_or_empty.
  rewrite Hparse. cbn [obind]. rewrite Htitles. cbn [obind].
  assert (Hor : or_json v (JArr []) = JArr []).
  { unfold or_json. destruct v; [now rewrite Hfalsy | reflexivity]. }
  rewrite Hor, array_length_gt_zero. reflexivity.
Qed.

(** A reply that is no JSON, or the JSON [null], leaves the first [try]
    by an exception. *)
Lemma parse_titles_throws `{Host} (content : jsstring) :
  JSON_parse content = None \/ JSON_parse content = Some JNull ->
  exists e, parse_titles content = Throw e.
Proof.
  unfold parse_titles, JSON_parse_or_throw.
  intros [Hparse | Hparse]; rewrite Hparse; eexists; reflexivity.
Qed.

Section ResolveCases.
Context {H : Host}.
Variable step : InngestStep.
Variable prompt : jsstring.
Variable log : CallLog.

Lemma resolve_titles_first (response : ChatCompletion) (aiTitles : json) :
  step log (primary_titles_request prompt) = Return response ->
  parse_titles (or_str (message_content response) empty_titles_content)
  = Return aiTitles ->
  resolve_titles step prompt log
  = (Return aiTitles, log ++ [primary_titles_request prompt]).
Proof.
  intros Hstep Hparse.
  unfold resolve_titles, bind, try_catch, lift, ai_wrap.
  now rewrite Hstep, Hparse.
Qed.

Lemma resolve_titles_repaired (response repairResponse : ChatCompletion)
    (e : JsError) (aiTitles : json) :
  step log (primary_titles_request prompt) = Return response ->
  parse_titles (or_str (message_content response) empty_titles_content)
  = Throw e ->
  step (log ++ [primary_titles_request prompt]) repair_titles_request
  = Return repairResponse ->
  parse_repaired_titles (nullish (message_content repairResponse) [])
  = Return aiTitles ->
  resolve_titles step prompt log
  = (Return aiTitles,
     log ++ [primary_titles_request prompt; repair_titles_request]).
Proof.
  intros Hstep Hbad Hrepair Hparse.
  unfold resolve_titles, bind, try_catch, lift, ai_wrap.
  now rewrite Hstep, Hbad, Hrepair, Hparse, <- app_assoc.
Qed.

Lemma resolve_titles_repair_throws (response : ChatCompletion)
    (e e' : JsError) :
  step log (primary_titles_request prompt) = Return response ->
  parse_titles (or_str (message_content response) empty_titles_content)
  = Throw e ->
  step (log ++ [primary_titles_request prompt]) repair_titles_request
  = Throw e' ->
  resolve_titles step prompt log
  = (Return (JArr []),
     log ++ [primary_titles_request prompt; repair_titles_request]).
Proof.
  intros Hstep Hbad Hrepair.
  unfold resolve_titles, bind, try_catch, lift, ai_wrap, ret.
  now rewrite Hstep, Hbad, Hrepair, <- app_assoc.
Qed.
End ResolveCases.

Lemma find_skips (p : json -> bool) (before after : list json) (t : json) :
  (forall x, In x before -> p x = false) -> p t = true ->
  find p (before ++ t :: after) = Some t.
Proof.
  intros Hbefore Ht. induction before as [| x before IH]; cbn.
  - now rewrite Ht.
  - rewrite (Hbefore x (or_introl eq_refl)).
    apply IH. intros y Hy. apply Hbefore. now right.
Qed.

(** X8: with a titles array without null in effect, whose descriptions for
    the first three entries can be written to the console, the first
    element that carries a slot's index decides the description of that
    slot: its title when the title is truthy, and otherwise (title missing,
    empty, null, zero or false) the chapter's headline; elements after it
    with the same index are not consulted. *)
Theorem first_title_of_a_slot_decides :
  forall (H : Host) (step : InngestStep) (transcript : TranscriptWithExtras)
         (cs : list Chapter) (log log' : CallLog) (titles : list json)
         (i : nat) (ch : Chapter) (before after : list json)
         (props : list (jsstring * json)) (q : Q),
    chapters transcript = Some cs -> cs <> [] ->
    resolve_titles step (timestamps_prompt (chapterData_of (firstn 100 cs))) log
    = (Return (JArr titles), log') ->
    Forall (fun t => t <> JNull) titles ->
    printable (mapi (entry titles) (firstn 100 cs)) = true ->
    i < 100 -> nth_error cs i = Some ch ->
    titles = before ++ JObj props :: after ->
    (forall x, In x before -> has_index i x = false) ->
    own_property (js "index") props = Some (JNum q) ->
    (q == inject_Z (Z.of_nat i))%Q ->
    exists r item,
      generateYouTubeTimestamps step transcript log = (Return r, log') /\
      nth_error r i = Some item /\
      timestamp item = formatTimestamp (start ch / 1000)%Z /\
      (forall title,
          own_property (js "title") props = Some title ->
          truthy (Some title) = true -> description item = title) /\
      (truthy (own_property (js "title") props) = false ->
       description item = JStr (headline ch)).
Proof.
  intros H step transcript cs log log' titles i ch before after props q
         Hcs Hne Hres Htyped Hprint Hi Hnth Htitles Hbefore Hindex Hq.
  exists (mapi (entry titles) (firstn 100 cs)), (entry titles ch i).
  split; [exact (generateYouTubeTimestamps_typed H step transcript log
                   Hcs Hne Hres Htyped Hprint) |].
  split.
  { unfold mapi.
    rewrite nth_error_mapi_from, (nth_error_firstn_lt cs Hi), Hnth.
    reflexivity. }
  split; [reflexivity |].
  assert (Hfind : find (has_index i) titles = Some (JObj props)).
  { subst titles. apply find_skips; [exact Hbefore |].
    unfold has_index. cbn [get_prop]. rewrite Hindex.
    cbn [strict_eq_index]. now apply Qeq_bool_iff. }
  unfold entry. cbn [description]. rewrite Hfind. cbn [title_of get_prop].
  split.
  - intros title Htitle Htruthy. rewrite Htitle. unfold or_json.
    now rewrite Htruthy.
  - intros Hfalsy. unfold or_json.
    destruct (own_property (js "title") props); [now rewrite Hfalsy | reflexivity].
Qed.

(** X9: a reply without content (absent or empty) is read as an empty list
    of titles: the timestamps step makes no repair call and returns every
    chapter in use under its own headline after its one call. *)
Theorem empty_reply_means_no_titles :
  forall (H : Host) (step : InngestStep) (transcript : TranscriptWithExtras)
         (cs : list Chapter) (log : CallLog) (response : ChatCompletion)
         (parsed : json),
    chapters transcript = Some cs -> cs <> [] ->
    step log (primary_titles_request
                (timestamps_prompt (chapterData_of (firstn 100 cs))))
    = Return response ->
    message_content response = None \/ message_content response = Some [] ->
    JSON_parse empty_titles_content = Some parsed ->
    get_prop parsed (js "titles") = Return (Some (JArr [])) ->
    generateYouTubeTimestamps step transcript log
    = (Return (map (fun ch =>
                      {| timestamp := formatTimestamp (start ch / 1000)%Z;
                         description := JStr (headline ch) |})
                   (firstn 100 cs)),
       log ++ [primary_titles_request
                 (timestamps_prompt (chapterData_of (firstn 100 cs)))]).
Proof.
  intros H step transcript cs log response parsed
         Hcs Hne Hstep Hempty Hparse Htitles.
  apply (generateYouTubeTimestamps_untitled H step transcript log Hcs Hne).
  apply (resolve_titles_first _ _ _ Hstep).
  assert (Hcontent : or_str (message_content response) empty_titles_content
                     = empty_titles_content)
    by (destruct Hempty as [-> | ->]; reflexivity).
  rewrite Hcontent. exact (parse_titles_array _ Hparse Htitles).
Qed.

(** X10: a reply that parses to a value without a truthy [titles] (no such
    property, or null, false, zero or the empty string under it) is taken
    as no titles at all: no repair call is made, and every chapter in use
    is returned under its own headline after the one call. *)
Theorem reply_without_titles_is_not_repaired :
  forall (H : Host) (step : InngestStep) (transcript : TranscriptWithExtras)
         (cs : list Chapter) (log : CallLog) (response : ChatCompletion)
         (parsed : json) (v : option json),
    chapters transcript = Some cs -> cs <> [] ->
    step log (primary_titles_request
                (timestamps_prompt (chapterData_of (firstn 100 cs))))
    = Return response ->
    JSON_parse (or_str (message_content response) empty_titles_content)
    = Some parsed ->
    get_prop parsed (js "titles") = Return v ->
    truthy v = false ->
    generateYouTubeTimestamps step transcript log
    = (Return (map (fun ch =>
                      {| timestamp := formatTimestamp (start ch / 1000)%Z;
                         description := JStr (headline ch) |})
                   (firstn 100 cs)),
       log ++ [primary_titles_request
                 (timestamps_prompt (chapterData_of (firstn 100 cs)))]).
Proof.
  intros H step transcript cs log response parsed v
         Hcs Hne Hstep Hparse Htitles Hfalsy.
  apply (generateYouTubeTimestamps_untitled H step transcript log Hcs Hne).
  apply (resolve_titles_first _ _ _ Hstep).
  exact (parse_titles_falsy _ Hparse Htitles Hfalsy).
Qed.

(** X11: when the first reply is no JSON, or is the JSON null, and the
    repair reply parses to a value whose [titles] is an array without
    null, the timestamps step works with the titles of the repair reply:
    after its two calls it returns, for each chapter in use, the entry
    these titles give it, provided the descriptions of the first three
    entries can be written to the console. *)
Theorem repaired_titles_are_used :
  forall (H : Host) (step : InngestStep) (transcript : TranscriptWithExtras)
         (cs : list Chapter) (log : CallLog)
         (response repairResponse : ChatCompletion)
         (repairedParsed : json) (titles : list json),
    chapters transcript = Some cs -> cs <> [] ->
    let primary :=
      primary_titles_request
        (timestamps_prompt (chapterData_of (firstn 100 cs))) in
    let content := or_str (message_content response) empty_titles_content in
    step log primary = Return response ->
    JSON_parse content = None \/ JSON_parse content = Some JNull ->
    step (log ++ [primary]) repair_titles_request = Return repairResponse ->
    JSON_parse (nullish (message_content repairResponse) [])
    = Some repairedParsed ->
    get_prop repairedParsed (js "titles") = Return (Some (JArr titles)) ->
    Forall (fun t => t <> JNull) titles ->
    printable (mapi (entry titles) (firstn 100 cs)) = true ->
    generateYouTubeTimestamps step transcript log
    = (Return (mapi (entry titles) (firstn 100 cs)),
       log ++ [primary; repair_titles_request]).
Proof.
  intros H step transcript cs log response repairResponse repairedParsed titles
         Hcs Hne primary content Hstep Hbad Hrepair Hparse Htitles Htyped Hprint.
  destruct (parse_titles_throws _ Hbad) as [e He].
  apply (generateYouTubeTimestamps_typed H step transcript log Hcs Hne);
    [| exact Htyped | exact Hprint].
  apply (resolve_titles_repaired _ _ _ Hstep He Hrepair).
  unfold parse_repaired_titles, JSON_parse_or_throw, titles_or_empty,
    interpolate_length.
  rewrite Hparse. cbn [obind]. rewrite Htitles.
  cbn [obind or_json truthy get_prop]. rewrite jsstring_eqb_refl.
  reflexivity.
Qed.

(** X12: when the first reply is no JSON, or is the JSON null, and the
    repair call itself throws, the timestamps step does not throw: after
    its two calls it returns every chapter in use under its own headline.
    (A throwing first call, in contrast, is thrown on.) *)
Theorem timestamps_repair_call_failure_is_absorbed :
  forall (H : Host) (step : InngestStep) (transcript : TranscriptWithExtras)
         (cs : list Chapter) (log : CallLog) (response : ChatCompletion)
         (e : JsError),
    chapters transcript = Some cs -> cs <> [] ->
    let primary :=
      primary_titles_request
        (timestamps_prompt (chapterData_of (firstn 100 cs))) in
    let content := or_str (message_content response) empty_titles_content in
    step log primary = Return response ->
    JSON_parse content = None \/ JSON_parse content = Some JNull ->
    step (log ++ [primary]) repair_titles_request = Throw e ->
    generateYouTubeTimestamps step transcript log
    = (Return (map (fun ch =>
                      {| timestamp := formatTimestamp (start ch / 1000)%Z;
                         description := JStr (headline ch) |})
                   (firstn 100 cs)),
       log ++ [primary; repair_titles_request]).
Proof.
  intros H step transcript cs log response e
         Hcs Hne primary content Hstep Hbad Hrepair.
  destruct (parse_titles_throws _ Hbad) as [e' He'].
  apply (generateYouTubeTimestamps_untitled H step transcript log Hcs Hne).
  exact (resolve_titles_repair_throws _ _ _ Hstep He' Hrepair).
Qed.

(** X13: whenever the timestamps step returns a result, whatever the
    endpoint replied, the result has one entry per chapter in use (all of
    them, or the first 100), in chapter order, the entry of a chapter
    carrying the formatted floor of the chapter's start in seconds. *)
Theorem timestamps_result_follows_chapters :
  forall (H : Host) (step : InngestStep) (transcript : TranscriptWithExtras)
         (cs : list Chapter) (log log' : CallLog) (r : list YouTubeTimestamp),
    chapters transcript = Some cs -> cs <> [] ->
    generateYouTubeTimestamps step transcript log = (Return r, log') ->
    length r = Nat.min 100 (length cs) /\
    forall i ch,
      i < 100 -> nth_error cs i = Some ch ->
      exists item,
        nth_error r i = Some item /\
        timestamp item = formatTimestamp (start ch / 1000)%Z.
Proof.
  intros H step transcript cs log log' r Hcs Hne Hrun.
  destruct (timestamps_of_any_result H step transcript log Hcs Hne Hrun)
    as [Hmap Hlen].
  split; [exact Hlen |].
  intros i ch Hi Hnth.
  assert (Hith : nth_error (map timestamp r) i
                 = Some (formatTimestamp (start ch / 1000)%Z)).
  { rewrite Hmap, nth_error_map, (nth_error_firstn_lt cs Hi), Hnth.
    reflexivity. }
  rewrite nth_error_map in Hith.
  destruct (nth_error r i) as [item |]; [| discriminate].
  exists item. split; [reflexivity |]. cbn in Hith. congruence.
Qed.

(** X14: a reply that parses to a value whose [titles] is an array that
    starts with null makes the timestamps step throw a TypeError after its
    one call: reading the index of the null element throws inside the
    search for the first chapter's title, outside every [try]. *)
Theorem null_title_element_throws :
  forall (H : Host) (step : InngestStep) (transcript : TranscriptWithExtras)
         (cs : list Chapter) (log : CallLog) (response : ChatCompletion)
         (parsed : json) (rest : list json),
    chapters transcript = Some cs -> cs <> [] ->
    step log (primary_titles_request
                (timestamps_prompt (chapterData_of (firstn 100 cs))))
    = Return response ->
    JSON_parse (or_str (message_content response) empty_titles_content)
    = Some parsed ->
    get_prop parsed (js "titles") = Return (Some (JArr (JNull :: rest))) ->
    generateYouTubeTimestamps step transcript log
    = (Throw TypeError,
       log ++ [primary_titles_request
                 (timestamps_prompt (chapterData_of (firstn 100 cs)))]).
Proof.
  intros H step transcript cs log response parsed rest
         Hcs Hne Hstep Hparse Htitles.
  rewrite (@generateYouTubeTimestamps_body H step _ _ log Hcs Hne).
  unfold bind at 1. unfold slice0.
  rewrite (resolve_titles_first _ _ _ Hstep
             (parse_titles_array _ Hparse Htitles)).
  destruct cs as [| c cs]; [congruence |].
  reflexivity.
Qed.

Lemma has_index_needs_number (i : nat) (x : json) :
  (forall q, get_prop x (js "index") <> Return (Some (JNum q))) ->
  has_index i x = false.
Proof.
  intros Hindex. unfold has_index.
  destruct (get_prop x (js "index")) as [[[] |] | e]; try reflexivity.
  exfalso. exact (Hindex q eq_refl).
Qed.

(** X17: a title is matched to a chapter by strict equality of its index
    with the chapter's number: when no element of the titles array carries
    a number as its index (the indices are written as strings, say, or
    the elements are bare strings), no title is applied, and every chapter
    in use is returned under its own headline. *)
Theorem index_must_be_a_number :
  forall (H : Host) (step : InngestStep) (transcript : TranscriptWithExtras)
         (cs : list Chapter) (log log' : CallLog) (titles : list json),
    chapters transcript = Some cs -> cs <> [] ->
    resolve_titles step (timestamps_prompt (chapterData_of (firstn 100 cs))) log
    = (Return (JArr titles), log') ->
    Forall (fun x => x <> JNull /\
                     forall q, get_prop x (js "index") <> Return (Some (JNum q)))
           titles ->
    generateYouTubeTimestamps step transcript log
    = (Return (map (fun ch =>
                      {| timestamp := formatTimestamp (start ch / 1000)%Z;
                         description := JStr (headline ch) |})
                   (firstn 100 cs)),
       log').
Proof.
  intros H step transcript cs log log' titles Hcs Hne Hres Hall.
  assert (Htyped : Forall (fun t => t <> JNull) titles).
  { eapply Forall_impl; [| exact Hall]. now intros x [Hx _]. }
  assert (Hentries :
            mapi (entry titles) (firstn 100 cs)
            = map (fun ch =>
                     {| timestamp := formatTimestamp (start ch / 1000)%Z;
                        description := JStr (headline ch) |})
                  (firstn 100 cs)).
  { unfold mapi. apply mapi_from_map. intros ch i. unfold entry.
    rewrite find_nowhere; [reflexivity |].
    intros x Hx. apply has_index_needs_number.
    rewrite Forall_forall in Hall. exact (proj2 (Hall x Hx)). }
  rewrite (generateYouTubeTimestamps_typed H step transcript log
             Hcs Hne Hres Htyped).
  - now rewrite Hentries.
  - rewrite Hentries. apply headlines_printable.
Qed.


Lemma in_firstn_nth_error {A : Type} (n : nat) (l : list A) (x : A) :
  In x (firstn n l) <-> exists i, i < n /\ nth_error l i = Some x.
Proof.
  split.
  - intros Hin. apply In_nth_error in Hin as [i Hi]. exists i.
    assert (Hlt : i < n).
    { assert (Hsome : nth_error (firstn n l) i <> None) by congruence.
      apply nth_error_Some in Hsome. rewrite length_firstn in Hsome. lia. }
    split; [exact Hlt |]. now rewrite <- (nth_error_firstn_lt l Hlt).
  - intros (i & Hlt & Hi). apply (nth_error_In _ i).
    now rewrite (nth_error_firstn_lt l Hlt).
Qed.

Lemma printable_iff (r : list YouTubeTimestamp) :
  printable r = true <->
  forall i item,
    i < 3 -> nth_error r i = Some item ->
    ToString_throws (description item) = false.
Proof.
  unfold printable. rewrite forallb_forall. split.
  - intros Hall i item Hi Hnth.
    apply negb_true_iff, Hall, in_firstn_nth_error. now exists i.
  - intros Hall item Hin.
    apply in_firstn_nth_error in Hin as (i & Hi & Hnth).
    apply negb_true_iff. exact (Hall i item Hi Hnth).
Qed.

(** X18: with a titles array without null in effect, the step writes the
    descriptions of its first three entries into a console line before it
    returns: when one of them has no conversion to a string (a title that
    is an object with a property named toString, say) the step throws a
    TypeError; when all three have one, the entries are returned, whatever
    the descriptions of the later entries are. *)
Theorem unprintable_title_in_first_three_throws :
  forall (H : Host) (step : InngestStep) (transcript : TranscriptWithExtras)
         (cs : list Chapter) (log log' : CallLog) (titles : list json),
    chapters transcript = Some cs -> cs <> [] ->
    resolve_titles step (timestamps_prompt (chapterData_of (firstn 100 cs))) log
    = (Return (JArr titles), log') ->
    Forall (fun t => t <> JNull) titles ->
    ((exists i item,
         i < 3 /\
         nth_error (mapi (entry titles) (firstn 100 cs)) i = Some item /\
         ToString_throws (description item) = true) ->
     generateYouTubeTimestamps step transcript log = (Throw TypeError, log')) /\
    ((forall i item,
         i < 3 ->
         nth_error (mapi (entry titles) (firstn 100 cs)) i = Some item ->
         ToString_throws (description item) = false) ->
     generateYouTubeTimestamps step transcript log
     = (Return (mapi (entry titles) (firstn 100 cs)), log')).
Proof.
  intros H step transcript cs log log' titles Hcs Hne Hres Htyped.
  rewrite (generateYouTubeTimestamps_array H step transcript log
             Hcs Hne Hres Htyped).
  split.
  - intros (i & item & Hi & Hnth & Hthrows).
    destruct (printable _) eqn:Hprint; [| reflexivity].
    rewrite (proj1 (printable_iff _) Hprint i item Hi Hnth) in Hthrows.
    discriminate.
  - intros Hall. now rewrite (proj2 (printable_iff _) Hall).
Qed.



(* ===================================================================== *)
(** ** More on what the prompts are built from *)
(* ===================================================================== *)

Lemma contains_self (s : jsstring) : contains s s.
Proof. exists [], []. now rewrite app_nil_r. Qed.

(** The line of the element in position [i] is in the joined lines, under
    the number of that position. *)
Lemma join_mapi_from_nth {A : Type} (sep : jsstring)
    (f : A -> nat -> jsstring) (l : list A) :
  forall k i x,
    nth_error l i = Some x ->
    contains (f x (k + i)) (join sep (mapi_from k f l)).
Proof.
  induction l as [| y l IH]; intros k i x Hnth.
  - destruct i; discriminate.
  - cbn [mapi_from]. rewrite join_cons. destruct i as [| i].
    + injection Hnth as ->. rewrite Nat.add_0_r.
      destruct (mapi_from (S k) f l);
        [apply contains_self | apply contains_here].
    + cbn [nth_error] in Hnth. specialize (IH (S k) i x Hnth).
      rewrite Nat.add_succ_r.
      destruct (mapi_from (S k) f l) as [| z rest] eqn:Hrest.
      * destruct l; [destruct i; discriminate | discriminate].
      * now apply contains_after, contains_after.
Qed.

Lemma or_str_nonempty (c : codeunit) (s d : jsstring) :
  or_str (Some (c :: s)) d = c :: s.
Proof. reflexivity. Qed.

(** X15: the social prompt takes its episode summary from the first
    chapter when that chapter has a non-empty summary, and then does not
    depend on the transcript text at all; absent chapters and an empty
    sequence of chapters give the same prompt; and with neither chapters
    nor text the prompt is still built, with its two stand-in lines. *)
Theorem social_prompt_sources :
  forall (t : TranscriptWithExtras),
    (forall ch rest txt,
        chapters t = Some (ch :: rest) -> summary ch <> [] ->
        buildSocialPrompt t = buildSocialPrompt (with_text t txt)) /\
    buildSocialPrompt (with_chapters t None)
    = buildSocialPrompt (with_chapters t (Some [])) /\
    ((chapters t = None \/ chapters t = Some []) ->
     (text t = None \/ text t = Some []) ->
     buildSocialPrompt t
     = SOCIAL_PROMPT_HEAD ++ js "No summary available." ++ SOCIAL_PROMPT_TOPICS
       ++ js "See transcript" ++ SOCIAL_PROMPT_TAIL).
Proof.
  intros t. split; [| split].
  - intros ch rest txt Hcs Hsummary.
    unfold buildSocialPrompt, first_chapter_summary, with_text.
    cbn [text chapters]. rewrite Hcs.
    destruct (summary ch) as [| c s]; [congruence | reflexivity].
  - unfold buildSocialPrompt, first_chapter_summary, with_chapters, slice0, mapi.
    cbn [text chapters option_map firstn mapi_from join or_str].
    reflexivity.
  - intros [Hcs | Hcs] [Htxt | Htxt];
      unfold buildSocialPrompt, first_chapter_summary, slice0, mapi, substring0;
      rewrite Hcs, Htxt;
      cbn [option_map firstn mapi_from join or_str];
      reflexivity.
Qed.

(** X16: the chapter in position [i] (counted from zero) is listed under
    the number [i + 1] in the summary prompt (headline, dash, summary) and
    in the titles prompt (headline), and as [Chapter i], with its start in
    whole seconds, its headline and its summary, in the chapter titles
    prompt of the timestamps step: the number shown there is the index by
    which a title of the reply is matched to the chapter. *)
Theorem prompts_number_the_chapters :
  forall (t : TranscriptWithExtras) (chs : list Chapter) (i : nat)
         (ch : Chapter),
    chapters t = Some chs -> nth_error chs i = Some ch ->
    (forall prompt,
        buildSummaryPrompt t = Return prompt ->
        contains (js_of_nat (i + 1) ++ js ". " ++ headline ch ++ js " - "
                    ++ summary ch) prompt) /\
    (forall prompt,
        buildTitlesPrompt t = Return prompt ->
        contains (js_of_nat (i + 1) ++ js ". " ++ headline ch) prompt) /\
    (i < 100 ->
     contains (js "Chapter " ++ js_of_nat i ++ js ": ["
                 ++ js_of_Z (start ch / 1000) ++ js "s]
Context: " ++ headline ch ++ js "
Summary: " ++ summary ch)
              (timestamps_prompt (chapterData_of (firstn 100 chs)))).
Proof.
  intros t chs i ch Hchs Hnth.
  assert (Hsome : (0 <? length chs) = true).
  { destruct chs; [destruct i; discriminate | reflexivity]. }
  split; [| split].
  - intros prompt Hprompt.
    unfold buildSummaryPrompt, defined, obind in Hprompt.
    destruct (text t) as [txt |]; [| discriminate].
    rewrite Hchs in Hprompt. apply Return_inj in Hprompt. subst prompt.
    rewrite Hsome.
    do 3 apply contains_after. apply contains_before, contains_after.
    exact (join_mapi_from_nth _ _ chs 0 i Hnth).
  - intros prompt Hprompt.
    unfold buildTitlesPrompt, defined, obind in Hprompt.
    destruct (text t) as [txt |]; [| discriminate].
    rewrite Hchs in Hprompt. apply Return_inj in Hprompt. subst prompt.
    rewrite Hsome.
    do 3 apply contains_after. apply contains_before, contains_after.
    exact (join_mapi_from_nth _ _ chs 0 i Hnth).
  - intros Hi. unfold timestamps_prompt.
    do 3 apply contains_after. apply contains_before.
    unfold chapterData_of, mapi.
    assert (Hdata : nth_error
                      (mapi_from 0
                         (fun chapter idx =>
                            {| index := idx;
                               cd_timestamp := (start chapter / 1000)%Z;
                               cd_headline := headline chapter;
                               cd_summary := summary chapter;
                               cd_gist := gist chapter |})
                         (firstn 100 chs)) i
                    = Some {| index := i;
                              cd_timestamp := (start ch / 1000)%Z;
                              cd_headline := headline ch;
                              cd_summary := summary ch;
                              cd_gist := gist ch |}).
    { rewrite nth_error_mapi_from, (nth_error_firstn_lt chs Hi), Hnth.
      reflexivity. }
    exact (join_mapi_from_nth _ _ _ 0 i Hdata).
Qed.



(* ===================================================================== *)
(** ** Further runs on the examples *)
(* ===================================================================== *)

Ltac by_vm := vm_compute; reflexivity.

Lemma valid_first_response_is_returned_witness :
  generateSummary (H := wider_host) (answering summary_json) intro_transcript []
  = (Return example_summary,
     [] ++ [summary_request
              (prompt_or_empty (buildSummaryPrompt intro_transcript))]) /\
  generateTitles (H := wider_host) (answering titles_json) intro_transcript []
  = (Return example_titles,
     [] ++ [titles_request
              (prompt_or_empty (buildTitlesPrompt intro_transcript))]) /\
  generateSocialPosts (H := wider_host) (answering (posts_json short_tweet))
    intro_transcript []
  = (Return {| twitter := short_tweet;
               linkedin := js "On LinkedIn";
               instagram := js "On Instagram";
               tiktok := js "On TikTok";
               youtube := js "On YouTube";
               facebook := js "On Facebook" |},
     [] ++ [social_request (buildSocialPrompt intro_transcript)]).
Proof.
  split; [| split].
  - apply (proj1 (@valid_first_response_is_returned wider_host
                    (answering summary_json) intro_transcript [])
                 _ {| message_content := Some summary_json |});
      by_vm.
  - apply (proj1 (proj2 (@valid_first_response_is_returned wider_host
                           (answering titles_json) intro_transcript []))
                 _ {| message_content := Some titles_json |});
      by_vm.
  - apply (proj2 (proj2 (@valid_first_response_is_returned wider_host
                           (answering (posts_json short_tweet))
                           intro_transcript []))
                 {| message_content := Some (posts_json short_tweet) |});
      [by_vm | by_vm | vm_compute; lia].
Defined.

Lemma valid_repair_response_is_returned_witness :
  generateSummary (H := wider_host) (answering_then not_json summary_json)
    intro_transcript []
  = (Return example_summary,
     [] ++ [summary_request
              (prompt_or_empty (buildSummaryPrompt intro_transcript));
            summary_repair_request]) /\
  generateTitles (H := wider_host) (answering_then not_json titles_json)
    intro_transcript []
  = (Return example_titles,
     [] ++ [titles_request
              (prompt_or_empty (buildTitlesPrompt intro_transcript));
            titles_repair_request]).
Proof.
  split.
  - apply (proj1 (@valid_repair_response_is_returned wider_host
                    (answering_then not_json summary_json) intro_transcript [])
                 _ {| message_content := Some not_json |} SyntaxError
                 {| message_content := Some summary_json |});
      by_vm.
  - apply (proj1 (proj2 (@valid_repair_response_is_returned wider_host
                           (answering_then not_json titles_json)
                           intro_transcript []))
                 _ {| message_content := Some not_json |} SyntaxError
                 {| message_content := Some titles_json |});
      by_vm.
Defined.

Lemma first_call_failure_gives_error_placeholder_witness :
  generateSummary (H := wider_host) rejecting intro_transcript []
  = (Return summary_error_fallback,
     [] ++ [summary_request
              (prompt_or_empty (buildSummaryPrompt intro_transcript))]) /\
  generateSocialPosts (H := wider_host) rejecting intro_transcript []
  = (Return social_error_fallback,
     [] ++ [social_request (buildSocialPrompt intro_transcript)]).
Proof.
  split.
  - apply (proj1 (@first_call_failure_gives_error_placeholder wider_host
                    rejecting intro_transcript [])
                 _ TransportError);
      by_vm.
  - apply (proj2 (proj2 (@first_call_failure_gives_error_placeholder wider_host
                           rejecting intro_transcript []))
                 TransportError).
    reflexivity.
Defined.

Lemma repair_call_failure_gives_repair_fallback_witness :
  generateTitles (H := wider_host) (answering_once not_json) intro_transcript []
  = (Return titles_repair_fallback,
     [] ++ [titles_request
              (prompt_or_empty (buildTitlesPrompt intro_transcript));
            titles_repair_request]) /\
  generateSummary (H := wider_host) (answering_once not_json) intro_transcript []
  = (Return {| full := firstn 500
                         (js "Welcome to the show. Today we talk about automation.");
               bullets := [js "Full transcript available"];
               insights := [js "See transcript"];
               tldr := firstn 200
                         (js "Welcome to the show. Today we talk about automation.") |},
     [] ++ [summary_request
              (prompt_or_empty (buildSummaryPrompt intro_transcript));
            summary_repair_request]).
Proof.
  split.
  - apply (proj1 (proj2 (@repair_call_failure_gives_repair_fallback wider_host
                           (answering_once not_json) intro_transcript []))
                 _ {| message_content := Some not_json |} SyntaxError
                 TransportError);
      by_vm.
  - apply (proj1 (@repair_call_failure_gives_repair_fallback wider_host
                    (answering_once not_json) intro_transcript [])
                 _ _ {| message_content := Some not_json |} SyntaxError
                 TransportError);
      by_vm.
Defined.

Lemma missing_transcript_field_issues_no_call_witness :
  generateSummary (H := wider_host) (answering summary_json)
    (with_chapters intro_transcript None) []
  = (Return summary_error_fallback, []) /\
  generateTitles (H := wider_host) (answering summary_json)
    (with_chapters intro_transcript None) []
  = (Return titles_error_fallback, []).
Proof.
  apply (@missing_transcript_field_issues_no_call wider_host
           (answering summary_json) (with_chapters intro_transcript None) []).
  right. reflexivity.
Defined.

Lemma repair_call_is_sampled_lower_witness :
  repair_sampled_lower
    [social_request (buildSocialPrompt intro_transcript); social_repair_request].
Proof.
  apply (proj1 (proj2 (@repair_call_is_sampled_lower wider_host
                         (answering not_json) intro_transcript []
                         [social_request (buildSocialPrompt intro_transcript);
                          social_repair_request]))).
  by_vm.
Defined.



Lemma first_title_of_a_slot_decides_witness :
  (exists r item,
      generateYouTubeTimestamps (H := wider_host) (answering contested_titles)
        six_chapter_transcript []
      = (Return r, [primary_titles_request six_chapter_prompt]) /\
      nth_error r 0 = Some item /\
      description item = JStr (js "Kickoff")) /\
  (exists r item,
      generateYouTubeTimestamps (H := wider_host) (answering contested_titles)
        six_chapter_transcript []
      = (Return r, [primary_titles_request six_chapter_prompt]) /\
      nth_error r 1 = Some item /\
      description item = JStr (js "Chapter 2")).
Proof.
  assert (Hne : minute_chapters 6 <> []) by discriminate.
  assert (Hres : resolve_titles (H := wider_host) (answering contested_titles)
                   (timestamps_prompt
                      (chapterData_of (firstn 100 (minute_chapters 6)))) []
                 = (Return (JArr contested_titles_elements),
                    [primary_titles_request six_chapter_prompt]))
    by by_vm.
  assert (Htyped : Forall (fun t => t <> JNull) contested_titles_elements)
    by (repeat constructor; discriminate).
  split.
  - destruct (@first_title_of_a_slot_decides wider_host
                (answering contested_titles) six_chapter_transcript
                (minute_chapters 6) [] _ contested_titles_elements
                0 (example_chapter 0 (js "Chapter 1"))
                []
                [JObj [(js "index", JNum 0); (js "title", JStr (js "Second take"))];
                 JObj [(js "index", JNum 1); (js "title", JStr [])]]
                [(js "index", JNum 0); (js "title", JStr (js "Kickoff"))] 0%Q
                eq_refl Hne Hres Htyped)
      as (r & item & Hrun & Hnth & _ & Htitle & _);
      [by_vm | lia | by_vm | reflexivity | intros x [] | by_vm | by_vm |].
    exists r, item. split; [exact Hrun |]. split; [exact Hnth |].
    apply Htitle; by_vm.
  - destruct (@first_title_of_a_slot_decides wider_host
                (answering contested_titles) six_chapter_transcript
                (minute_chapters 6) [] _ contested_titles_elements
                1 (example_chapter 60000 (js "Chapter 2"))
                [JObj [(js "index", JNum 0); (js "title", JStr (js "Kickoff"))];
                 JObj [(js "index", JNum 0); (js "title", JStr (js "Second take"))]]
                []
                [(js "index", JNum 1); (js "title", JStr [])] 1%Q
                eq_refl Hne Hres Htyped)
      as (r & item & Hrun & Hnth & _ & _ & Hheadline);
      [by_vm | lia | by_vm | reflexivity
       | intros x [<- | [<- | []]]; by_vm | by_vm | by_vm |].
    exists r, item. split; [exact Hrun |]. split; [exact Hnth |].
    rewrite Hheadline; by_vm.
Defined.

Lemma empty_reply_means_no_titles_witness :
  generateYouTubeTimestamps (H := wider_host) silent intro_transcript []
  = (Return (map (fun ch =>
                    {| timestamp := formatTimestamp_spec (start ch / 1000)%Z;
                       description := JStr (headline ch) |})
                 (firstn 100 [example_chapter 0 (js "Welcome and introductions")])),
     [] ++ [primary_titles_request
              (timestamps_prompt
                 (chapterData_of
                    (firstn 100
                       [example_chapter 0 (js "Welcome and introductions")])))]).
Proof.
  assert (Hne : [example_chapter 0 (js "Welcome and introductions")] <> [])
    by discriminate.
  apply (@empty_reply_means_no_titles wider_host silent intro_transcript
           [example_chapter 0 (js "Welcome and introductions")] []
           {| message_content := None |} (JObj [(js "titles", JArr [])])
           eq_refl Hne eq_refl (or_introl eq_refl));
    by_vm.
Defined.

Lemma reply_without_titles_is_not_repaired_witness :
  generateYouTubeTimestamps (H := wider_host) (answering (js "{}"))
    intro_transcript []
  = (Return (map (fun ch =>
                    {| timestamp := formatTimestamp_spec (start ch / 1000)%Z;
                       description := JStr (headline ch) |})
                 (firstn 100 [example_chapter 0 (js "Welcome and introductions")])),
     [] ++ [primary_titles_request
              (timestamps_prompt
                 (chapterData_of
                    (firstn 100
                       [example_chapter 0 (js "Welcome and introductions")])))]).
Proof.
  assert (Hne : [example_chapter 0 (js "Welcome and introductions")] <> [])
    by discriminate.
  apply (@reply_without_titles_is_not_repaired wider_host (answering (js "{}"))
           intro_transcript
           [example_chapter 0 (js "Welcome and introductions")] []
           {| message_content := Some (js "{}") |} (JObj []) None
           eq_refl Hne eq_refl);
    by_vm.
Defined.

Lemma repaired_titles_are_used_witness :
  generateYouTubeTimestamps (H := wider_host) (answering_then not_json one_title)
    intro_transcript []
  = (Return (mapi (entry (H := wider_host)
                     [JObj [(js "index", JNum 0);
                            (js "title", JStr (js "Kickoff"))]])
                  (firstn 100
                     [example_chapter 0 (js "Welcome and introductions")])),
     [] ++ [primary_titles_request
              (timestamps_prompt
                 (chapterData_of
                    (firstn 100
                       [example_chapter 0 (js "Welcome and introductions")])));
            repair_titles_request]) /\
  mapi (entry (H := wider_host)
          [JObj [(js "index", JNum 0); (js "title", JStr (js "Kickoff"))]])
       (firstn 100 [example_chapter 0 (js "Welcome and introductions")])
  = [{| timestamp := js "0:00"; description := JStr (js "Kickoff") |}].
Proof.
  assert (Hne : [example_chapter 0 (js "Welcome and introductions")] <> [])
    by discriminate.
  split; [| by_vm].
  apply (@repaired_titles_are_used wider_host (answering_then not_json one_title)
           intro_transcript
           [example_chapter 0 (js "Welcome and introductions")] []
           {| message_content := Some not_json |}
           {| message_content := Some one_title |}
           (JObj [(js "titles",
                   JArr [JObj [(js "index", JNum 0);
                               (js "title", JStr (js "Kickoff"))]])])
           [JObj [(js "index", JNum 0); (js "title", JStr (js "Kickoff"))]]
           eq_refl Hne eq_refl);
    [left; by_vm | by_vm | by_vm | by_vm | repeat constructor; discriminate
     | by_vm].
Defined.

Lemma timestamps_repair_call_failure_is_absorbed_witness :
  generateYouTubeTimestamps (H := wider_host) (answering_once (js "null"))
    intro_transcript []
  = (Return (map (fun ch =>
                    {| timestamp := formatTimestamp_spec (start ch / 1000)%Z;
                       description := JStr (headline ch) |})
                 (firstn 100 [example_chapter 0 (js "Welcome and introductions")])),
     [] ++ [primary_titles_request
              (timestamps_prompt
                 (chapterData_of
                    (firstn 100
                       [example_chapter 0 (js "Welcome and introductions")])));
            repair_titles_request]).
Proof.
  assert (Hne : [example_chapter 0 (js "Welcome and introductions")] <> [])
    by discriminate.
  apply (@timestamps_repair_call_failure_is_absorbed wider_host
           (answering_once (js "null")) intro_transcript
           [example_chapter 0 (js "Welcome and introductions")] []
           {| message_content := Some (js "null") |} TransportError
           eq_refl Hne eq_refl);
    [right; by_vm | by_vm].
Defined.

Lemma timestamps_result_follows_chapters_witness :
  exists r,
    generateYouTubeTimestamps (H := wider_host) (answering contested_titles)
      six_chapter_transcript []
    = (Return r, [primary_titles_request six_chapter_prompt]) /\
    length r = 6 /\
    exists item,
      nth_error r 5 = Some item /\ timestamp item = js "5:00".
Proof.
  assert (Hne : minute_chapters 6 <> []) by discriminate.
  eexists. split; [by_vm |].
  match goal with
  | |- length ?r = _ /\ _ =>
      assert (Hrun : generateYouTubeTimestamps (H := wider_host)
                       (answering contested_titles) six_chapter_transcript []
                     = (Return r, [primary_titles_request six_chapter_prompt]))
        by by_vm
  end.
  destruct (@timestamps_result_follows_chapters wider_host
              (answering contested_titles) six_chapter_transcript
              (minute_chapters 6) [] _ _ eq_refl Hne Hrun)
    as [Hlen Hslots].
  split; [exact Hlen |].
  destruct (Hslots 5 (example_chapter 300000 (js "Chapter 6")))
    as (item & Hnth & Hts); [lia | reflexivity |].
  exists item. split; [exact Hnth |]. rewrite Hts. by_vm.
Defined.

Lemma null_title_element_throws_witness :
  generateYouTubeTimestamps (H := wider_host) (answering null_title)
    intro_transcript []
  = (Throw TypeError,
     [] ++ [primary_titles_request
              (timestamps_prompt
                 (chapterData_of
                    (firstn 100
                       [example_chapter 0 (js "Welcome and introductions")])))]).
Proof.
  assert (Hne : [example_chapter 0 (js "Welcome and introductions")] <> [])
    by discriminate.
  apply (@null_title_element_throws wider_host (answering null_title)
           intro_transcript
           [example_chapter 0 (js "Welcome and introductions")] []
           {| message_content := Some null_title |}
           (JObj [(js "titles", JArr [JNull])]) []
           eq_refl Hne eq_refl);
    by_vm.
Defined.

Lemma social_prompt_sources_witness :
  buildSocialPrompt intro_transcript
  = buildSocialPrompt (with_text intro_transcript None) /\
  buildSocialPrompt {| text := None; chapters := None |}
  = SOCIAL_PROMPT_HEAD ++ js "No summary available." ++ SOCIAL_PROMPT_TOPICS
    ++ js "See transcript" ++ SOCIAL_PROMPT_TAIL.
Proof.
  split.
  - apply (proj1 (social_prompt_sources intro_transcript)
                 (example_chapter 0 (js "Welcome and introductions")) [] None);
      [reflexivity | discriminate].
  - apply (proj2 (proj2 (social_prompt_sources
                           {| text := None; chapters := None |})));
      left; reflexivity.
Defined.

Lemma prompts_number_the_chapters_witness :
  contains (js "6. Chapter 6 - What is said in this part of the episode")
           (prompt_or_empty (buildSummaryPrompt six_chapter_transcript)) /\
  contains (js "Chapter 5: [300s]
Context: Chapter 6
Summary: What is said in this part of the episode")
           six_chapter_prompt.
Proof.
  destruct (@prompts_number_the_chapters six_chapter_transcript
              (minute_chapters 6) 5 (example_chapter 300000 (js "Chapter 6"))
              eq_refl eq_refl)
    as (Hsummary & _ & Htimestamps).
  split.
  - assert (Hline := Hsummary
                       (prompt_or_empty (buildSummaryPrompt six_chapter_transcript))).
    assert (Hprompt : buildSummaryPrompt six_chapter_transcript
                      = Return (prompt_or_empty
                                  (buildSummaryPrompt six_chapter_transcript)))
      by by_vm.
    specialize (Hline Hprompt).
    replace (js "6. Chapter 6 - What is said in this part of the episode")
      with (js_of_nat (5 + 1) ++ js ". "
              ++ headline (example_chapter 300000 (js "Chapter 6"))
              ++ js " - " ++ summary (example_chapter 300000 (js "Chapter 6")))
      by by_vm.
    exact Hline.
  - assert (H5 : 5 < 100) by lia. specialize (Htimestamps H5).
    replace (js "Chapter 5: [300s]
Context: Chapter 6
Summary: What is said in this part of the episode")
      with (js "Chapter " ++ js_of_nat 5 ++ js ": ["
              ++ js_of_Z (start (example_chapter 300000 (js "Chapter 6")) / 1000)
              ++ js "s]
Context: " ++ headline (example_chapter 300000 (js "Chapter 6")) ++ js "
Summary: " ++ summary (example_chapter 300000 (js "Chapter 6")))
      by by_vm.
    exact Htimestamps.
Defined.

Lemma index_must_be_a_number_witness :
  generateYouTubeTimestamps (H := wider_host) (answering string_index_title)
    intro_transcript []
  = (Return (map (fun ch =>
                    {| timestamp := formatTimestamp_spec (start ch / 1000)%Z;
                       description := JStr (headline ch) |})
                 (firstn 100 [example_chapter 0 (js "Welcome and introductions")])),
     [primary_titles_request
        (timestamps_prompt
           (chapterData_of
              (firstn 100
                 [example_chapter 0 (js "Welcome and introductions")])))]).
Proof.
  assert (Hne : [example_chapter 0 (js "Welcome and introductions")] <> [])
    by discriminate.
  apply (@index_must_be_a_number wider_host (answering string_index_title)
           intro_transcript
           [example_chapter 0 (js "Welcome and introductions")] [] _
           [JObj [(js "index", JStr (js "0")); (js "title", JStr (js "Kickoff"))]]
           eq_refl Hne);
    [by_vm |].
  repeat constructor; [discriminate |].
  intros q Hq. vm_compute in Hq. discriminate.
Defined.

Lemma unprintable_title_in_first_three_throws_witness :
  generateYouTubeTimestamps (H := object_title_host) (answering (object_title 0))
    six_chapter_transcript []
  = (Throw TypeError, [primary_titles_request six_chapter_prompt]) /\
  generateYouTubeTimestamps (H := object_title_host) (answering (object_title 3))
    six_chapter_transcript []
  = (Return (mapi (entry (H := object_title_host) (object_title_elements 3))
               (firstn 100 (minute_chapters 6))),
     [primary_titles_request six_chapter_prompt]) /\
  nth_error (mapi (entry (H := object_title_host) (object_title_elements 3))
               (firstn 100 (minute_chapters 6))) 3
  = Some {| timestamp := js "3:00";
            description := JObj [(js "toString", JNum 1)] |}.
Proof.
  assert (Hne : minute_chapters 6 <> []) by discriminate.
  assert (Hres : forall slot,
             slot = 0 \/ slot = 3 ->
             resolve_titles (H := object_title_host)
               (answering (object_title slot))
               (timestamps_prompt
                  (chapterData_of (firstn 100 (minute_chapters 6)))) []
             = (Return (JArr (object_title_elements slot)),
                [primary_titles_request six_chapter_prompt]))
    by (intros slot [-> | ->]; by_vm).
  assert (Htyped : forall slot,
             Forall (fun t => t <> JNull) (object_title_elements slot))
    by (intros slot; repeat constructor; discriminate).
  split; [| split; [| by_vm]].
  - apply (proj1 (@unprintable_title_in_first_three_throws object_title_host
                    (answering (object_title 0)) six_chapter_transcript
                    (minute_chapters 6) [] _ (object_title_elements 0)
                    eq_refl Hne (Hres 0 (or_introl eq_refl)) (Htyped 0))).
    exists 0. eexists. split; [lia |]. split; by_vm.
  - apply (proj2 (@unprintable_title_in_first_three_throws object_title_host
                    (answering (object_title 3)) six_chapter_transcript
                    (minute_chapters 6) [] _ (object_title_elements 3)
                    eq_refl Hne (Hres 3 (or_intror eq_refl)) (Htyped 3))).
    intros i item Hi Hnth.
    destruct i as [| [| [| i]]]; [| | | lia];
      vm_compute in Hnth; injection Hnth as <-; reflexivity.
Defined.
